(** * HomeNode DCAD scraper: value normalizers, detail parser and paged search

    A shallow embedding of the parts of the Python sources that the
    specification talks about, then the vocabulary of the specification
    and the pages its statements are tried on, then the theorems that
    settle each statement of the specification against the code.

    Modelling conventions.
    - Python [str] is [string]; only 7-bit text is modelled (bytes above 127
      are treated as caseless non-space characters).
    - Python [int] is [Z]; [decimal.Decimal] is the type [decimal] below
      (sign, coefficient, exponent), with the default context (28 digits,
      half-even) made explicit wherever an operation rounds.
    - [None] is [None]; a function that may raise returns [result].
    - A parsed document (BeautifulSoup tree) is the type [node]; turning HTML
      text into a tree is left to the parser, which is a parameter wherever a
      function receives HTML text.
    - Python dictionaries are [gmap string _]; sets are [gset string]. *)

From Stdlib Require Import ZArith NArith String Ascii List Bool Lia DecimalString.
From Stdlib Require DecimalFacts DecimalPos DecimalN.
From stdpp Require Import base option list gmap strings.

Import ListNotations.
Local Open Scope string_scope.
Local Open Scope Z_scope.

(** ** Characters and strings *)

Module Str.

Definition code (c : ascii) : N := N_of_ascii c.

Definition in_range (lo hi : N) (c : ascii) : bool :=
  ((lo <=? code c) && (code c <=? hi))%N.

(** Python's [\s] and [str.strip] whitespace, 7-bit part. *)
Definition is_space (c : ascii) : bool := in_range 9 13 c || in_range 28 32 c.
Definition is_digit (c : ascii) : bool := in_range 48 57 c.
Definition is_upper (c : ascii) : bool := in_range 65 90 c.
Definition is_lower (c : ascii) : bool := in_range 97 122 c.

Definition lower_char (c : ascii) : ascii :=
  if is_upper c then ascii_of_N (code c + 32) else c.
Definition upper_char (c : ascii) : ascii :=
  if is_lower c then ascii_of_N (code c - 32) else c.

Fixpoint map (f : ascii -> ascii) (s : string) : string :=
  match s with
  | EmptyString => EmptyString
  | String c r => String (f c) (map f r)
  end.

Definition lower : string -> string := map lower_char.
Definition upper : string -> string := map upper_char.

Fixpoint filter (p : ascii -> bool) (s : string) : string :=
  match s with
  | EmptyString => EmptyString
  | String c r => if p c then String c (filter p r) else filter p r
  end.

Fixpoint forallb (p : ascii -> bool) (s : string) : bool :=
  match s with
  | EmptyString => true
  | String c r => p c && forallb p r
  end.

Fixpoint lstrip (s : string) : string :=
  match s with
  | String c r => if is_space c then lstrip r else s
  | EmptyString => EmptyString
  end.

Fixpoint rstrip (s : string) : string :=
  match s with
  | EmptyString => EmptyString
  | String c r =>
      match rstrip r with
      | EmptyString => if is_space c then EmptyString else String c EmptyString
      | r' => String c r'
      end
  end.

Definition strip (s : string) : string := rstrip (lstrip s).

(** [re.sub(r'\s+', ' ', s)]: every maximal run of whitespace becomes one
    blank. [in_ws] tells that the previous character was whitespace. *)
Fixpoint collapse_ws_from (in_ws : bool) (s : string) : string :=
  match s with
  | EmptyString => EmptyString
  | String c r =>
      if is_space c
      then if in_ws then collapse_ws_from true r
           else String " " (collapse_ws_from true r)
      else String c (collapse_ws_from false r)
  end.

Definition collapse_ws : string -> string := collapse_ws_from false.

Fixpoint starts_with (p s : string) : bool :=
  match p, s with
  | EmptyString, _ => true
  | String a p', String b s' => Ascii.eqb a b && starts_with p' s'
  | String _ _, EmptyString => false
  end.

(** [needle in hay]. *)
Fixpoint contains (needle hay : string) : bool :=
  starts_with needle hay ||
  match hay with
  | EmptyString => false
  | String _ r => contains needle r
  end.

Fixpoint drop (n : nat) (s : string) : string :=
  match n, s with
  | O, _ => s
  | S n', String _ r => drop n' r
  | S _, EmptyString => EmptyString
  end.

(** [s.replace(old, new)] for a non-empty [old]: leftmost, non-overlapping. *)
Fixpoint replace_fuel (fuel : nat) (old new s : string) : string :=
  match fuel with
  | O => s
  | S fuel' =>
      match s with
      | EmptyString => EmptyString
      | String c r =>
          if starts_with old s
          then new ++ replace_fuel fuel' old new (drop (String.length old) s)
          else String c (replace_fuel fuel' old new r)
      end
  end.

Definition replace (old new s : string) : string :=
  replace_fuel (String.length s) old new s.

(** The longest prefix of characters satisfying [p], and the rest. *)
Fixpoint span (p : ascii -> bool) (s : string) : string * string :=
  match s with
  | String c r =>
      if p c then let '(a, b) := span p r in (String c a, b) else (EmptyString, s)
  | EmptyString => (EmptyString, EmptyString)
  end.

(** [s.split(sep)] for a one-character separator. *)
Fixpoint split_on (sep : ascii) (s : string) : list string :=
  match s with
  | EmptyString => [EmptyString]
  | String c r =>
      if Ascii.eqb c sep then EmptyString :: split_on sep r
      else match split_on sep r with
           | w :: ws => String c w :: ws
           | [] => [String c EmptyString]
           end
  end.

(** [s.split()]: the maximal runs of non-whitespace characters. *)
Definition split_ws (s : string) : list string :=
  List.filter (fun w => negb (String.eqb w EmptyString))
    (split_on " " (collapse_ws s)).

Definition mem (s : string) (l : list string) : bool :=
  existsb (String.eqb s) l.

(** Truthiness of a Python string. *)
Definition truthy (s : string) : bool := negb (String.eqb s EmptyString).

Fixpoint join (sep : string) (l : list string) : string :=
  match l with
  | [] => EmptyString
  | [x] => x
  | x :: r => x ++ sep ++ join sep r
  end.

(** Decimal digits to a number (most significant first). *)
Fixpoint digits_value_from (acc : N) (s : string) : N :=
  match s with
  | EmptyString => acc
  | String c r => digits_value_from (10 * acc + (code c - 48))%N r
  end.

Definition digits_value : string -> N := digits_value_from 0%N.

Definition rev (s : string) : string :=
  string_of_list_ascii (List.rev (list_ascii_of_string s)).

Definition ends_with (p s : string) : bool := starts_with (rev p) (rev s).

(** [s[1:-1]] *)
Definition strip_ends (s : string) : string := rev (drop 1 (rev (drop 1 s))).

End Str.

(** ** Exceptions *)

Inductive exn : Type :=
| ValueError
| OverflowError
| InvalidOperation
| AttributeError
| NameError (name : string)
| DecimalOverflow
| HTTPStatusError.

Inductive result (A : Type) : Type :=
| Ok (a : A)
| Raise (e : exn).

Arguments Ok {A} a.
Arguments Raise {A} e.

#[global] Instance result_ret : MRet result := fun A a => Ok a.
#[global] Instance result_bind : MBind result := fun A B k m =>
  match m with
  | Ok a => k a
  | Raise e => Raise e
  end.

(** [try: ... except Exception: ...] around a computation. *)
Definition try_except {A : Type} (m : result A) (handler : A) : A :=
  match m with
  | Ok a => a
  | Raise _ => handler
  end.

Definition is_ok {A : Type} (m : result A) : bool :=
  match m with
  | Ok _ => true
  | Raise _ => false
  end.

(** ** [decimal.Decimal]

    A value is a signed coefficient with a power-of-ten exponent, an
    infinity or a NaN, as in the C implementation on a 64-bit build.
    Construction from text is exact. *)

Module Dec.

Inductive decimal : Type :=
| DFin (neg : bool) (coeff : N) (exp : Z)
| DInf (neg : bool)
| DNaN (neg signaling : bool) (payload : N).

Definition of_Z (z : Z) : decimal := DFin (z <? 0) (Z.abs_N z) 0.

Definition split_sign (s : string) : bool * string :=
  match s with
  | String "-" r => (true, r)
  | String "+" r => (false, r)
  | _ => (false, s)
  end.

Definition all_digits (s : string) : bool := Str.forallb Str.is_digit s.

(** The optional exponent part [E[-+]?\d+] up to the end of the text. *)
Definition parse_exponent (s : string) : option Z :=
  match s with
  | EmptyString => Some 0
  | String e r =>
      if Ascii.eqb (Str.lower_char e) "e" then
        let '(neg, d) := split_sign r in
        if Str.truthy d && all_digits d then
          let v := Z.of_N (Str.digits_value d) in
          Some (if neg then - v else v)
        else None
      else None
  end.

(** Number of decimal digits of a coefficient (1 for zero). *)
Definition ndigits (c : N) : Z :=
  Z.of_nat (String.length (NilZero.string_of_uint (N.to_uint c))).

(** The limits of exact construction (64-bit build): the adjusted exponent
    is at most [MAX_EMAX] and the exponent at least the least exponent of
    the widest context. *)
Definition MAX_EMAX : Z := 999999999999999999.
Definition MIN_ETINY : Z := -1999999999999999997.

Definition exponent_out_of_range (c : N) (exp : Z) : bool :=
  (MAX_EMAX <? exp + ndigits c - 1) || (exp <? MIN_ETINY).

(** [Decimal(s)] for a string: surrounding whitespace and underscores are
    dropped, then the text must be a numeric string. Invalid syntax signals
    [InvalidOperation], which the default context traps; so does a number
    that the widest context cannot hold exactly. That limit is checked
    where the text has an exponent part: a text without one would need
    more than 10^18 digits to reach it. *)
Definition of_string (s : string) : result decimal :=
  let t := Str.filter (fun c => negb (Ascii.eqb c "_")) (Str.strip s) in
  let '(neg, r) := split_sign t in
  let l := Str.lower r in
  if Str.mem l ["inf"; "infinity"] then Ok (DInf neg)
  else if Str.starts_with "nan" l then
    let d := Str.drop 3 l in
    if all_digits d then Ok (DNaN neg false (Str.digits_value d))
    else Raise InvalidOperation
  else if Str.starts_with "snan" l then
    let d := Str.drop 4 l in
    if all_digits d then Ok (DNaN neg true (Str.digits_value d))
    else Raise InvalidOperation
  else
    let '(ip, r1) := Str.span Str.is_digit r in
    let '(fp, r2) :=
      match r1 with
      | String "." r' => Str.span Str.is_digit r'
      | _ => (EmptyString, r1)
      end in
    if Str.truthy ip || Str.truthy fp then
      match parse_exponent r2 with
      | Some e =>
          let c := Str.digits_value (ip ++ fp) in
          let exp := e - Z.of_nat (String.length fp) in
          if Str.truthy r2 && exponent_out_of_range c exp then Raise InvalidOperation
          else Ok (DFin neg c exp)
      | None => Raise InvalidOperation
      end
    else Raise InvalidOperation.

(** The signed numerator of a finite value once scaled to exponent [e]
    (for [e] not above the value's own exponent). *)
Definition scaled (neg : bool) (coeff : N) (exp e : Z) : Z :=
  let m := Z.of_N coeff * 10 ^ (exp - e) in
  if neg then - m else m.

(** Truthiness: a decimal is false exactly when it is a zero. *)
Definition truthy (d : decimal) : bool :=
  match d with
  | DFin _ c _ => negb (c =? 0)%N
  | _ => true
  end.

(** [int(d)]: truncation toward zero. *)
Definition to_int (d : decimal) : result Z :=
  match d with
  | DNaN _ _ _ => Raise ValueError
  | DInf _ => Raise OverflowError
  | DFin neg c e =>
      let m := if 0 <=? e then Z.of_N c * 10 ^ e
               else Z.of_N c / 10 ^ (- e) in
      Ok (if neg then - m else m)
  end.

(** Rounding a non-negative quotient half to even: [n / d] with remainder. *)
Definition div_half_even (n d : Z) : Z :=
  let q := n / d in
  let r := n mod d in
  if (d <? 2 * r) || ((d =? 2 * r) && Z.odd q) then q + 1 else q.

(** [round(d)]: the nearest integer, ties to even; exact. *)
Definition round (d : decimal) : result Z :=
  match d with
  | DNaN _ _ _ => Raise ValueError
  | DInf _ => Raise OverflowError
  | DFin neg c e =>
      let m := if 0 <=? e then Z.of_N c * 10 ^ e
               else div_half_even (Z.of_N c) (10 ^ (- e)) in
      Ok (if neg then - m else m)
  end.

(** [a >= b]. An ordering comparison involving a NaN signals
    [InvalidOperation]. *)
Definition ge (a b : decimal) : result bool :=
  match a, b with
  | DNaN _ _ _, _ | _, DNaN _ _ _ => Raise InvalidOperation
  | DInf na, DInf nb => Ok (negb na || nb)
  | DInf na, DFin _ _ _ => Ok (negb na)
  | DFin _ _ _, DInf nb => Ok nb
  | DFin na ca ea, DFin nb cb eb =>
      let e := Z.min ea eb in
      Ok (scaled nb cb eb e <=? scaled na ca ea e)
  end.

Definition ge_int (a : decimal) (z : Z) : result bool := ge a (of_Z z).

(** The default context. *)
Definition prec : Z := 28.
Definition Emax : Z := 999999.
Definition Emin : Z := -999999.
Definition Etiny : Z := Emin - prec + 1.
Definition Etop : Z := Emax - prec + 1.

(** Rounding an exact finite result to the context ([Decimal._fix]):
    at most [prec] digits, half-even; [Overflow] is trapped. *)
Definition fix_ctx (neg : bool) (c : N) (e : Z) : result decimal :=
  if (c =? 0)%N then Ok (DFin neg 0 (Z.min (Z.max e Etiny) Emax))
  else
    let exp_min0 := ndigits c + e - prec in
    if Etop <? exp_min0 then Raise DecimalOverflow
    else
      let exp_min := Z.max exp_min0 Etiny in
      if e <? exp_min then
        let q := div_half_even (Z.of_N c) (10 ^ (exp_min - e)) in
        let '(q', e') := if prec <? ndigits (Z.to_N q)
                         then (q / 10, exp_min + 1) else (q, exp_min) in
        if Etop <? e' then Raise DecimalOverflow
        else Ok (DFin neg (Z.to_N q') e')
      else Ok (DFin neg c e).

(** [a - b] in the default context. *)
Definition sub (a b : decimal) : result decimal :=
  match a, b with
  | DNaN n s p, _ => if s then Raise InvalidOperation else Ok (DNaN n false p)
  | _, DNaN n s p => if s then Raise InvalidOperation else Ok (DNaN n false p)
  | DInf na, DInf nb => if Bool.eqb na nb then Raise InvalidOperation else Ok (DInf na)
  | DInf na, DFin _ _ _ => Ok (DInf na)
  | DFin _ _ _, DInf nb => Ok (DInf (negb nb))
  | DFin na ca ea, DFin nb cb eb =>
      let e := Z.min ea eb in
      let m := scaled na ca ea e - scaled nb cb eb e in
      let neg := if m =? 0 then (if (ca =? 0)%N && (cb =? 0)%N then na && negb nb else false)
                 else m <? 0 in
      fix_ctx neg (Z.abs_N m) e
  end.

End Dec.

Abbreviation decimal := Dec.decimal.

(** ** Integers, floats and their text *)

(** The decimal numeral of an integer. *)
Definition str_of_int (z : Z) : string := NilZero.string_of_int (Z.to_int z).

(** The limit on the digits of an integer in conversions between [int] and
    [str] (the default of [sys.set_int_max_str_digits]). *)
Definition max_str_digits : Z := 4300.

(** [str(n)] for an integer: [ValueError] for more than 4300 digits.
    Memory limits are not modelled. *)
Definition py_str (z : Z) : result string :=
  if max_str_digits <? Dec.ndigits (Z.abs_N z) then Raise ValueError
  else Ok (str_of_int z).

(** [float(n)] for an integer: the nearest binary64 value, ties to even,
    given as the integer it equals; [OverflowError] when out of range. *)
Definition float_of_int (n : Z) : result Z :=
  let a := Z.abs n in
  let v :=
    if a <? 2 ^ 53 then a
    else
      let e := Z.log2 a - 52 in
      Dec.div_half_even a (2 ^ e) * 2 ^ e in
  if 2 ^ 1024 <=? v then Raise OverflowError
  else Ok (if n <? 0 then - v else v).

(** Digits in groups of three from the right, separated by commas. *)
Fixpoint group3_rev (l : list ascii) : list ascii :=
  match l with
  | a :: b :: c :: ((_ :: _) as r) => a :: b :: c :: ","%char :: group3_rev r
  | _ => l
  end.

Definition group3 (digits : string) : string :=
  string_of_list_ascii
    (rev (group3_rev (rev (list_ascii_of_string digits)))).

(** [format(x, ',.0f')] for an integer-valued float [x]. *)
Definition format_comma_f0 (x : Z) : string :=
  (if x <? 0 then "-" else "") ++ group3 (str_of_int (Z.abs x)).

(** ** The value normalizers of [normalize.py]

    [scraper/dcad/parse_detail.py] imports [clean_text], [to_bool],
    [to_num], [to_sqft] and [pct_to_num] from its sibling module
    [normalize]; the repository holds that module as
    [backup/dcad/normalize.py], which is what is embedded here. *)

Module Normalize.

(** [re.sub(r'\s+', ' ', s or '').strip()] *)
Definition clean_text (s : option string) : string :=
  Str.strip (Str.collapse_ws (default "" s)).


Definition to_num (s : option string) : option decimal :=
  let s := Str.replace "%" "" (Str.replace "," "" (clean_text s)) in
  if Str.mem (Str.lower s) [""; "n/a"; "na"; "-"; "none"] then None
  else try_except (d ← Dec.of_string s; Ok (Some d)) None.

Definition to_sqft (s : option string) : option decimal :=
  let s := Str.replace "sf" "" (Str.replace "sqft" "" (Str.lower (clean_text s))) in
  to_num (Some s).

Definition pct_to_num (s : option string) : option decimal :=
  let s := Str.replace "%" "" (clean_text s) in
  to_num (Some s).

End Normalize.

(** ** The numeric coercion of the persistence layer,
    [scraper/dcad/upsert.py] *)

Module Upsert.

Definition _NULLISH : list string :=
  [""; "N/A"; "NA"; "NONE"; "UNASSIGNED"; "NULL"; "N\A"].

Definition _is_nullish (v : option string) : bool :=
  match v with
  | None => true
  | Some v => Str.mem (Str.upper (Str.strip v)) _NULLISH
  end.

Definition to_decimal_or_none (v : option string) : option decimal :=
  if _is_nullish v then None
  else
    let s := default "" v in
    let s := Str.strip (Str.replace "," "" (Str.replace "%" "" (Str.replace "$" "" s))) in
    let s := if Str.starts_with "(" s && Str.ends_with ")" s
             then "-" ++ Str.strip_ends s else s in
    if String.eqb s "" then None
    else try_except (d ← Dec.of_string s; Ok (Some d)) None.

(** For a text or [None], as the callers pass. *)
Definition to_text_or_none (v : option string) : option string :=
  if _is_nullish v then None else Some (Str.strip (default "" v)).

End Upsert.

(** ** The helpers of the stand-alone parser
    [dcad-scraper/scraper/dcad/parse_detail.py] *)

Module Scraper.

(** [_t]: tidy text, [None] for blank. *)
Definition _t (s : option string) : option string :=
  match s with
  | None => None
  | Some s =>
      let s := Str.strip s in
      if Str.truthy s then Some (Str.collapse_ws s) else None
  end.

(** A Python float, kept as the decimal numeral it was read from: the
    value is the binary64 number nearest to that numeral. *)
Record pyfloat : Type := Float { float_neg : bool; float_int : string; float_frac : string }.

(** [float(s)] for text made of digits, points and minus signs only: an
    optional sign, then digits with at most one point and at least one
    digit. *)
Definition float_of_cleaned (s : string) : result pyfloat :=
  let '(neg, r) := match s with String "-" r => (true, r) | _ => (false, s) end in
  let '(ip, r1) := Str.span Str.is_digit r in
  let '(fp, r2) :=
    match r1 with
    | String "." r' => Str.span Str.is_digit r'
    | _ => (EmptyString, r1)
    end in
  if (Str.truthy ip || Str.truthy fp) && negb (Str.truthy r2)
  then Ok (Float neg ip fp) else Raise ValueError.

(** [int(s)] for text made of digits and minus signs only: [ValueError]
    for text that is no numeral, and for a numeral of more than 4300
    digits (leading zeros count). *)
Definition int_of_cleaned (s : string) : result Z :=
  let '(neg, r) := match s with String "-" r => (true, r) | _ => (false, s) end in
  if Str.truthy r && Dec.all_digits r
     && (Z.of_nat (String.length r) <=? max_str_digits)
  then Ok (let v := Z.of_N (Str.digits_value r) in if neg then - v else v)
  else Raise ValueError.

Definition money_char (c : ascii) : bool :=
  Str.is_digit c || Ascii.eqb c "." || Ascii.eqb c "-".

Definition int_char (c : ascii) : bool := Str.is_digit c || Ascii.eqb c "-".

Definition _money_to_num (s : option string) : option pyfloat :=
  match s with
  | None => None
  | Some s =>
      let s := Str.strip s in
      if negb (Str.truthy s) || String.eqb (Str.upper s) "N/A" then None
      else
        let cleaned := Str.filter money_char s in
        if Str.mem cleaned [""; "-"; "."; "-."] then None
        else try_except (f ← float_of_cleaned cleaned; Ok (Some f)) None
  end.

Definition _floatish : option string -> option pyfloat := _money_to_num.
Definition _pct_to_num : option string -> option pyfloat := _money_to_num.

Definition _intish (s : option string) : option Z :=
  match s with
  | None => None
  | Some s =>
      let s := Str.strip s in
      if negb (Str.truthy s) || String.eqb (Str.upper s) "N/A" then None
      else
        let cleaned := Str.filter int_char s in
        if Str.mem cleaned [""; "-"] then None
        else try_except (z ← int_of_cleaned cleaned; Ok (Some z)) None
  end.

End Scraper.

(** ** Parsed documents

    The tree BeautifulSoup builds: text nodes and tags with attributes and
    children. Tags found in a document are handled as [entry]s, which carry
    the position of the node in document order and the positions of its
    ancestors, so that [find_next] and [parent] can be followed. *)

Module Dom.

#[local] Set Warnings "-register-all".

Inductive node : Type :=
| Text (s : string)
| Tag (name : string) (attrs : list (string * string)) (children : list node).

Definition children (n : node) : list node :=
  match n with
  | Tag _ _ cs => cs
  | Text _ => []
  end.

Definition is_tag (n : node) : bool :=
  match n with
  | Tag _ _ _ => true
  | Text _ => false
  end.

(** [t.name in names] *)
Definition named (names : list string) (n : node) : bool :=
  match n with
  | Tag nm _ _ => Str.mem nm names
  | Text _ => false
  end.

Fixpoint assoc (k : string) (l : list (string * string)) : option string :=
  match l with
  | [] => None
  | (k', v) :: r => if String.eqb k k' then Some v else assoc k r
  end.

(** [t.get(k)] *)
Definition attr (k : string) (n : node) : option string :=
  match n with
  | Tag _ as_ _ => assoc k as_
  | Text _ => None
  end.

(** [t.get(k, "")] *)
Definition attr_or_empty (k : string) (n : node) : string := default "" (attr k n).

(** The tokens of the multi-valued [class] attribute. *)
Definition classes (n : node) : list string := Str.split_ws (attr_or_empty "class" n).

Definition has_class (c : string) (n : node) : bool := Str.mem c (classes n).

Definition has_id (i : string) (n : node) : bool :=
  match attr "id" n with
  | Some v => String.eqb v i
  | None => false
  end.

(** The node and everything below it, in document order. *)
Fixpoint flatten (n : node) : list node :=
  n :: match n with
       | Text _ => []
       | Tag _ _ cs => flat_map flatten cs
       end.

(** [t.descendants] *)
Definition descendants (n : node) : list node := flat_map flatten (children n).

(** [t.find_all(...)] with a predicate on nodes. *)
Definition find_all (p : node -> bool) (n : node) : list node :=
  List.filter p (descendants n).

(** [t.find(...)] *)
Definition find (p : node -> bool) (n : node) : option node :=
  List.find p (descendants n).

(** [t.find_all(..., recursive=False)] *)
Definition find_children (p : node -> bool) (n : node) : list node :=
  List.filter p (children n).

(** The text nodes at or below a node, in document order. *)
Definition strings (n : node) : list string :=
  flat_map (fun d => match d with Text s => [s] | Tag _ _ _ => [] end) (flatten n).

(** [t.get_text(sep, strip=strip)] *)
Definition get_text (sep : string) (strip : bool) (n : node) : string :=
  Str.join sep
    (if strip
     then List.filter Str.truthy (List.map Str.strip (strings n))
     else strings n).

Definition size (n : node) : nat := List.length (flatten n).

Record entry : Type := Entry { pos : nat; ancestors : list nat; nd : node }.

(** The entries of a subtree whose root stands at position [i] below the
    ancestors [anc] (nearest first). *)
Fixpoint entries_at (anc : list nat) (i : nat) (n : node) : list entry :=
  Entry i anc n ::
  match n with
  | Text _ => []
  | Tag _ _ cs =>
      (fix go (j : nat) (cs : list node) : list entry :=
         match cs with
         | [] => []
         | c :: r => (entries_at (i :: anc) j c ++ go (j + size c)%nat r)%list
         end) (S i) cs
  end.

(** All nodes of a document with their positions; the document root is
    entry 0 and is not itself a result of any search. *)
Definition entries (doc : node) : list entry := entries_at [] 0 doc.

Definition elements (doc : node) : list entry := List.tl (entries doc).

(** [soup.find(...)] returning the position as well. *)
Definition find_entry (p : node -> bool) (doc : node) : option entry :=
  List.find (fun e => p (nd e)) (elements doc).

Definition find_all_entries (p : node -> bool) (doc : node) : list entry :=
  List.filter (fun e => p (nd e)) (elements doc).

(** Everything parsed after an entry ([e.next_elements]) that satisfies
    [p], in document order. *)
Definition all_next (doc : node) (p : node -> bool) (e : entry) : list entry :=
  List.filter (fun x => (pos e <? pos x)%nat && p (nd x)) (elements doc).

(** [e.find_next(...)] *)
Definition find_next (doc : node) (p : node -> bool) (e : entry) : option entry :=
  List.head (all_next doc p e).

(** [e.parent] *)
Definition parent (doc : node) (e : entry) : option entry :=
  match ancestors e with
  | [] => None
  | i :: _ => nth_error (entries doc) i
  end.

(** Some ancestor of [e] satisfies [p]. *)
Definition has_ancestor (doc : node) (p : node -> bool) (e : entry) : bool :=
  existsb (fun i => match nth_error (entries doc) i with
                    | Some a => p (nd a)
                    | None => false
                    end) (ancestors e).

(** [soup.select_one("#outer #inner")] *)
Definition select_one_nested_ids (doc : node) (outer inner : string) : option node :=
  option_map nd
    (List.find (fun e => has_id inner (nd e) && has_ancestor doc (has_id outer) e)
       (elements doc)).

Definition soup (cs : list node) : node := Tag "[document]" [] cs.

End Dom.

Abbreviation node := Dom.node.

(** ** The detail parser, [scraper/dcad/parse_detail.py] *)

Module Detail.

Import Normalize Dom.

(** Values stored in the dictionaries the parser returns. [VFloat h] is
    the float [h / 2] (the parser only builds floats of that form). *)
Inductive pyval : Type :=
| VNone
| VStr (s : string)
| VDec (d : decimal)
| VInt (z : Z)
| VFloat (halves : Z).

Definition of_num (o : option decimal) : pyval :=
  match o with
  | Some d => VDec d
  | None => VNone
  end.

Definition is_none (v : pyval) : bool :=
  match v with
  | VNone => true
  | _ => false
  end.

(** [d.setdefault(k, v)] *)
Definition setdefault {V : Type} (k : string) (v : V) (d : gmap string V) : gmap string V :=
  match d !! k with
  | Some _ => d
  | None => <[k:=v]> d
  end.

(** [kv.get(k, "")] *)
Definition get_or_empty (kv : gmap string string) (k : string) : string :=
  default "" (kv !! k).

Fixpoint get_any (kv : gmap string string) (keys : list string) : string :=
  match keys with
  | [] => ""
  | k :: r =>
      match kv !! k with
      | Some v => if Str.truthy v then v else get_any kv r
      | None => get_any kv r
      end
  end.

Definition cells : node -> bool := named ["th"; "td"].

Definition _headers_lower (t : node) : list string :=
  let ths :=
    match find (named ["thead"]) t with
    | Some thead => find_all cells thead
    | None =>
        match find (named ["tr"]) t with
        | Some first => find_all cells first
        | None => []
        end
    end in
  List.filter Str.truthy (List.map (fun th => Str.lower (get_text " " true th)) ths).

Definition _txt (n : option node) (dflt : string) : string :=
  match n with
  | None => dflt
  | Some n =>
      let t := clean_text (Some (get_text "" true n)) in
      if Str.truthy t then t else dflt
  end.

Definition _num_or_na (text : option string) : string :=
  match text with
  | None => "N/A"
  | Some t => let t := clean_text (Some t) in if Str.truthy t then t else "N/A"
  end.

(** *** Table classification *)

Definition _NAV_WORDS : list string :=
  ["navigation"; "links"; "link"; "map"; "property map";
   "print"; "help"; "disclaimer"; "version"; "top"; "return"].

Definition any_in (words : list string) (text : string) : bool :=
  existsb (fun w => Str.contains w text) words.

Definition count_in (words : list string) (text : string) : nat :=
  List.length (List.filter (fun w => Str.contains w text) words).

Definition _is_nav_like_table (t : node) : bool :=
  let hdrs := Str.join " | " (_headers_lower t) in
  if any_in _NAV_WORDS hdrs then true
  else
    match find (named ["tr"]) t with
    | Some first_tr =>
        let cs := List.map (fun td => clean_text (Some (get_text "" false td)))
                    (find_all cells first_tr) in
        any_in _NAV_WORDS (Str.lower (Str.join " " cs))
    | None => false
    end.

Definition _is_land_like_table (t : node) : bool :=
  let hdrs := Str.join " | " (_headers_lower t) in
  let land_tokens := ["land"; "acre"; "acres"; "frontage"; "depth"; "zoning"] in
  let value_tokens := ["market"; "assessed"; "appraised"; "value"; "productivity"] in
  let hits := (count_in land_tokens hdrs + count_in value_tokens hdrs)%nat in
  (3 <=? hits)%nat && (negb (Str.contains "imp" hdrs) && negb (Str.contains "improvement" hdrs)).

Definition _is_main_impr_table (t : node) : bool :=
  let hdrs := _headers_lower t in
  let signals :=
    ["effective year built"; "year built"; "yr built"; "eff yr";
     "total living area"; "living area"; "total area";
     "stories"; "# stories"; "desirability"; "desirability code";
     "construction"; "construction type"; "foundation";
     "roof"; "roof type"; "roof material"; "exterior"; "ext. wall";
     "baths"; "bedrooms"] in
  existsb (fun sig => existsb (Str.contains sig) hdrs) signals.

Definition _is_addl_impr_table (t : node) : bool :=
  if _is_land_like_table t then false
  else if _is_nav_like_table t then false
  else
    let hdrs := _headers_lower t in
    let keys :=
      ["imp"; "improvement"; "type"; "desc"; "description"; "area"; "size"; "sq";
       "value"; "depr"; "depreciation"; "year"; "stories"; "wall"; "floor";
       "construction"; "ext"; "ext wall"] in
    let tokens :=
      list_sum (List.map (fun k => List.length (List.filter (Str.contains k) hdrs)) keys) in
    (3 <=? tokens)%nat.

(** *** Locators *)

Definition is_some {A : Type} (o : option A) : bool :=
  match o with
  | Some _ => true
  | None => false
  end.

Definition has_cell (t : node) : bool := is_some (find cells t).
Definition has_row (t : node) : bool := is_some (find (named ["tr"]) t).

(** The loop shared by the heading locators: follow [find_next("table")]
    at most twenty times and return the first table that holds a cell. *)
Definition first_table_with_cell (doc : node) (h : entry) : option node :=
  option_map nd
    (List.find (fun e => has_cell (nd e))
       (firstn 20 (all_next doc (named ["table"]) h))).

Definition is_section_header_span (n : node) : bool :=
  named ["span"] n && has_class "DtlSectionHdr" n.

Definition _find_after_header_span (doc : node) (header_id_prefix : string) : option node :=
  match find_entry (fun t => is_section_header_span t &&
                             Str.starts_with (Str.lower header_id_prefix)
                               (Str.lower (attr_or_empty "id" t))) doc with
  | None => None
  | Some hdr => first_table_with_cell doc hdr
  end.

Definition text_has (ht : string) (t : node) : bool :=
  Str.contains ht (Str.lower (get_text "" true t)).

Definition _table_after_heading (doc : node) (heading_text : string) : option node :=
  let ht := Str.lower heading_text in
  let h1 := find_entry (fun t => named ["h2"; "h3"; "h4"; "b"; "strong"] t && text_has ht t) doc in
  let h2 :=
    match h1 with
    | Some _ => h1
    | None => find_entry (fun t => is_section_header_span t && text_has ht t) doc
    end in
  let h3 :=
    match h2 with
    | Some _ => h2
    | None =>
        match find_entry (fun x => match x with
                                   | Text s => Str.truthy s && Str.contains ht (Str.lower s)
                                   | Tag _ _ _ => false
                                   end) doc with
        | Some n => parent doc n
        | None => None
        end
    end in
  match h3 with
  | None => None
  | Some h => first_table_with_cell doc h
  end.

(** The selector
    [h1,h2,h3,h4,strong,label,div.section-title,div.card-title,span.DtlSectionHdr]. *)
Definition heading_candidate (t : node) : bool :=
  named ["h1"; "h2"; "h3"; "h4"; "strong"; "label"] t
  || (named ["div"] t && (has_class "section-title" t || has_class "card-title" t))
  || is_section_header_span t.

Definition table_of_step (x : node) : option node :=
  if named ["table"] x && has_row x then Some x
  else
    match find (named ["table"]) x with
    | Some maybe => if has_row maybe then Some maybe else None
    | None => None
    end.

(** First result of [f] over a list. *)
Fixpoint first_some {A B : Type} (f : A -> option B) (l : list A) : option B :=
  match l with
  | [] => None
  | x :: r => match f x with Some y => Some y | None => first_some f r end
  end.

Definition _find_heading_table (doc : node) (phrases : list string) : option node :=
  first_some
    (fun tag =>
       let text := get_text " " true (nd tag) in
       if any_in (List.map Str.lower phrases) (Str.lower text)
       then first_some table_of_step
              (List.map nd (firstn 16 (all_next doc (named ["table"; "div"]) tag)))
       else None)
    (find_all_entries heading_candidate doc).

(** [a or b] on optional tags. *)
Definition or_else {A : Type} (a : option A) (b : option A) : option A :=
  match a with
  | Some _ => a
  | None => b
  end.

(** *** Generic extractors *)

(** [re.split(r"\s*:\s*", text, maxsplit=1)] followed by [strip] on both
    parts, for a text that holds a colon. *)
Fixpoint split_colon (s : string) : string * string :=
  match s with
  | EmptyString => (EmptyString, EmptyString)
  | String c r =>
      if Ascii.eqb c ":" then (EmptyString, r)
      else let '(a, b) := split_colon r in (String c a, b)
  end.

(** Successive two-cell pairs [(texts[i], texts[i+1])], [i = 0, 2, ...]. *)
Fixpoint pairs (texts : list string) : list (string * string) :=
  match texts with
  | k :: v :: r => (k, v) :: pairs r
  | _ => []
  end.

Definition class_matches (alts : list string) (n : node) : bool :=
  is_tag n && is_some (attr "class" n)
  && any_in alts (Str.lower (attr_or_empty "class" n)).

Definition put_pairs (ps : list (string * string)) (out : gmap string string)
  : gmap string string :=
  fold_left (fun o '(k, v) => if Str.truthy k then setdefault k v o else o) ps out.

Definition keyvalue_row (out : gmap string string) (tr : node) : gmap string string :=
  let texts := List.filter Str.truthy
                 (List.map (fun c => clean_text (Some (get_text "" false c)))
                    (find_all cells tr)) in
  match texts with
  | [] => out
  | [t] =>
      if Str.contains ":" t then
        let '(a, b) := split_colon t in
        let k := Str.strip a in
        if Str.truthy k then setdefault (Str.lower k) (Str.strip b) out else out
      else out
  | [k; v] => put_pairs [(Str.lower k, v)] out
  | _ =>
      let labels := find_all (class_matches ["fieldname"; "fieldlabel"]) tr in
      let values := find_all (class_matches ["fieldvalue"; "fieldval"]) tr in
      if negb (Nat.eqb (List.length labels) 0) && negb (Nat.eqb (List.length values) 0)
         && Nat.eqb (List.length labels) (List.length values)
      then put_pairs
             (List.map (fun '(L, V) =>
                          (Str.lower (clean_text (Some (get_text "" false L))),
                           clean_text (Some (get_text "" false V))))
                (combine labels values)) out
      else put_pairs (List.map (fun '(k, v) => (Str.lower k, v)) (pairs texts)) out
  end.

Definition parse_keyvalue_table (tbl : node) : gmap string string :=
  fold_left keyvalue_row (find_all (named ["tr"]) tbl) ∅.

(** The first match of [-?\d+(?:\.\d+)?] (with [minus]) or of
    [\d+(\.\d+)?] (without) in a text. *)
Fixpoint first_number_from (minus prev_minus : bool) (s : string) : option string :=
  match s with
  | EmptyString => None
  | String c r =>
      if Str.is_digit c then
        let '(ip, r1) := Str.span Str.is_digit s in
        let frac :=
          match r1 with
          | String "." r2 =>
              let '(fp, _) := Str.span Str.is_digit r2 in
              if Str.truthy fp then "." ++ fp else ""
          | _ => ""
          end in
        Some ((if minus && prev_minus then "-" else "") ++ ip ++ frac)
      else first_number_from minus (Ascii.eqb c "-") r
  end.

Definition first_number (minus : bool) (s : string) : option string :=
  first_number_from minus false s.

Definition story_words : list (string * Z) :=
  [("ONE", 1); ("TWO", 2); ("THREE", 3); ("FOUR", 4); ("FIVE", 5); ("SIX", 6)].

Definition _stories_to_number (s : string) : pyval :=
  if negb (Str.truthy s) then VNone
  else
    match first_number false s with
    | Some m => of_num (to_num (Some m))
    | None =>
        let s_up := Str.upper s in
        match List.find (fun '(w, _) => Str.contains w s_up) story_words with
        | Some (_, n) => if Str.contains "HALF" s_up then VFloat (2 * n + 1) else VInt n
        | None => VNone
        end
    end.

Definition map_yn_to_none (s : option string) : string :=
  match s with
  | None => "N/A"
  | Some _ =>
      let val := Str.upper (clean_text s) in
      if Str.mem val ["N"; "NO"; "FALSE"; "NONE"; "UNASSIGNED"; ""] then "NONE"
      else if Str.mem val ["Y"; "YES"; "TRUE"; "1"] then "Y"
      else if Str.truthy val then val else "N/A"
  end.

Definition _parse_baths_full_half (kv : gmap string string) : option decimal * option decimal :=
  match kv !! "# baths (full/half)" with
  | None => (None, None)
  | Some v =>
      if negb (Str.truthy v) then (None, None)
      else
        match List.map Str.strip (Str.split_on "/" (Str.replace " " "" v)) with
        | [a; b] => (to_num (Some a), to_num (Some b))
        | _ => (None, None)
        end
  end.

(** *** Main improvement *)

Definition _MAIN_HEADING_PHRASES : list string :=
  ["main improvement"; "main improvements"; "main building"; "primary improvement";
   "residential improvements"; "building information"; "improvements - main";
   "res improvements"; "primary building"].

Definition _resolve_main_improvement_table (doc : node) : option node :=
  or_else (_table_after_heading doc "main improvement")
    (or_else (_find_after_header_span doc "lblmainimp")
       (or_else (_find_heading_table doc _MAIN_HEADING_PHRASES)
          (List.find _is_main_impr_table (find_all (named ["table"]) doc)))).

Definition keys_of {V : Type} (m : gmap string V) : list string := (map_to_list m).*1.

Definition _find_best_main_by_content (doc : node) : option node :=
  let signals :=
    ["year built"; "effective year built"; "yr built"; "eff yr";
     "living area"; "total living area"; "total area";
     "# stories"; "stories";
     "desirability"; "construction"; "foundation";
     "roof type"; "roof material"; "exterior"; "ext. wall";
     "baths"; "bedrooms"; "basement"] in
  let '(best_tbl, best_score) :=
    fold_left
      (fun '(best_tbl, best_score) t =>
         if _is_nav_like_table t || _is_land_like_table t then (best_tbl, best_score)
         else
           let ks := keys_of (parse_keyvalue_table t) in
           let score := List.length
                          (List.filter (fun sg => existsb (Str.contains sg) ks) signals) in
           if (best_score <? score)%nat then (Some t, score) else (best_tbl, best_score))
      (find_all (named ["table"]) doc) (None, 0%nat) in
  if (3 <=? best_score)%nat then best_tbl else None.

(** [a or b] on strings. *)
Definition str_or (a b : string) : string := if Str.truthy a then a else b.

Definition main_improvement_fields (kv : gmap string string) : list (string * pyval) :=
  let g := get_or_empty kv in
  let s_text := str_or (g "# stories") (g "stories") in
  let s_num := _stories_to_number s_text in
  let '(bf, bh) := _parse_baths_full_half kv in
  let bedrooms_num :=
    to_num (Some (get_any kv ["# bedrooms"; "bedrooms"; "bed rooms"; "bed room"; "bedroom"])) in
  let raw_age := get_any kv ["actual age"; "age"] in
  let age_num :=
    if Str.truthy raw_age then
      match first_number true raw_age with
      | Some m => to_num (Some m)
      | None => None
      end
    else None in
  let desirability_id := to_num (Some (get_any kv ["desirability id"; "desirability code"])) in
  let desirability_val := g "desirability" in
  let basement_text := get_any kv ["basement"] in
  let total_liv :=
    to_sqft (Some (get_any kv ["total living area"; "total liv area";
                               "living area total"; "total_living_area"])) in
  let num ks := of_num (to_num (Some (get_any kv ks))) in
  let sqft ks := of_num (to_sqft (Some (get_any kv ks))) in
  let txt ks := VStr (get_any kv ks) in
  let yn ks := VStr (map_yn_to_none (Some (get_any kv ks))) in
  [("building_class", VStr (g "building class"));
   ("year_built", num ["year built"; "yr built"; "built"]);
   ("effective_year_built", num ["effective year built"; "eff year built"; "eff yr"]);
   ("actual_age", of_num age_num);
   ("desirability", VStr desirability_val);
   ("desirability_raw", VStr desirability_val);
   ("desirability_id", of_num desirability_id);
   ("living_area_sqft", sqft ["living area"; "liv area"; "area living"]);
   ("total_living_area", of_num total_liv);
   ("total_area_sqft", sqft ["total area"; "area total"]);
   ("percent_complete", num ["% complete"; "percent complete"; "complete %"]);
   ("stories", s_num);
   ("stories_raw", VStr s_text);
   ("depreciation",
     of_num (pct_to_num (Some (get_any kv ["depreciation"; "depr %"; "depreciation %"]))));
   ("construction_type", txt ["construction type"; "constr type"; "construction"]);
   ("foundation", txt ["foundation"; "found type"]);
   ("roof_type", txt ["roof type"; "type roof"]);
   ("roof_material", txt ["roof material"; "material roof"]);
   ("fence_type", txt ["fence type"; "type fence"]);
   ("exterior_material", txt ["ext. wall material"; "exterior wall material"; "exterior"]);
   ("basement_raw", VStr basement_text);
   ("basement", VStr (map_yn_to_none (Some basement_text)));
   ("heating", txt ["heating"; "heat type"]);
   ("air_conditioning", txt ["air condition"; "air conditioning"; "ac type"]);
   ("baths_full",
     match bf with
     | Some d => VDec d
     | None => num ["# baths (full)"; "baths full"; "full baths"]
     end);
   ("baths_half",
     match bh with
     | Some d => VDec d
     | None => num ["# baths (half)"; "baths half"; "half baths"]
     end);
   ("bedroom_count", of_num bedrooms_num);
   ("kitchens", num ["# kitchens"; "kitchens"]);
   ("wetbars", num ["# wet bars"; "wet bars"]);
   ("fireplaces", num ["# fireplaces"; "fireplaces"]);
   ("sprinkler", yn ["sprinkler"]);
   ("deck", yn ["deck"]);
   ("spa", yn ["spa"]);
   ("pool", yn ["pool"]);
   ("sauna", yn ["sauna"])].

(** [v if v != "" else None] *)
Definition blank_to_none (v : pyval) : pyval :=
  match v with
  | VStr "" => VNone
  | _ => v
  end.

Definition parse_main_improvement (doc : node) : gmap string pyval :=
  match or_else (_resolve_main_improvement_table doc) (_find_best_main_by_content doc) with
  | None => ∅
  | Some mi_tbl =>
      let kv := parse_keyvalue_table mi_tbl in
      let out := List.map (fun '(k, v) => (k, blank_to_none v)) (main_improvement_fields kv) in
      if negb (existsb (fun '(_, v) => negb (is_none v)) out) then ∅
      else list_to_map out
  end.

(** [clean_text(c.get_text())] *)
Definition cell_text (c : node) : string := clean_text (Some (get_text "" false c)).

(** [[clean_text(td.get_text()) for td in r.find_all("td")]] *)
Definition td_texts (r : node) : list string :=
  List.map cell_text (find_all (named ["td"]) r).

(** *** Additional improvements *)

Definition _resolve_additional_improvements_table (doc : node) : option node :=
  or_else (find (has_id "ResImp1_dgImp") doc)
    (or_else (_find_after_header_span doc "lbladdimp")
       (or_else (_find_heading_table doc
                   ["additional improvements"; "other improvements";
                    "outbuildings"; "secondary improvements"])
          (List.find _is_addl_impr_table (find_all (named ["table"]) doc)))).

(** Index of the first element satisfying [p]. *)
Fixpoint index_where {A : Type} (p : A -> bool) (l : list A) : option nat :=
  match l with
  | [] => None
  | x :: r => if p x then Some 0%nat else option_map S (index_where p r)
  end.

(** The local function [idx]: for each key in turn, the first header
    containing it. *)
Definition idx (headers : list string) (keys : list string) : option nat :=
  first_some (fun k => index_where (Str.contains k) headers) keys.

(** [tds[i]] guarded by [i is not None and i < len(tds)]. *)
Definition cell_at (i : option nat) (tds : list string) : option string :=
  match i with
  | Some i => nth_error tds i
  | None => None
  end.

Definition row_dict := gmap string pyval.

Definition str_or_default (o : option string) (d : pyval) : pyval :=
  match o with
  | Some s => VStr s
  | None => d
  end.

Definition num_cell (o : option string) : pyval :=
  match o with
  | Some s => of_num (to_num (Some s))
  | None => VNone
  end.

(** The column indexes, found once from the header row. *)
Record columns : Type := Columns {
  i_num : option nat; i_type : option nat; i_desc : option nat; i_year : option nat;
  i_con : option nat; i_floor : option nat; i_wall : option nat; i_stor : option nat;
  i_area : option nat; i_val : option nat; i_depr : option nat
}.

Definition columns_of (headers : list string) : columns :=
  Columns (idx headers ["imp #"; "imp#"; "imp no"; "number"; "#"])
    (idx headers ["type"]) (idx headers ["desc"]) (idx headers ["year"])
    (idx headers ["construction"; "constr"]) (idx headers ["floor"])
    (idx headers ["ext wall"; "exterior wall"; "ext. wall"; "wall"])
    (idx headers ["stories"; "# stories"])
    (idx headers ["area size"; "area"; "sq ft"; "sqft"; "size"])
    (idx headers ["value"]) (idx headers ["depr"; "depreciation"]).

(** [to_num(tds[i_num]) if (i_num is not None and i_num < len(tds)) else None] *)
Definition imp_number (cols : columns) (tds : list string) : option decimal :=
  cell_at (i_num cols) tds ≫= (fun c => to_num (Some c)).

(** One data row: [Ok None] when the row is skipped. *)
Definition additional_row (cols : columns) (tr : node) : result (option row_dict) :=
  let tds := td_texts tr in
  match tds with
  | [] => Ok None
  | _ =>
      let flat := Str.lower (Str.join " " tds) in
      if any_in _NAV_WORDS flat then Ok None
      else
        match imp_number cols tds with
        | None => Ok None
        | Some number =>
            n ← Dec.to_int number;
            imp_num ← py_str n;
            let area_size := default "0" (cell_at (i_area cols) tds) in
            Ok (Some (list_to_map
              [("imp_num", VStr imp_num);
               ("imp_type", str_or_default (cell_at (i_type cols) tds) (VStr "N/A"));
               ("imp_desc", str_or_default (cell_at (i_desc cols) tds) VNone);
               ("year_built", num_cell (cell_at (i_year cols) tds));
               ("construction", str_or_default (cell_at (i_con cols) tds) (VStr "N/A"));
               ("floor_type", str_or_default (cell_at (i_floor cols) tds) (VStr "N/A"));
               ("ext_wall", str_or_default (cell_at (i_wall cols) tds) (VStr "N/A"));
               ("num_stories", num_cell (cell_at (i_stor cols) tds));
               ("area_size", VStr area_size);
               ("value", str_or_default (cell_at (i_val cols) tds) VNone);
               ("depreciation", str_or_default (cell_at (i_depr cols) tds) VNone);
               ("area_sqft", of_num (to_sqft (Some area_size)))]))
        end
  end.

(** The row loop: rows are appended in order; an exception ends the call. *)
Fixpoint additional_rows (cols : columns) (trs : list node) : result (list row_dict) :=
  match trs with
  | [] => Ok []
  | tr :: r =>
      o ← additional_row cols tr;
      rest ← additional_rows cols r;
      Ok (match o with Some e => e :: rest | None => rest end)
  end.

Definition parse_additional_improvements (tbl : option node) : result (list row_dict) :=
  match tbl with
  | None => Ok []
  | Some tbl =>
      if _is_nav_like_table tbl then Ok []
      else
        match find_all (named ["tr"]) tbl with
        | [] | [_] => Ok []
        | tr0 :: trs =>
            let headers := List.map (fun h => Str.lower (cell_text h)) (find_all cells tr0) in
            if any_in _NAV_WORDS (Str.join " | " headers) then Ok []
            else additional_rows (columns_of headers) trs
        end
  end.

(** Truthiness of a value, and [a or b]. *)
Definition py_truthy (v : pyval) : bool :=
  match v with
  | VNone => false
  | VStr s => Str.truthy s
  | VDec d => Dec.truthy d
  | VInt z => negb (z =? 0)
  | VFloat h => negb (h =? 0)
  end.

Definition py_or (a b : pyval) : pyval := if py_truthy a then a else b.

(** [r.get(k)] *)
Definition dget (r : row_dict) (k : string) : pyval := default VNone (r !! k).

(** The loop of [parse_detail_html] that turns the parsed rows into
    [secondary_improvements]. *)
Definition secondary_row (r : row_dict) : option row_dict :=
  let imp_num := py_or (dget r "number") (dget r "imp_num") in
  if is_none imp_num then None
  else Some (list_to_map
    [("imp_num", imp_num);
     ("imp_type", py_or (py_or (dget r "improvement_type") (dget r "imp_type")) (VStr "N/A"));
     ("imp_desc", py_or (py_or (dget r "description") (dget r "desc")) (dget r "imp_desc"));
     ("year_built", dget r "year_built");
     ("construction", dget r "construction");
     ("floor_type", py_or (dget r "floor") (dget r "floor_type"));
     ("ext_wall", py_or (dget r "exterior_wall") (dget r "ext_wall"));
     ("num_stories", dget r "num_stories");
     ("area_size", py_or (dget r "area_sqft") (dget r "area_size"));
     ("value", dget r "value");
     ("depreciation", dget r "depreciation")]).

Definition secondary_rows (additional_improvements : list row_dict) : list row_dict :=
  omap secondary_row additional_improvements.

(** *** Exemptions and estimated taxes *)

Record exemption_entry : Type := ExemptionEntry {
  taxing_jurisdiction : string;
  homestead_exemption : string;
  ex_taxable_value : string
}.

Record tax_entry : Type := TaxEntry {
  taxing_unit : string;
  tax_rate_per_100 : string;
  taxable_value : string;
  estimated_taxes : string;
  tax_ceiling : string
}.

(** [l[i] if i < len(l) else "N/A"], then [x or "N/A"]. *)
Definition at_or_na (l : list string) (i : nat) : string :=
  str_or (default "N/A" (nth_error l i)) "N/A".

(** The children that follow the first child satisfying [p]. *)
Fixpoint siblings_after (p : node -> bool) (cs : list node) : option (list node) :=
  match cs with
  | [] => None
  | c :: r => if p c then Some r else siblings_after p r
  end.

(** The [while sib:] loop: siblings are visited until one is falsy (an
    empty text node); the text of each [td] met is collected. *)
Fixpoint tds_until_falsy (sibs : list node) : list string :=
  match sibs with
  | [] => []
  | Text "" :: _ => []
  | c :: r => if named ["td"] c then cell_text c :: tds_until_falsy r
              else tds_until_falsy r
  end.

Definition is_taxable_value_row (r : node) : bool :=
  Str.contains "taxable value" (Str.lower (cell_text r)).

Definition exemptions_row3 (ex_tbl : node) (rows_from_3 : list node) : option (list string) :=
  match List.find is_taxable_value_row rows_from_3 with
  | Some r => Some (td_texts r)
  | None =>
      let direct := find_children cells ex_tbl in
      match List.find (fun el => named ["th"] el && is_taxable_value_row el) direct with
      | Some _ =>
          option_map tds_until_falsy
            (siblings_after (fun el => cells el && named ["th"] el && is_taxable_value_row el)
               (children ex_tbl))
      | None => None
      end
  end.

Definition exemption_key (col : string) : string := Str.replace " " "_" (Str.lower col).

(** [for idx, col in enumerate(col_headers): out[key] = ...] *)
Fixpoint fill_exemptions (row1 row2 : list string) (row3 : option (list string))
    (i : nat) (cols : list string) (out : gmap string exemption_entry)
  : gmap string exemption_entry :=
  match cols with
  | [] => out
  | col :: r =>
      let tv := match row3 with
                | Some l => at_or_na l i
                | None => "N/A"
                end in
      fill_exemptions row1 row2 row3 (S i) r
        (<[exemption_key col := ExemptionEntry (at_or_na row1 i) (at_or_na row2 i) tv]> out)
  end.

(** The table the exemptions are read from, when one is located. *)
Definition exemptions_table_of (doc : node) : option node :=
  match or_else (_find_after_header_span doc "lblexempt")
          (_table_after_heading doc "exemptions") with
  | None => None
  | Some t =>
      let headers := List.map cell_text (find_all (named ["th"]) t) in
      if negb (existsb (fun h => String.eqb (Str.lower h) "city") headers)
      then or_else (find (named ["table"]) t) (Some t)
      else Some t
  end.

(** [headers[1:]] of the first row, when the table has three rows. *)
Definition exemption_columns (doc : node) : option (list string) :=
  match exemptions_table_of doc with
  | None => None
  | Some ex_tbl =>
      match find_all (named ["tr"]) ex_tbl with
      | r0 :: _ :: _ :: _ => Some (List.tl (List.map cell_text (find_all cells r0)))
      | _ => None
      end
  end.

Definition parse_exemptions_sections (doc : node) : gmap string exemption_entry :=
  match exemptions_table_of doc with
  | None => ∅
  | Some ex_tbl =>
      match find_all (named ["tr"]) ex_tbl with
      | r0 :: r1 :: r2 :: rest =>
          let headers := List.map cell_text (find_all cells r0) in
          let col_headers := List.tl headers in
          fill_exemptions (td_texts r1) (td_texts r2) (exemptions_row3 ex_tbl rest)
            0 col_headers ∅
      | _ => ∅
      end
  end.

Definition bucket_for (label : string) : string :=
  let lab := Str.lower label in
  if Str.contains "school" lab || Str.contains "isd" lab then "school"
  else if Str.contains "college" lab then "college"
  else if Str.contains "hospital" lab then "hospital"
  else if Str.contains "county" lab then "county"
  else if Str.contains "special" lab then "special_district"
  else "city".

Definition na_tax_entry : tax_entry := TaxEntry "N/A" "N/A" "N/A" "N/A" "N/A".

Definition canonical_jurisdictions : list string :=
  ["city"; "school"; "county"; "college"; "hospital"; "special_district"].

(** [row_vals]: the cells of the first named row that exists and is not
    empty. *)
Definition row_vals (named_rows : gmap string (list string)) (names : list string) : list string :=
  default []
    (first_some (fun n => match named_rows !! Str.upper n with
                          | Some (x :: r) => Some (x :: r)
                          | _ => None
                          end) names).

(** [l[i] if i < len(l) else "N/A"] *)
Definition at_or_na_raw (l : list string) (i : nat) : string :=
  default "N/A" (nth_error l i).

(** The loop over the data rows: the named rows and the text of the total
    line. *)
Definition last_cell_text (r : node) : option string :=
  option_map cell_text
    (last (match find_all (named ["td"]) r with
           | [] => find_all (named ["th"]) r
           | l => l
           end)).

Definition tax_row (st : gmap string (list string) * option string) (r : node)
  : gmap string (list string) * option string :=
  let '(named_rows, total_line_str) := st in
  let label := match find (named ["th"]) r with
               | Some th => cell_text th
               | None => ""
               end in
  let tds := td_texts r in
  if Str.contains "total estimated taxes" (Str.lower (cell_text r)) then
    if Str.truthy (default "" total_line_str) then st
    else (named_rows, last_cell_text r)
  else if Str.truthy label then (<[Str.upper label := tds]> named_rows, total_line_str)
  else st.

Fixpoint fill_buckets (taxing_j rate_per_100 taxable_value est_taxes tax_ceiling : list string)
    (i : nat) (cols : list string) (buckets : gmap string tax_entry) : gmap string tax_entry :=
  match cols with
  | [] => buckets
  | col :: r =>
      fill_buckets taxing_j rate_per_100 taxable_value est_taxes tax_ceiling (S i) r
        (<[bucket_for col :=
             TaxEntry (at_or_na_raw taxing_j i) (at_or_na_raw rate_per_100 i)
               (at_or_na_raw taxable_value i) (at_or_na_raw est_taxes i)
               (at_or_na_raw tax_ceiling i)]> buckets)
  end.

(** [for k in (...): if k not in buckets: buckets[k] = {...N/A...}] *)
Definition synthesize_missing (buckets : gmap string tax_entry) : gmap string tax_entry :=
  fold_left (fun b k => match b !! k with
                        | Some _ => b
                        | None => <[k := na_tax_entry]> b
                        end) canonical_jurisdictions buckets.

(** The rows of the estimated-taxes table that hold a cell, when the
    table is located and has at least three of them. *)
Definition estimated_taxes_rows (doc : node) : option (node * list node) :=
  match or_else (_find_after_header_span doc "lblesttax")
          (_table_after_heading doc "estimated taxes") with
  | None => None
  | Some tbl =>
      match List.filter (fun r => negb (Nat.eqb (List.length (find_all cells r)) 0))
              (find_all (named ["tr"]) tbl) with
      | r0 :: ((_ :: _ :: _) as data) => Some (r0, data)
      | _ => None
      end
  end.

Definition parse_estimated_taxes (doc : node) : gmap string tax_entry * string * string :=
  match estimated_taxes_rows doc with
  | None => (∅, "N/A", "OK")
  | Some (r0, data) =>
      let total0 := option_map cell_text (find (has_id "TaxEst1_lblTotalTax") doc) in
      let header_cells := List.map cell_text (find_all cells r0) in
      let col_headers := List.tl header_cells in
      let '(named_rows, total_line_str) := fold_left tax_row data (∅, total0) in
      let buckets :=
        fill_buckets
          (row_vals named_rows ["TAXING JURISDICTION"])
          (row_vals named_rows ["TAX RATE PER $100"; "TAX RATE PER $100.00"; "TAX RATE"])
          (row_vals named_rows ["TAXABLE VALUE"; "TAXABLE VALUES"])
          (row_vals named_rows ["ESTIMATED TAXES"; "ESTIMATED TAX"])
          (row_vals named_rows ["TAX CEILING"; "TAX CEILINGS"])
          0 col_headers ∅ in
      (synthesize_missing buckets, _num_or_na total_line_str, "OK")
  end.

(** *** Value summary

    Of the keys of the summary, the three value texts are modelled; the
    others (years, capped value, tax agent) are computed independently of
    them and never raise. *)

Record value_summary : Type := ValueSummary {
  improvement_value : string;
  land_value : string;
  market_value : string
}.

Definition present (v : string) : bool := Str.truthy v && negb (String.eqb v "N/A").

(** The body of the [try] block that derives the land value; [Ok None]
    when no assignment is made. *)
Definition derive_land_value (improvement market : string) : result (option string) :=
  let imp_n := if present improvement then to_num (Some improvement) else None in
  let mkt_n := if present market then to_num (Some market) else None in
  match imp_n, mkt_n with
  | Some imp_n, Some mkt_n =>
      b ← Dec.ge mkt_n imp_n;
      if b : bool then
        land_calc ← Dec.sub mkt_n imp_n;
        nonneg ← Dec.ge_int land_calc 0;
        if nonneg : bool then
          r ← Dec.round land_calc;
          f ← float_of_int r;
          Ok (Some ("$" ++ format_comma_f0 f))
        else Ok None
      else Ok None
  | _, _ => Ok None
  end.

Definition finish_value_summary (improvement land market : string) : value_summary :=
  let land' :=
    if String.eqb land "N/A"
    then default "N/A" (try_except (derive_land_value improvement market) None)
    else land in
  ValueSummary improvement land' market.

Definition parse_value_summary (doc : node) : value_summary :=
  let sel := select_one_nested_ids doc "tblValueSum" in
  let improvement := _txt (sel "ValueSummary1_lblImpVal") "N/A" in
  let land_el := or_else (sel "ValueSummary1_pnlValue_lblLandVal")
                   (sel "ValueSummary1_lblLandVal") in
  let land := _txt land_el "N/A" in
  let market := _txt (or_else (sel "ValueSummary1_pnlValue_lblTotalVal")
                        (sel "ValueSummary1_lblTotalVal")) "N/A" in
  finish_value_summary improvement land market.

(** *** The public entry point *)

(** The names bound at the top level of the module: its imports, its
    constants and its functions, in source order. *)
Definition module_globals : list string :=
  ["annotations"; "re"; "Any"; "Dict"; "List"; "Optional";
   "BeautifulSoup"; "Tag"; "NavigableString";
   "clean_text"; "to_bool"; "to_num"; "to_sqft"; "pct_to_num";
   "PARSER_VERSION"; "get_any"; "_headers_lower"; "_txt"; "_num_or_na";
   "_NAV_WORDS"; "_is_nav_like_table"; "_is_land_like_table";
   "_is_main_impr_table"; "_is_addl_impr_table";
   "_find_after_header_span"; "_table_after_heading"; "_find_heading_table";
   "parse_keyvalue_table"; "_stories_to_number"; "map_yn_to_none";
   "_parse_baths_full_half"; "_MAIN_HEADING_PHRASES";
   "_resolve_main_improvement_table"; "_find_best_main_by_content";
   "parse_main_improvement"; "_resolve_additional_improvements_table";
   "parse_additional_improvements"; "parse_land_detail_from_table";
   "parse_land_detail"; "parse_exemptions_sections"; "parse_estimated_taxes";
   "_history_find_section_table"; "_iter_direct_cells";
   "parse_history_owner_table"; "parse_exemption_details";
   "parse_property_location"; "parse_owner"; "parse_legal_description";
   "parse_value_summary"; "parse_arb_hearing"; "parse_detail_html"].

(** A call [name(arg)] made inside a function that binds no local [name]:
    the name is resolved among the module's globals (none of the names
    concerned is a builtin), and a name that is not bound raises
    [NameError] before anything is called. *)
Definition call_global {A B : Type} (name : string) (impl : A -> result B) (arg : A) : result B :=
  if Str.mem name module_globals then impl arg else Raise (NameError name).

(** The leftmost match of [(20\d{2})]. *)
Fixpoint find_year_20xx (s : string) : option Z :=
  match s with
  | String "2" (String "0" (String a (String b _)) as r) =>
      if Str.is_digit a && Str.is_digit b
      then Some (Z.of_N (Str.digits_value (String "2" (String "0" (String a (String b ""))))))
      else find_year_20xx r
  | String _ r => find_year_20xx r
  | EmptyString => None
  end.

Definition tax_year_of (doc : node) : option Z :=
  match find (fun x => match x with
                       | Text s => Str.truthy s && Str.contains "certified values" (Str.lower s)
                       | Tag _ _ _ => false
                       end) doc with
  | Some (Text s) => find_year_20xx s
  | _ => None
  end.

(** The loop of [_history_find_section_table] over the tables that follow
    the anchor: [cur = cur.find_next(["table"])] at most twenty times. When
    the tables run out [cur] is [None], and the next iteration, if there is
    one, calls [find_next] on it. [Ok None] means that the loop ended
    without a table. *)
Fixpoint anchor_table_loop (n : nat) (tables : list node) : result (option node) :=
  match n with
  | O => Ok None
  | S n' =>
      match tables with
      | t :: rest => if has_cell t then Ok (Some t) else anchor_table_loop n' rest
      | [] => match n' with
              | O => Ok None
              | S _ => Raise AttributeError
              end
      end
  end.

Definition _history_find_section_table (doc : node) (anchor_name header_text : string)
  : result (option node) :=
  match find_entry (fun t => named ["a"; "A"] t && is_some (attr "name" t) &&
                             String.eqb (Str.lower (attr_or_empty "name" t))
                               (Str.lower anchor_name)) doc with
  | Some anc =>
      r ← anchor_table_loop 20 (List.map nd (all_next doc (named ["table"]) anc));
      match r with
      | Some t => Ok (Some t)
      | None => Ok (_table_after_heading doc header_text)
      end
  | None => Ok (_table_after_heading doc header_text)
  end.

(** [if account_html is None and html is not None: account_html = html] *)
Definition effective_account_html (account_html html : option string) : option string :=
  match account_html, html with
  | None, Some _ => html
  | _, _ => account_html
  end.

(** [parse_additional_improvements(ai_tbl) if ai_tbl else []] *)
Definition additional_improvements_of (doc : node) : result (list row_dict) :=
  match _resolve_additional_improvements_table doc with
  | Some ai_tbl => parse_additional_improvements (Some ai_tbl)
  | None => Ok []
  end.

Definition opt_truthy (s : option string) : bool :=
  match s with
  | Some s => Str.truthy s
  | None => false
  end.

Section ParseDetailHtml.

(** [BeautifulSoup(text, "html.parser")] *)
Variable html_parser : string -> node.

(** The section parsers that are not modelled in detail; each may raise. *)
Variables location_t owner_t legal_t arb_t land_t owner_history_t history_rows_t
          exemption_details_t exemptions_table_t : Type.
Variable parse_property_location : node -> result location_t.
Variable parse_owner : node -> result owner_t.
Variable parse_legal_description : node -> result legal_t.
Variable parse_arb_hearing : node -> result arb_t.
Variable parse_land_detail : node -> result land_t.
(** What [parse_history_owner_table] does with the table it located. *)
Variable owner_history_of_table : option node -> result owner_history_t.
Variable parse_exemption_details : option string -> result exemption_details_t.
Variable _parse_exempt_details_history_all : option string -> result exemptions_table_t.

(** What a function of the given name would do, were one bound in the
    module; used only by [call_global]. *)
Variable history_parser_named : string -> string -> result (list history_rows_t).

Record history_block : Type := HistoryBlock {
  history_url : string;
  owner_history : option owner_history_t;
  h_market_value : list history_rows_t;
  h_taxable_value : list history_rows_t;
  h_exemptions : list history_rows_t
}.

Record detail_obj : Type := DetailObj {
  tax_year : option Z;
  property_location : location_t;
  owner : owner_t;
  legal_description : legal_t;
  d_value_summary : value_summary;
  arb_hearing : arb_t;
  primary_improvements : gmap string pyval;
  secondary_improvements : list row_dict;
  land_detail : land_t;
  exemptions : gmap string exemption_entry;
  d_estimated_taxes : gmap string tax_entry;
  estimated_taxes_total : string;
  estimated_taxes_status : string;
  history : history_block;
  exemption_details : exemption_details_t;
  exemptions_table : exemptions_table_t
}.

Definition parse_history_owner_table (history_html : string) : result owner_history_t :=
  tbl ← _history_find_section_table (html_parser history_html) "Owner" "Owner / Legal";
  owner_history_of_table tbl.

(** The [if history_html:] block. [owner_history = None] stands for the
    initial empty list. *)
Definition parse_history_block (history_html : option string) : result history_block :=
  match history_html with
  | Some h =>
      if Str.truthy h then
        let hsoup := html_parser h in
        let url :=
          match find (fun t => named ["form"] t && has_id "Form1" t) hsoup with
          | Some form => let a := attr_or_empty "action" form in
                         if Str.truthy a then a else "N/A"
          | None => "N/A"
          end in
        oh ← parse_history_owner_table h;
        mv ← call_global "parse_history_market_value"
                (history_parser_named "parse_history_market_value") h;
        tv ← call_global "parse_history_taxable_value"
                (history_parser_named "parse_history_taxable_value") h;
        ex ← call_global "parse_history_exemptions"
                (history_parser_named "parse_history_exemptions") h;
        Ok (HistoryBlock url (Some oh) mv tv ex)
      else Ok (HistoryBlock "N/A" None [] [] [])
  | None => Ok (HistoryBlock "N/A" None [] [] [])
  end.

Definition parse_detail_html
    (account_html history_html exemption_details_html
     exemption_details_history_html html : option string) : result detail_obj :=
  let account_html := effective_account_html account_html html in
  if negb (opt_truthy account_html) then Raise ValueError
  else
    let doc := html_parser (default "" account_html) in
    loc ← parse_property_location doc;
    own ← parse_owner doc;
    legal ← parse_legal_description doc;
    let vs := parse_value_summary doc in
    arb ← parse_arb_hearing doc;
    let main_improvement := parse_main_improvement doc in
    additional ← additional_improvements_of doc;
    let sec_rows := secondary_rows additional in
    let '(est, total_est_str, tax_status) := parse_estimated_taxes doc in
    let exs := parse_exemptions_sections doc in
    land ← parse_land_detail doc;
    let ty := tax_year_of doc in
    hist ← parse_history_block history_html;
    exd ← parse_exemption_details exemption_details_html;
    ext ← _parse_exempt_details_history_all exemption_details_history_html;
    Ok (DetailObj ty loc own legal vs arb main_improvement sec_rows land exs
          est (_num_or_na (Some total_est_str)) tax_status hist exd ext).

End ParseDetailHtml.

End Detail.

(** ** Regular expressions

    The fragment of [re] the stand-alone parser uses, for [search] as a
    yes-or-no question: character tests, sequence, alternative, repetition
    and the word boundary [\b], always with the flag [re.I]. *)

Module Re.

Inductive re : Type :=
| Eps
| Chr (p : ascii -> bool)
| Seq (a b : re)
| Alt (a b : re)
| Star (a : re)
| WordB.

Definition is_word (c : ascii) : bool :=
  Str.is_digit c || Str.is_upper c || Str.is_lower c || Ascii.eqb c "_".

Definition word_opt (c : option ascii) : bool :=
  match c with
  | Some c => is_word c
  | None => false
  end.

Definition next_char (s : string) : option ascii :=
  match s with
  | String c _ => Some c
  | EmptyString => None
  end.

(** [matches r prev s k]: some prefix of [s] matches [r] (with [prev] the
    character before [s]) and the continuation [k] accepts what is left. *)
Fixpoint matches (r : re) (prev : option ascii) (s : string)
    (k : option ascii -> string -> bool) : bool :=
  match r with
  | Eps => k prev s
  | Chr p =>
      match s with
      | String c s' => p c && k (Some c) s'
      | EmptyString => false
      end
  | Seq a b => matches a prev s (fun prev' s' => matches b prev' s' k)
  | Alt a b => matches a prev s k || matches b prev s k
  | Star a =>
      (fix star (fuel : nat) (prev : option ascii) (s : string) : bool :=
         k prev s ||
         match fuel with
         | O => false
         | S fuel' =>
             matches a prev s
               (fun prev' s' =>
                  (String.length s' <? String.length s)%nat && star fuel' prev' s')
         end) (String.length s) prev s
  | WordB => negb (Bool.eqb (word_opt prev) (word_opt (next_char s))) && k prev s
  end.

(** [re.search(r, s)] is not [None]. *)
Fixpoint search_from (r : re) (prev : option ascii) (s : string) : bool :=
  matches r prev s (fun _ _ => true) ||
  match s with
  | String c s' => search_from r (Some c) s'
  | EmptyString => false
  end.

Definition search (r : re) (s : string) : bool := search_from r None s.

(** Building blocks. A literal character matches without regard to case. *)
Definition chr (c : ascii) : re :=
  Chr (fun x => Ascii.eqb (Str.lower_char x) (Str.lower_char c)).

Fixpoint lit (s : string) : re :=
  match s with
  | EmptyString => Eps
  | String c EmptyString => chr c
  | String c r => Seq (chr c) (lit r)
  end.

Definition opt (r : re) : re := Alt r Eps.
Definition plus (r : re) : re := Seq r (Star r).
Definition ws : re := Chr Str.is_space.

Fixpoint seq (l : list re) : re :=
  match l with
  | [] => Eps
  | [r] => r
  | r :: l' => Seq r (seq l')
  end.

Fixpoint alt (l : list re) : re :=
  match l with
  | [] => Chr (fun _ => false)
  | [r] => r
  | r :: l' => Alt r (alt l')
  end.

(** [a\s*b\s*c...]: words separated by optional whitespace. *)
Fixpoint words (l : list string) : re :=
  match l with
  | [] => Eps
  | [w] => lit w
  | w :: l' => seq [lit w; Star ws; words l']
  end.

(** [\b r \b] *)
Definition bounded (r : re) : re := seq [WordB; r; WordB].

End Re.

(** ** The stand-alone parser,
    [dcad-scraper/scraper/dcad/parse_detail.py] *)

Module Standalone.

Import Dom Scraper Re.

(** [_PAT_LBL], in the order of the dictionary. *)
Definition word (s : string) : list re := [bounded (lit s)].

Definition _PAT_LBL : list (string * list re) :=
  [("building_class",
     [bounded (alt [words ["building"; "class"]; words ["bldg"; "class"]]);
      bounded (lit "class")]);
   ("year_built", [bounded (words ["year"; "built"])]);
   ("effective_year_built",
     [bounded (words ["effective"; "year"; "built"]);
      bounded (seq [lit "eff"; opt (lit "ective"); Star (chr "."); Star ws;
                    lit "yr"; opt (chr "."); Star ws; lit "built"])]);
   ("actual_age", [bounded (alt [words ["actual"; "age"]; lit "age"])]);
   ("desirability", word "desirability");
   ("desirability_id",
     [bounded (words ["desirability"; "id"]); bounded (words ["desirability"; "code"])]);
   ("living_area_sqft",
     [bounded (alt [words ["living"; "area"];
                    seq [lit "liv"; opt (chr "."); Star ws; lit "area"]]);
      bounded (seq [words ["living"; "area"]; Star ws; chr "("; lit "sq"; Star ws;
                    lit "ft"; chr ")"])]);
   ("total_living_area",
     [bounded (words ["total"; "living"; "area"]);
      bounded (alt [lit "tla";
                    seq [lit "tot"; Star ws; lit "liv"; opt (lit "ing"); Star ws; lit "area"]])]);
   ("total_area_sqft",
     [bounded (words ["total"; "area"]);
      bounded (alt [lit "gla";
                    seq [lit "gross"; Star ws; lit "liv"; opt (lit "ing"); Star ws; lit "area"]])]);
   ("percent_complete",
     [bounded (alt [words ["percent"; "complete"];
                    seq [opt (chr "%"); Star ws; lit "complete"]])]);
   ("stories", [bounded (seq [lit "storie"; opt (chr "s")])]);
   ("stories_raw", [bounded (seq [lit "storie"; opt (chr "s")])]);
   ("depreciation", word "depreciation");
   ("construction_type",
     [bounded (words ["construction"; "type"]); bounded (lit "construction")]);
   ("foundation", word "foundation");
   ("roof_type", [bounded (words ["roof"; "type"])]);
   ("roof_material", [bounded (words ["roof"; "material"])]);
   ("fence_type", [bounded (words ["fence"; "type"])]);
   ("exterior_material",
     [bounded (words ["exterior"; "material"]); bounded (lit "exterior")]);
   ("basement_raw", word "basement");
   ("basement", word "basement");
   ("heating", word "heating");
   ("air_conditioning",
     [bounded (words ["air"; "conditioning"]); bounded (lit "A/C")]);
   ("baths_full",
     [bounded (seq [lit "bath"; opt (chr "s"); Star ws; lit "full"]);
      seq [WordB; words ["full"; "bath"]]]);
   ("baths_half",
     [bounded (seq [lit "bath"; opt (chr "s"); Star ws; lit "half"]);
      seq [WordB; words ["half"; "bath"]]]);
   ("kitchens", [bounded (seq [lit "kitchen"; opt (chr "s")])]);
   ("wetbars", [bounded (seq [lit "wet"; Star ws; lit "bar"; opt (chr "s")])]);
   ("fireplaces", [bounded (seq [lit "fireplace"; opt (chr "s")])]);
   ("sprinkler", word "sprinkler");
   ("deck", word "deck");
   ("spa", word "spa");
   ("pool", word "pool");
   ("sauna", word "sauna");
   ("building_class_alt", [bounded (words ["bldg"; "class"])])].

(** No pattern has a group named [key], so a match returns the lowered
    label. *)
Definition _label_match (txt : string) (patterns : list re) : option string :=
  match _t (Some txt) with
  | None => None
  | Some t => if existsb (fun pat => search pat t) patterns then Some (Str.lower t) else None
  end.

Definition _match_key (label : string) : option string :=
  match List.find (fun '(_, pats) => Detail.is_some (_label_match label pats)) _PAT_LBL with
  | Some (key, _) =>
      if String.eqb key "building_class_alt" then Some "building_class" else Some key
  | None => None
  end.

Definition cell_t (c : node) : option string := _t (Some (get_text " " true c)).

Definition _table_kv_pairs (table : node) : list (string * string) :=
  omap (fun tr =>
          match find_all Detail.cells tr with
          | c0 :: c1 :: _ =>
              match cell_t c0 with
              | Some label => Some (label, default "" (cell_t c1))
              | None => None
              end
          | _ => None
          end)
    (find_all (named ["tr"]) table).

(** *** Primary improvements: the area fields

    Of the keys of [data], the three area fields are modelled; every other
    key is assigned from [raw_map] and its own previous value only, and no
    other assignment writes an area field. *)

Record areas : Type := Areas {
  living_area_sqft : option Z;
  total_living_area : option Z;
  total_area_sqft : option Z
}.

(** The backfill that appears three times in the source: after the
    identifier lookups, after the table pass and in [parse_detail]. *)
Definition backfill (d : areas) : areas :=
  match total_living_area d with
  | Some _ => d
  | None =>
      match total_area_sqft d with
      | Some ta => Areas (living_area_sqft d) (Some ta) (total_area_sqft d)
      | None =>
          match living_area_sqft d with
          | Some la => Areas (living_area_sqft d) (Some la) (total_area_sqft d)
          | None => d
          end
      end
  end.

Definition _txt_by_id (doc : node) (id_ : string) : option string :=
  option_map (get_text " " true) (find (has_id id_) doc).

Definition _area_to_int (s : option string) : option Z :=
  match s with
  | None => None
  | Some s =>
      if negb (Str.truthy s) then None
      else
        let cleaned := Str.filter int_char s in
        if Str.mem cleaned [""; "-"] then None
        else try_except (z ← int_of_cleaned cleaned; Ok (Some z)) None
  end.

Definition heading_tags : node -> bool := named ["h2"; "h3"; "h4"; "caption"; "strong"].

Definition is_main_heading (text : string) : bool :=
  search (seq [WordB; alt [lit "main"; lit "primary"]; plus ws; lit "improvement"]) text
  || search (bounded (seq [lit "building"; plus ws; lit "information"])) text.

Definition candidates (doc : node) : list node :=
  let by_heading :=
    omap (fun hdr =>
            match cell_t (nd hdr) with
            | Some text =>
                if is_main_heading text
                then option_map nd (find_next doc (named ["table"]) hdr)
                else None
            | None => None
            end)
      (find_all_entries heading_tags doc) in
  match by_heading with
  | _ :: _ => by_heading
  | [] =>
      match List.find
              (fun tbl =>
                 let kv := _table_kv_pairs tbl in
                 let labels := Str.join " " (List.map (fun x => Str.lower (fst x)) kv) in
                 (4 <=? List.length kv)%nat &&
                 ((Str.contains "year" labels && Str.contains "built" labels)
                  || Str.contains "desirability" labels))
              (find_all (named ["table"]) doc) with
      | Some tbl => [tbl]
      | None => []
      end
  end.

(** Pass 1 of the table loop: [raw_map[key] = val]. *)
Definition raw_map_of (kv : list (string * string)) : gmap string string :=
  fold_left (fun m '(label, val) =>
               match _match_key label with
               | Some key => <[key := val]> m
               | None => m
               end) kv ∅.

(** Pass 2, for the area fields. *)
Definition table_pass (raw_map : gmap string string) (data : areas) : areas :=
  let la := match living_area_sqft data with
            | None => _intish (raw_map !! "living_area_sqft")
            | v => v
            end in
  let tla := match total_living_area data with
             | None => _intish (raw_map !! "total_living_area")
             | v => v
             end in
  let ta := match total_area_sqft data with
            | None => _intish (raw_map !! "total_area_sqft")
            | v => v
            end in
  backfill (Areas la tla ta).

(** The state of the area fields after the identifier lookups. *)
Definition areas_by_id (doc : node) : areas :=
  let la_num := _area_to_int (_txt_by_id doc "MainImpRes1_lblLivingArea") in
  let ta_num := _area_to_int (_txt_by_id doc "MainImpRes1_lblTotalArea") in
  backfill (Areas la_num None ta_num).

Definition _extract_primary_improvements (doc : node) : areas :=
  let data := areas_by_id doc in
  match List.find (fun tbl => negb (Nat.eqb (List.length (_table_kv_pairs tbl)) 0))
          (candidates doc) with
  | None => data
  | Some tbl => table_pass (raw_map_of (_table_kv_pairs tbl)) data
  end.

(** The [primary_improvements] entry of [parse_detail]. *)
Definition parse_detail (doc : node) : areas :=
  backfill (_extract_primary_improvements doc).

(** *** Secondary improvements *)

Record sec_row : Type := SecRow {
  imp_num : option string;
  imp_type : option string;
  imp_desc : option string;
  year_built : option Z;
  construction : option string;
  floor_type : option string;
  ext_wall : option string;
  num_stories : option pyfloat;
  area_size : option Z;
  value : option pyfloat;
  depreciation : option pyfloat
}.






(** The local function [get]. *)
Definition get_cell (colmap : gmap string nat) (tds : list node) (key : string) : option string :=
  match colmap !! key with
  | None => None
  | Some idx =>
      match nth_error tds idx with
      | Some td => cell_t td
      | None => None
      end
  end.

Definition row_has_value (r : sec_row) : bool :=
  Detail.is_some (imp_num r) || Detail.is_some (imp_type r) || Detail.is_some (imp_desc r)
  || Detail.is_some (year_built r) || Detail.is_some (construction r)
  || Detail.is_some (floor_type r) || Detail.is_some (ext_wall r)
  || Detail.is_some (num_stories r) || Detail.is_some (area_size r)
  || Detail.is_some (value r) || Detail.is_some (depreciation r).

Definition secondary_row (colmap : gmap string nat) (tr : node) : option sec_row :=
  match find_all (named ["td"]) tr with
  | [] => None
  | tds =>
      let get := get_cell colmap tds in
      let row :=
        SecRow (get "imp_num") (get "imp_type") (get "imp_desc")
          (_intish (get "year_built")) (get "construction") (get "floor_type")
          (get "ext_wall") (_floatish (get "num_stories")) (_intish (get "area_size"))
          (_money_to_num (get "value")) (_pct_to_num (get "depreciation")) in
      if row_has_value row then Some row else None
  end.



End Standalone.

(** ** The paginated address search, [scraper/api/main.py] *)

Module Search.

Import Dom.

(** [re.sub(r"\s+", " ", (s or "").strip())] *)
Definition _clean (s : option string) : string :=
  Str.collapse_ws (Str.strip (default "" s)).

Record result_row : Type := ResultRow {
  account_id : string;
  address : string;
  city : string;
  owner : string;
  total_value : string;
  type_ : string;
  detail_url : string
}.

Definition BASE_URL : string := "https://www.dallascad.org".
Definition ADDRESS_SEARCH_PATH : string := "/SearchAddr.aspx".

Definition _mkurl (path_tmpl account_id : string) : string :=
  if Str.contains "{account_id}" path_tmpl
  then BASE_URL ++ Str.replace "{account_id}" account_id path_tmpl
  else BASE_URL ++ path_tmpl.

Definition token_names : list string :=
  ["__VIEWSTATE"; "__EVENTVALIDATION"; "__VIEWSTATEGENERATOR";
   "__EVENTTARGET"; "__EVENTARGUMENT"].

Definition _extract_tokens_of (doc : node) : gmap string string :=
  let out :=
    fold_left
      (fun out name =>
         match find (fun t => named ["input"] t &&
                              match attr "name" t with
                              | Some v => String.eqb v name
                              | None => false
                              end) doc with
         | Some el =>
             match attr "value" el with
             | Some v => <[name := v]> out
             | None => out
             end
         | None => out
         end) token_names ∅ in
  Detail.setdefault "__EVENTARGUMENT" "" (Detail.setdefault "__EVENTTARGET" "" out).

(** The first group of the leftmost match of [__doPostBack\('([^']+)'] . *)
Fixpoint postback_target (href : string) : option string :=
  let here :=
    if Str.starts_with "__doPostBack('" href then
      let '(target, rest) :=
        Str.span (fun c => negb (Ascii.eqb c "'")) (Str.drop 14 href) in
      if Str.truthy target && Str.starts_with "'" rest then Some target else None
    else None in
  match here with
  | Some t => Some t
  | None =>
      match href with
      | String _ r => postback_target r
      | EmptyString => None
      end
  end.

(** The right chevron U+00BB, written as its code. *)
Definition chevron : string := String (ascii_of_nat 187) EmptyString.

Definition _find_next_postback_of (doc : node) : option string :=
  Detail.first_some
    (fun a =>
       let txt := Str.upper (_clean (Some (get_text "" false a))) in
       if Str.contains "NEXT" txt || Str.mem txt [">"; chevron]
       then postback_target (attr_or_empty "href" a)
       else None)
    (find_all (fun t => named ["a"] t &&
                        match attr "href" t with
                        | Some h => Str.starts_with "javascript:__doPostBack" h
                        | None => false
                        end) doc).

Definition looks_like_results (tbl : node) : bool :=
  match find (named ["tr"]) tbl with
  | None => false
  | Some hdr =>
      let thtxt := Str.upper (_clean (Some (get_text " " false hdr))) in
      (Str.contains "PROPERTY ADDRESS" thtxt && Str.contains "OWNER" thtxt)
      || (Str.contains "TOTAL VALUE" thtxt && Str.contains "TYPE" thtxt)
  end.

(** [re.match(r"\s*(\d+)\s+(.+)$", q.strip())]: the house number and the
    street, or [("", q)] when the query does not start with a number. *)
Definition split_house_street (q : string) : string * string :=
  let s := Str.strip q in
  let '(digits, rest) := Str.span Str.is_digit s in
  let '(blank, street) := Str.span Str.is_space rest in
  if Str.truthy digits && Str.truthy blank && Str.truthy street
     && Str.forallb (fun c => negb (Ascii.eqb c "010")) street
  then (digits, street) else ("", q).

Section Crawl.

(** [BeautifulSoup(text, "lxml")] *)
Variable lxml_parser : string -> node.

(** [urljoin(base, href)], and [parse_qs(urlparse(href).query)] as the
    function from a key to its values (the empty list for a missing key).
    Both raise [ValueError] for text that is no URL. *)
Variable urljoin : string -> string -> result string.
Variable parse_query : string -> result (string -> list string).

(** The remote site: a request changes its state and yields the text of
    the response, or an exception (a transport failure, or the one that
    [raise_for_status] raises for an error status). *)
Inductive request : Type :=
| Get (url : string)
| Post (url : string) (data : list (string * string)).

Variable site : Type.
Variable http : site -> request -> site * result string.

Definition _extract_tokens (html : string) : gmap string string :=
  _extract_tokens_of (lxml_parser html).

Definition _find_next_postback (html : string) : option string :=
  _find_next_postback_of (lxml_parser html).

(** One row of the table: [Ok None] when the row is passed over. *)
Definition row_of_tr (tr : node) : result (option result_row) :=
  match find_all (named ["td"]) tr with
  | td0 :: td1 :: td2 :: td3 :: td4 :: td5 :: _ =>
      match find (fun t => named ["a"] t && Detail.is_some (attr "href" t)) td1 with
      | None => Ok None
      | Some a =>
          href ← urljoin (BASE_URL ++ "/") (attr_or_empty "href" a);
          q ← parse_query href;
          let ids :=
            match q "ID" with
            | [] => match q "id" with
                    | [] => [""]
                    | l => l
                    end
            | l => l
            end in
          let acc := Str.strip (hd "" ids) in
          Ok (Some (ResultRow acc
                      (_clean (Some (get_text "" false a)))
                      (_clean (Some (get_text "" false td2)))
                      (_clean (Some (get_text "" false td3)))
                      (_clean (Some (get_text "" false td4)))
                      (_clean (Some (get_text "" false td5)))
                      href))
      end
  | _ => Ok None
  end.

(** The row loop: rows are appended in order; an exception ends the call. *)
Fixpoint rows_of_trs (trs : list node) : result (list result_row) :=
  match trs with
  | [] => Ok []
  | tr :: r =>
      o ← row_of_tr tr;
      rest ← rows_of_trs r;
      Ok (match o with Some row => row :: rest | None => rest end)
  end.

Definition _parse_results_table (html : string) : result (list result_row) :=
  let doc := lxml_parser html in
  let table :=
    Detail.or_else (find (has_id "SearchResults1_dgResults") doc)
      (List.find looks_like_results (find_all (named ["table"]) doc)) in
  match table with
  | None => Ok []
  | Some table => rows_of_trs (find_all (named ["tr"]) table)
  end.

(** The de-duplication loop: [seen] and [uniq] updated row by row. *)
Definition dedupe_step (st : gset string * list result_row) (row : result_row)
  : gset string * list result_row :=
  let '(seen, uniq) := st in
  let acc := account_id row in
  if Str.truthy acc && negb (bool_decide (acc ∈ seen))
  then ({[acc]} ∪ seen, (uniq ++ [row])%list)
  else st.

Definition dedupe (all_rows : list result_row) : list result_row :=
  snd (fold_left dedupe_step all_rows (∅, [])).

Definition page_ceiling : nat := 200.

Definition tok (tokens : gmap string string) (k : string) : string :=
  default "" (tokens !! k).

(** The form posted for the next page, from the page at hand. *)
Definition postback_form (text next_target : string) : list (string * string) :=
  let tokens := _extract_tokens text in
  [("__EVENTTARGET", next_target);
   ("__EVENTARGUMENT", "");
   ("__VIEWSTATE", tok tokens "__VIEWSTATE");
   ("__VIEWSTATEGENERATOR", tok tokens "__VIEWSTATEGENERATOR");
   ("__EVENTVALIDATION", tok tokens "__EVENTVALIDATION")].

(** The [while True:] loop. [fuel] bounds the number of iterations the
    model may run; [None] means the bound was too small. The result holds
    the state of the site, the number of pages read and either the rows
    gathered or the exception raised. *)
Fixpoint page_loop (fuel : nat) (search_url : string) (s : site) (pages : nat)
    (text : string) (all_rows : list result_row)
  : option (site * nat * result (list result_row)) :=
  match fuel with
  | O => None
  | S fuel' =>
      let pages := S pages in
      match _parse_results_table text with
      | Raise e => Some (s, pages, Raise e)
      | Ok rows =>
          let all_rows := (all_rows ++ rows)%list in
          if (page_ceiling <=? pages)%nat then Some (s, pages, Ok all_rows)
          else
            match _find_next_postback text with
            | None => Some (s, pages, Ok all_rows)
            | Some next_target =>
                match http s (Post search_url (postback_form text next_target)) with
                | (s', Ok text') => page_loop fuel' search_url s' pages text' all_rows
                | (s', Raise e) => Some (s', pages, Raise e)
                end
            end
      end
  end.

(** The form of the search itself, from the first page. *)
Definition search_form (text0 q : string) (city direction : option string)
  : list (string * string) :=
  let tokens := _extract_tokens text0 in
  let '(house, street) := split_house_street q in
  [("__EVENTTARGET", tok tokens "__EVENTTARGET");
   ("__EVENTARGUMENT", tok tokens "__EVENTARGUMENT");
   ("__VIEWSTATE", tok tokens "__VIEWSTATE");
   ("__VIEWSTATEGENERATOR", tok tokens "__VIEWSTATEGENERATOR");
   ("__EVENTVALIDATION", tok tokens "__EVENTVALIDATION");
   ("txtAddrNum", house);
   ("txtStName", street);
   ("listStDir", default "" direction);
   ("listCity", default "" city);
   ("cmdSubmit", "Search")].

Definition _search_address_paged (fuel : nat) (s : site) (q : string)
    (city direction : option string)
  : option (site * nat * result (list result_row)) :=
  let search_url := _mkurl ADDRESS_SEARCH_PATH "" in
  match http s (Get search_url) with
  | (s0, Raise e) => Some (s0, 0%nat, Raise e)
  | (s0, Ok text0) =>
      match http s0 (Post search_url (search_form text0 q city direction)) with
      | (s1, Raise e) => Some (s1, 0%nat, Raise e)
      | (s1, Ok text) =>
          match page_loop fuel search_url s1 0 text [] with
          | Some (s', pages, Ok all_rows) => Some (s', pages, Ok (dedupe all_rows))
          | Some (s', pages, Raise e) => Some (s', pages, Raise e)
          | None => None
          end
      end
  end.

End Crawl.

(** *** The de-duplication loop of [_find_results_rows],
    [backup/dcad/search_address.py]

    The rows are those collected from the account links of a page; their
    account ids are matches of [[A-Za-z0-9]{17}]. *)
Section BackupDedupe.

Variable row : Type.
Variable row_account_id : row -> string.

Definition keep_first_step (st : gset string * list row) (r : row) : gset string * list row :=
  let '(seen, out) := st in
  if bool_decide (row_account_id r ∈ seen) then st
  else ({[row_account_id r]} ∪ seen, (out ++ [r])%list).

Definition keep_first (rows : list row) : list row :=
  snd (fold_left keep_first_step rows (∅, [])).

End BackupDedupe.

End Search.

(** ** JSON-like values

    What the API returns and the backend reads from its files: [None],
    booleans, integers, text, lists and dictionaries (the items of a
    dictionary in insertion order, with distinct keys). *)

#[local] Set Warnings "-register-all".

Inductive json : Type :=
| JNone
| JBool (b : bool)
| JInt (z : Z)
| JStr (s : string)
| JList (l : list json)
| JDict (items : list (string * json)).

(** [key in d] and [d[key]] on the items of a dictionary. *)
Fixpoint item (key : string) (items : list (string * json)) : option json :=
  match items with
  | [] => None
  | (k, v) :: r => if String.eqb key k then Some v else item key r
  end.

(** ** Display sentinels, [scraper/api/na_utils.py] *)

Module NaUtils.

Fixpoint fill_na (na_value : string) (treat_blank_as_na : bool) (obj : json) : json :=
  match obj with
  | JNone => JStr na_value
  | JStr s =>
      if treat_blank_as_na && String.eqb (Str.strip s) "" then JStr na_value else obj
  | JDict items =>
      JDict (List.map (fun '(k, v) => (k, fill_na na_value treat_blank_as_na v)) items)
  | JList l => JList (List.map (fill_na na_value treat_blank_as_na) l)
  | _ => obj
  end.

End NaUtils.

(** ** The file-backed API, [dcad-backend/app/main.py] *)

Module Backend.

(** [default] is the value returned for a missing key, [None] unless
    given. *)
Fixpoint _safe_get (d : json) (path : list string) (default : json) : json :=
  match path with
  | [] => d
  | key :: rest =>
      match d with
      | JDict items =>
          match item key items with
          | Some v => _safe_get v rest default
          | None => default
          end
      | _ => default
      end
  end.

End Backend.

(** ** Account identifiers, [backup/utils.py] *)

Module Utils.

(** [[A-Z0-9]] *)
Definition id_char (c : ascii) : bool := Str.is_upper c || Str.is_digit c.

(** [raw.strip().upper()] is modelled on 7-bit text, where [upper]
    changes the letters a to z only and [strip] removes the whitespace
    of [Str.is_space]. *)
Definition normalize_account_id (raw : string) : result string :=
  if negb (Str.truthy raw) then Raise ValueError
  else
    let acct := Str.upper (Str.strip raw) in
    if negb (Nat.eqb (String.length acct) 17) then Raise ValueError
    else if negb (Str.forallb id_char acct) then Raise ValueError
    else Ok acct.

End Utils.

(** ** The helpers of the history parser, [scraper/dcad/parse_history.py] *)

Module History.

Definition _norm (s : option string) : string :=
  match s with
  | None => ""
  | Some s => Str.strip (Str.collapse_ws s)
  end.

(** [re.fullmatch(r"\d{4}", t)], then [int]. *)
Definition _to_year_or_none (txt : option string) : option Z :=
  let t := _norm txt in
  if Nat.eqb (String.length t) 4 && Str.forallb Str.is_digit t
  then Some (Z.of_N (Str.digits_value t)) else None.

End History.

(** * Statements

    The words of the specification, and the documents and sites the
    statements are tried on. *)

Import Dom.
Local Open Scope list_scope.

(** ** Numerals *)

Definition no_space (c : ascii) : bool := negb (Str.is_space c).

Definition digit_or_comma (c : ascii) : bool := Str.is_digit c || Ascii.eqb c ",".

(** A numeral with thousands separators: a digit, then digits and commas. *)
Definition grouped_numeral (s : string) : bool :=
  match s with
  | String c r => Str.is_digit c && Str.forallb digit_or_comma r
  | EmptyString => false
  end.

(** The digits of a grouped numeral. *)
Definition digits_of (s : string) : string := Str.filter Str.is_digit s.

(** The amount a grouped numeral stands for. *)
Definition amount (s : string) : Z := Z.of_N (Str.digits_value (digits_of s)).

(** A decimal digit in front of a numeral. *)
Definition digit_cons (r : N) (d : Decimal.uint) : Decimal.uint :=
  match r with
  | 0 => Decimal.D0 d | 1 => Decimal.D1 d | 2 => Decimal.D2 d | 3 => Decimal.D3 d
  | 4 => Decimal.D4 d | 5 => Decimal.D5 d | 6 => Decimal.D6 d | 7 => Decimal.D7 d
  | 8 => Decimal.D8 d | _ => Decimal.D9 d
  end%N.

(** The last [k] decimal digits of [c], least significant first. *)
Fixpoint low_digits (k : nat) (c : N) : Decimal.uint :=
  match k with
  | O => Decimal.Nil
  | S k' => digit_cons (c mod 10) (low_digits k' (c / 10))
  end.

(** ** The tri-state normalizer *)








(** ** De-duplication *)

Section FirstSeen.

(** Rows with a key; [keep_key] tells which keys are kept at all. *)
Context {A : Type} (key : A -> string) (keep_key : string -> bool).

(** The rows that are the first to show their key, skipping the keys in
    [seen] and the keys that are not kept. *)
Fixpoint first_seen (seen : gset string) (rows : list A) : list A :=
  match rows with
  | [] => []
  | r :: rest =>
      if keep_key (key r) && negb (bool_decide (key r ∈ seen))
      then r :: first_seen ({[key r]} ∪ seen) rest
      else first_seen seen rest
  end.

End FirstSeen.

(** The statement of the specification: every account id of the input is
    in the output, exactly once. *)
Definition each_id_once (rows out : list Search.result_row) : Prop :=
  NoDup (Search.account_id <$> out)
  /\ forall id, (id ∈ Search.account_id <$> rows) -> (id ∈ Search.account_id <$> out).

(** A result row whose link carries no [ID] parameter: its account id is
    the empty text. *)
Definition row_without_id : Search.result_row :=
  Search.ResultRow "" "100 MAIN ST" "DALLAS" "SMITH JOHN" "$250,000" "RESIDENTIAL"
    "https://www.dallascad.org/AcctDetail.aspx".

(** ** Sites and pages *)

(** A results page whose next link posts back to the page itself. *)
Definition self_linking_page : node :=
  soup
    [Tag "table" [("id", "SearchResults1_dgResults")]
       [Tag "tr" []
          [Tag "td" [] [Text "1"];
           Tag "td" [] [Tag "a" [("href", "AcctDetail.aspx?ID=00000776533000000")]
                          [Text "100 MAIN ST"]];
           Tag "td" [] [Text "DALLAS"];
           Tag "td" [] [Text "SMITH JOHN"];
           Tag "td" [] [Text "$250,000"];
           Tag "td" [] [Text "RESIDENTIAL"]]];
     Tag "a" [("href", "javascript:__doPostBack('SearchResults1$dgResults$ctl01$ctl02','')")]
       [Text "Next"]].

(** A site that serves that page for every request. *)
Definition self_linking_site (s : unit) (_ : Search.request) : unit * result string :=
  (s, Ok "self").

(** Links are taken as they are written, and every link carries the same
    account id. *)
Definition link_as_written (base href : string) : result string := Ok href.

Definition id_of_link (href : string) : result (string -> list string) :=
  Ok (fun key => if String.eqb key "ID" then ["00000776533000000"] else []).

(** A results page whose one link is no URL, and what [urljoin] does with
    it; the page has no next link. *)
Definition broken_link_page : node :=
  soup
    [Tag "table" [("id", "SearchResults1_dgResults")]
       [Tag "tr" []
          [Tag "td" [] [Text "1"];
           Tag "td" [] [Tag "a" [("href", "//[")] [Text "100 MAIN ST"]];
           Tag "td" [] [Text "DALLAS"];
           Tag "td" [] [Text "SMITH JOHN"];
           Tag "td" [] [Text "$250,000"];
           Tag "td" [] [Text "RESIDENTIAL"]]]].

Definition strict_urljoin (base href : string) : result string :=
  if Str.starts_with "//[" href then Raise ValueError else Ok href.

Section CrawlTrace.

Variable lxml_parser : string -> node.
Variable urljoin : string -> string -> result string.
Variable parse_query : string -> result (string -> list string).
Variable site : Type.
Variable http : site -> Search.request -> site * result string.

(** The address every request of the search goes to. *)
Definition search_url : string := Search._mkurl Search.ADDRESS_SEARCH_PATH "".

(** The pages of a crawl: [follows s text texts s'] when, starting from
    the page [text] with the site in state [s], following the next link
    of each page in turn reads the pages [texts], the first being [text],
    and leaves the site in state [s']. Each further page is what the site
    answers to the postback of the page before it. *)
Inductive follows : site -> string -> list string -> site -> Prop :=
| follows_one (s : site) (text : string) : follows s text [text] s
| follows_next (s : site) (text target : string) (s' : site) (text' : string)
    (texts : list string) (s'' : site) :
    Search._find_next_postback lxml_parser text = Some target ->
    http s (Search.Post search_url (Search.postback_form lxml_parser text target))
    = (s', Ok text') ->
    follows s' text' texts s'' ->
    follows s text (text :: texts) s''.

(** Every page of a list parses, to these rows. *)
Definition all_parse (texts : list string) (rowss : list (list Search.result_row)) : Prop :=
  Forall2 (fun t rows => Search._parse_results_table lxml_parser urljoin parse_query t
                         = Ok rows) texts rowss.

(** How the crawl of the pages [texts], which left the site in state
    [s_last], ends. Every page but the last has parsed. Parsing the last
    page raises, and that exception is the result; or it parses and the
    crawl stops there, at the ceiling or for want of a next link, and
    returns the rows of all the pages, de-duplicated; or, below the
    ceiling, the request for the next page raises, and that exception is
    the result. *)
Definition crawl_ends (texts : list string) (s_last s' : site)
    (r : result (list Search.result_row)) : Prop :=
  exists init last rowss,
    texts = init ++ [last] /\ all_parse init rowss
    /\ match Search._parse_results_table lxml_parser urljoin parse_query last with
       | Raise e => r = Raise e /\ s' = s_last
       | Ok rows =>
           (r = Ok (Search.dedupe (concat rowss ++ rows)) /\ s' = s_last
            /\ (List.length texts = Search.page_ceiling
                \/ Search._find_next_postback lxml_parser last = None))
           \/ ((List.length texts < Search.page_ceiling)%nat
               /\ exists target e,
                    Search._find_next_postback lxml_parser last = Some target
                    /\ http s_last (Search.Post search_url
                                      (Search.postback_form lxml_parser last target))
                       = (s', Raise e)
                    /\ r = Raise e)
       end.

(** The outcome of a search, told from the requests the site answers:
    the first page, the search form, then the crawl. *)
Definition search_outcome (s : site) (q : string) (city direction : option string)
    (s' : site) (pages : nat) (r : result (list Search.result_row)) : Prop :=
  match http s (Search.Get search_url) with
  | (s0, Raise e) => s' = s0 /\ pages = 0%nat /\ r = Raise e
  | (s0, Ok text0) =>
      match http s0 (Search.Post search_url
                       (Search.search_form lxml_parser text0 q city direction)) with
      | (s1, Raise e) => s' = s1 /\ pages = 0%nat /\ r = Raise e
      | (s1, Ok text) =>
          exists texts s_last,
            follows s1 text texts s_last /\ List.length texts = pages
            /\ crawl_ends texts s_last s' r
      end
  end.

End CrawlTrace.


(** A page that gives the total living area and the total area in its
    table. *)
Definition table_areas_page : node :=
  soup [Tag "h3" [] [Text "Main Improvements"];
        Tag "table" []
          [Tag "tr" [] [Tag "th" [] [Text "TLA"]; Tag "td" [] [Text "2,115"]];
           Tag "tr" [] [Tag "th" [] [Text "Total Area"]; Tag "td" [] [Text "2,400"]]]].







(** A page that gives the living area by identifier and the total living
    area in its table. *)
Definition identifier_and_table_page : node :=
  soup [Tag "span" [("id", "MainImpRes1_lblLivingArea")] [Text "1,800 sqft"];
        Tag "h3" [] [Text "Main Improvements"];
        Tag "table" []
          [Tag "tr" [] [Tag "th" [] [Text "TLA"]; Tag "td" [] [Text "2,115"]];
           Tag "tr" [] [Tag "th" [] [Text "Year Built"]; Tag "td" [] [Text "1998"]]]].

(** The value summary of a page, with the given texts for the improvement
    value and the market value and no land value element. *)
Definition value_summary_page (improvement market : string) : node :=
  soup
    [Tag "table" [("id", "tblValueSum")]
       [Tag "tr" []
          [Tag "td" [] [Text "Improvement:"];
           Tag "td" [] [Tag "span" [("id", "ValueSummary1_lblImpVal")] [Text improvement]]];
        Tag "tr" []
          [Tag "td" [] [Text "Market Value:"];
           Tag "td" [] [Tag "span" [("id", "ValueSummary1_pnlValue_lblTotalVal")]
                          [Text market]]]]].


(** A row of the main parser carries its improvement number when the
    entry [imp_num] is the text of an integer. *)
Definition has_imp_number (r : Detail.row_dict) : Prop :=
  exists n : Z, r !! "imp_num" = Some (Detail.VStr (str_of_int n)).

(** The header row and the data rows of a grid, and the columns found
    from the header row. *)
Definition grid_columns (tbl : node) : Detail.columns :=
  match find_all (named ["tr"]) tbl with
  | tr0 :: _ =>
      Detail.columns_of
        (List.map (fun h => Str.lower (Detail.cell_text h)) (find_all Detail.cells tr0))
  | [] => Detail.columns_of []
  end.

Definition grid_data_rows (tbl : node) : list node :=
  List.tl (find_all (named ["tr"]) tbl).

(** A row carries the number of a data row when its key is the numeral
    of the integer that the improvement-number cell of that data row
    reads as. *)
Definition numbered_by (cols : Detail.columns) (tr : node) (r : Detail.row_dict) : Prop :=
  exists (d : decimal) (n : Z),
    Detail.imp_number cols (Detail.td_texts tr) = Some d
    /\ Dec.to_int d = Ok n
    /\ r !! "imp_num" = Some (Detail.VStr (str_of_int n)).

(** The data rows the grid parser makes rows of: those with cells, without
    a navigation word, whose improvement-number cell reads as a number. *)
Definition row_is_numbered (cols : Detail.columns) (tr : node) : bool :=
  match Detail.td_texts tr with
  | [] => false
  | tds =>
      if Detail.any_in Detail._NAV_WORDS (Str.lower (Str.join " " tds)) then false
      else match Detail.imp_number cols tds with
           | Some _ => true
           | None => false
           end
  end.


Definition section_heading (id_ text : string) : node :=
  Tag "span" [("id", id_); ("class", "DtlSectionHdr")] [Text text].

(** The table of the scenario: a header row and one data row. *)
Definition header_row_table : node :=
  Tag "table" []
    [Tag "tr" [] [Tag "th" [] [Text "Year Built"]; Tag "th" [] [Text "Effective Year Built"];
                  Tag "th" [] [Text "Desirability"]; Tag "th" [] [Text "Total Living Area"]];
     Tag "tr" [] [Tag "td" [] [Text "1998"]; Tag "td" [] [Text "2001"];
                  Tag "td" [] [Text "GOOD"]; Tag "td" [] [Text "2,115 sqft"]]].

Definition header_row_page : node :=
  soup [section_heading "lblMainImp" "Main Improvement"; header_row_table].

(** The same fields as label and value pairs, one pair per row. *)
Definition label_value_table : node :=
  Tag "table" []
    [Tag "tr" [] [Tag "th" [] [Text "Year Built"]; Tag "td" [] [Text "1998"]];
     Tag "tr" [] [Tag "th" [] [Text "Effective Year Built"]; Tag "td" [] [Text "2001"]];
     Tag "tr" [] [Tag "th" [] [Text "Desirability"]; Tag "td" [] [Text "GOOD"]];
     Tag "tr" [] [Tag "th" [] [Text "Total Living Area"]; Tag "td" [] [Text "2,115 sqft"]]].

Definition label_value_page : node :=
  soup [section_heading "lblMainImp" "Main Improvement"; label_value_table].

(** The same fields as two pairs per row, as the detail pages lay them
    out. *)
Definition paired_table : node :=
  Tag "table" []
    [Tag "tr" [] [Tag "th" [] [Text "Year Built"]; Tag "td" [] [Text "1998"];
                  Tag "th" [] [Text "Effective Year Built"]; Tag "td" [] [Text "2001"]];
     Tag "tr" [] [Tag "th" [] [Text "Desirability"]; Tag "td" [] [Text "GOOD"];
                  Tag "th" [] [Text "Total Living Area"]; Tag "td" [] [Text "2,115 sqft"]]].

(** The table located for the main improvement of a page. *)
Definition main_improvement_table (doc : node) : option node :=
  Detail.or_else (Detail._resolve_main_improvement_table doc)
    (Detail._find_best_main_by_content doc).

(** ** The entry point *)

Section AccountSections.

Variables location_t owner_t legal_t arb_t land_t : Type.
Variable parse_property_location : node -> result location_t.
Variable parse_owner : node -> result owner_t.
Variable parse_legal_description : node -> result legal_t.
Variable parse_arb_hearing : node -> result arb_t.
Variable parse_land_detail : node -> result land_t.

(** The parsers of the account page that may raise all return. *)
Definition account_sections_parse (doc : node) : Prop :=
  is_ok (parse_property_location doc) = true
  /\ is_ok (parse_owner doc) = true
  /\ is_ok (parse_legal_description doc) = true
  /\ is_ok (parse_arb_hearing doc) = true
  /\ is_ok (Detail.additional_improvements_of doc) = true
  /\ is_ok (parse_land_detail doc) = true.

End AccountSections.

(** A small instance of the entry point: a parser that knows three texts
    (a history page with an owner table, a history page whose owner anchor
    is followed by no table, and an account page), and section parsers that
    return at once. *)
Definition history_page : node :=
  soup [Tag "a" [("name", "Owner")] [];
        Tag "table" []
          [Tag "tr" [] [Tag "th" [] [Text "2024"]; Tag "td" [] [Text "SMITH JOHN"];
                        Tag "td" [] [Text "LOT 1 BLK A"]]]].

Definition history_page_without_table : node :=
  soup [Tag "a" [("name", "Owner")] []; Tag "p" [] [Text "No history on file."]].

Definition sample_parser (text : string) : node :=
  if String.eqb text "history" then history_page
  else if String.eqb text "history without table" then history_page_without_table
  else label_value_page.

Definition returns_unit {A : Type} (_ : A) : result unit := Ok tt.
Definition no_rows (_ _ : string) : result (list unit) := Ok [].

Definition sample_parse_detail_html :=
  Detail.parse_detail_html sample_parser unit unit unit unit unit unit unit unit unit
    returns_unit returns_unit returns_unit returns_unit returns_unit returns_unit
    returns_unit returns_unit no_rows.

(** ** The jurisdiction maps *)

(** The loop that adds the missing canonical keys, over any list of
    keys. *)
Definition synthesize (keys : list string) (buckets : gmap string Detail.tax_entry)
  : gmap string Detail.tax_entry :=
  fold_left (fun b k => match b !! k with
                        | Some _ => b
                        | None => <[k := Detail.na_tax_entry]> b
                        end) keys buckets.

(** The estimated-taxes map of the assembled record. *)
Definition estimated_taxes_map (doc : node) : gmap string Detail.tax_entry :=
  (Detail.parse_estimated_taxes doc).1.1.

(** The exemptions section of a detail page, with the column headers the
    site uses. *)
Definition exemptions_page : node :=
  soup
    [section_heading "lblExempt" "Exemptions";
     Tag "table" []
       [Tag "tr" []
          [Tag "th" [] []; Tag "th" [] [Text "City"]; Tag "th" [] [Text "School"];
           Tag "th" [] [Text "County and School Equalization"];
           Tag "th" [] [Text "College"]; Tag "th" [] [Text "Hospital"];
           Tag "th" [] [Text "Special District"]];
        Tag "tr" []
          [Tag "th" [] [Text "Taxing Jurisdiction"]; Tag "td" [] [Text "DALLAS"];
           Tag "td" [] [Text "DALLAS ISD"]; Tag "td" [] [Text "DALLAS COUNTY"];
           Tag "td" [] [Text "DALLAS COLLEGE"]; Tag "td" [] [Text "PARKLAND HOSPITAL"];
           Tag "td" [] [Text "UNASSIGNED"]];
        Tag "tr" []
          [Tag "th" [] [Text "HOMESTEAD EXEMPTION"]; Tag "td" [] [Text "$50,000"];
           Tag "td" [] [Text "$100,000"]; Tag "td" [] [Text "$50,000"];
           Tag "td" [] [Text "$50,000"]; Tag "td" [] [Text "$50,000"];
           Tag "td" [] [Text "$0"]];
        Tag "tr" []
          [Tag "th" [] [Text "Taxable Value"]; Tag "td" [] [Text "$200,000"];
           Tag "td" [] [Text "$150,000"]; Tag "td" [] [Text "$200,000"];
           Tag "td" [] [Text "$200,000"]; Tag "td" [] [Text "$200,000"];
           Tag "td" [] [Text "$0"]]]].

(** An estimated-taxes section with three of the six jurisdictions. *)
Definition estimated_taxes_page : node :=
  soup
    [section_heading "lblEstTax" "Estimated Taxes";
     Tag "table" []
       [Tag "tr" []
          [Tag "th" [] []; Tag "th" [] [Text "City"]; Tag "th" [] [Text "School"];
           Tag "th" [] [Text "County"]];
        Tag "tr" []
          [Tag "th" [] [Text "Taxing Jurisdiction"]; Tag "td" [] [Text "DALLAS"];
           Tag "td" [] [Text "DALLAS ISD"]; Tag "td" [] [Text "DALLAS COUNTY"]];
        Tag "tr" []
          [Tag "th" [] [Text "Tax Rate per $100"]; Tag "td" [] [Text "$0.7357"];
           Tag "td" [] [Text "$1.013835"]; Tag "td" [] [Text "$0.2155"]];
        Tag "tr" []
          [Tag "th" [] [Text "Taxable Value"]; Tag "td" [] [Text "$200,000"];
           Tag "td" [] [Text "$150,000"]; Tag "td" [] [Text "$200,000"]];
        Tag "tr" []
          [Tag "th" [] [Text "Estimated Taxes"]; Tag "td" [] [Text "$1,471.40"];
           Tag "td" [] [Text "$1,520.75"]; Tag "td" [] [Text "$431.00"]];
        Tag "tr" []
          [Tag "th" [] [Text "Total Estimated Taxes:"]; Tag "td" [] [Text "$3,423.15"]]]].

(** ** Account identifiers *)

(** Text of seven-bit characters only. *)
Definition seven_bit (s : string) : bool :=
  Str.forallb (fun c => (Str.code c <? 128)%N) s.

(** A letter of either case or a digit. *)
Definition alphanumeric (c : ascii) : bool :=
  Str.is_upper c || Str.is_lower c || Str.is_digit c.

(** ** JSON-like values *)

(** Neither [None] nor a blank text at any depth. *)
Fixpoint filled (obj : json) : bool :=
  match obj with
  | JNone => false
  | JStr s => negb (String.eqb (Str.strip s) "")
  | JList l => List.forallb filled l
  | JDict items => List.forallb (fun '(_, v) => filled v) items
  | _ => true
  end.

(** The lists, dictionaries and keys of a value, with every leaf erased. *)
Fixpoint skeleton (obj : json) : json :=
  match obj with
  | JList l => JList (List.map skeleton l)
  | JDict items => JDict (List.map (fun '(k, v) => (k, skeleton v)) items)
  | _ => JNone
  end.

Definition is_dict (obj : json) : bool :=
  match obj with
  | JDict _ => true
  | _ => false
  end.

(** A detail object as the backend stores it. *)
Definition stored_detail : json :=
  JDict [("owner", JDict [("owner_name", JStr "DOE JANE"); ("mailing", JNone)]);
         ("property_location", JDict [("address", JStr "  ")]);
         ("years", JList [JInt 2024; JNone])].

(** ** Label and value tables *)

(** A key of the label map: a lower-case text that is not empty. *)
Definition label_key (k : string) : Prop := k <> "" /\ Str.lower k = k.

Definition label_keys (m : gmap string string) : Prop :=
  forall k v, m !! k = Some v -> label_key k.

(** ** The main-improvement record *)

(** The keys of the record, in the order of the source. *)
Definition main_improvement_keys : list string :=
  ["building_class"; "year_built"; "effective_year_built"; "actual_age";
   "desirability"; "desirability_raw"; "desirability_id"; "living_area_sqft";
   "total_living_area"; "total_area_sqft"; "percent_complete"; "stories";
   "stories_raw"; "depreciation"; "construction_type"; "foundation"; "roof_type";
   "roof_material"; "fence_type"; "exterior_material"; "basement_raw"; "basement";
   "heating"; "air_conditioning"; "baths_full"; "baths_half"; "bedroom_count";
   "kitchens"; "wetbars"; "fireplaces"; "sprinkler"; "deck"; "spa"; "pool"; "sauna"].

(** ** Tax tables *)

(** Column headers of a tax table, one of which names two jurisdictions. *)
Definition sample_tax_columns : list string :=
  ["City"; "School"; "County and School Equalization"; "College"; "Hospital";
   "Special District"].

(** The taxing units under those headers. *)
Definition sample_tax_units : list string :=
  ["DALLAS"; "DALLAS ISD"; "DALLAS COUNTY"; "DALLAS COLLEGE"; "PARKLAND HOSPITAL";
   "UNASSIGNED"].

(** The entry read from column [i] of the named rows. *)
Definition tax_entry_at (tj rate tv et tc : list string) (i : nat) : Detail.tax_entry :=
  Detail.TaxEntry (Detail.at_or_na_raw tj i) (Detail.at_or_na_raw rate i)
    (Detail.at_or_na_raw tv i) (Detail.at_or_na_raw et i) (Detail.at_or_na_raw tc i).

(** An exemption entry with no empty field. *)
Definition exemption_filled (e : Detail.exemption_entry) : Prop :=
  Detail.taxing_jurisdiction e <> "" /\ Detail.homestead_exemption e <> ""
  /\ Detail.ex_taxable_value e <> "".

(** ** Labels of the stand-alone parser *)

(** The keys of the label table that stand behind an earlier key with the
    same patterns. *)
Definition shadowed_keys : list string := ["stories_raw"; "basement"; "building_class_alt"].

(** A numeral of [n] digits. *)
Fixpoint sevens (n : nat) : string :=
  match n with
  | O => ""
  | S n => String "7" (sevens n)
  end.

(** ** Numbers that are no numbers *)

(** An additional-improvements grid whose number cell reads as an
    infinity. *)
Definition unbounded_number_grid : node :=
  Tag "table" []
    [Tag "tr" [] [Tag "th" [] [Text "Imp #"]; Tag "th" [] [Text "Type"]];
     Tag "tr" [] [Tag "td" [] [Text "Infinity"]; Tag "td" [] [Text "DECK"]]].



(** * Properties *)

(** ** Text helpers *)

Section HeadCharacter.

(** A text whose first character is [c], a character that is not
    whitespace. *)
Variable c : ascii.
Hypothesis c_not_space : Str.is_space c = false.

Lemma lstrip_head (r : string) : Str.lstrip (String c r) = String c r.
Proof. simpl. now rewrite c_not_space. Qed.

Lemma rstrip_head (r : string) : exists r', Str.rstrip (String c r) = String c r'.
Proof.
  simpl. destruct (Str.rstrip r) as [|a r'].
  - rewrite c_not_space. now exists EmptyString.
  - now exists (String a r').
Qed.

Lemma strip_head (r : string) : exists r', Str.strip (String c r) = String c r'.
Proof. unfold Str.strip. rewrite lstrip_head. apply rstrip_head. Qed.

Lemma collapse_ws_head (r : string) :
  exists r', Str.collapse_ws (String c r) = String c r'.
Proof. unfold Str.collapse_ws. simpl. rewrite c_not_space. eauto. Qed.

Lemma clean_text_head (r : string) :
  exists r', Normalize.clean_text (Some (String c r)) = String c r'.
Proof.
  unfold Normalize.clean_text. simpl default.
  destruct (collapse_ws_head r) as [r1 ->]. apply strip_head.
Qed.

Lemma replace_head (old new r : string) :
  Str.starts_with old (String c r) = false ->
  exists r', Str.replace old new (String c r) = String c r'.
Proof.
  intros H. unfold Str.replace. cbn [String.length Str.replace_fuel].
  rewrite H. eauto.
Qed.

Lemma filter_head (p : ascii -> bool) (r : string) :
  p c = true -> exists r', Str.filter p (String c r) = String c r'.
Proof. intros H. simpl. rewrite H. eauto. Qed.

End HeadCharacter.

(** ** Numerals *)

Lemma digit_cases (c : ascii) :
  Str.is_digit c = true ->
  In c ["0"; "1"; "2"; "3"; "4"; "5"; "6"; "7"; "8"; "9"]%char.
Proof.
  destruct c as [[] [] [] [] [] [] [] []]; cbv; intros H; try discriminate H; tauto.
Qed.

Lemma forallb_impl (p q : ascii -> bool) (s : string) :
  (forall c, p c = true -> q c = true) ->
  Str.forallb p s = true -> Str.forallb q s = true.
Proof.
  intros Hpq. induction s as [|c r IH]; simpl; [easy|].
  rewrite !andb_true_iff. intros [Hc Hr]. auto.
Qed.

Lemma forallb_filter (p : ascii -> bool) (s : string) :
  Str.forallb p (Str.filter p s) = true.
Proof.
  induction s as [|c r IH]; simpl; [easy|].
  destruct (p c) eqn:E; simpl; [rewrite E|]; auto.
Qed.

Lemma filter_all (p : ascii -> bool) (s : string) :
  Str.forallb p s = true -> Str.filter p s = s.
Proof.
  induction s as [|c r IH]; simpl; [easy|].
  rewrite andb_true_iff. intros [-> Hr]. now rewrite IH.
Qed.

Lemma filter_agree (p q f : ascii -> bool) (s : string) :
  (forall c, f c = true -> p c = q c) ->
  Str.forallb f s = true -> Str.filter p s = Str.filter q s.
Proof.
  intros Hpq. induction s as [|c r IH]; simpl; [easy|].
  rewrite andb_true_iff. intros [Hc Hr]. rewrite (Hpq c Hc), (IH Hr). reflexivity.
Qed.

Lemma filter_app (p : ascii -> bool) (s t : string) :
  Str.filter p (s ++ t) = (Str.filter p s ++ Str.filter p t)%string.
Proof.
  induction s as [|c r IH]; simpl; [easy|].
  rewrite IH. now destruct (p c).
Qed.

Lemma map_fixed (f : ascii -> ascii) (p : ascii -> bool) (s : string) :
  (forall c, p c = true -> f c = c) ->
  Str.forallb p s = true -> Str.map f s = s.
Proof.
  intros Hf. induction s as [|c r IH]; simpl; [easy|].
  rewrite andb_true_iff. intros [Hc Hr]. now rewrite (Hf c Hc), (IH Hr).
Qed.

Lemma span_all (p : ascii -> bool) (s : string) :
  Str.forallb p s = true -> Str.span p s = (s, "").
Proof.
  induction s as [|c r IH]; simpl; [easy|].
  rewrite andb_true_iff. intros [-> Hr]. now rewrite (IH Hr).
Qed.

Lemma lstrip_no_space (s : string) :
  Str.forallb no_space s = true -> Str.lstrip s = s.
Proof.
  destruct s as [|c r]; simpl; [easy|].
  unfold no_space at 1. rewrite andb_true_iff, negb_true_iff. now intros [-> _].
Qed.

Lemma rstrip_no_space (s : string) :
  Str.forallb no_space s = true -> Str.rstrip s = s.
Proof.
  induction s as [|c r IH]; simpl; [easy|].
  unfold no_space at 1. rewrite andb_true_iff, negb_true_iff.
  intros [Hc Hr]. rewrite (IH Hr), Hc. now destruct r.
Qed.

Lemma strip_no_space (s : string) :
  Str.forallb no_space s = true -> Str.strip s = s.
Proof.
  intros H. unfold Str.strip. rewrite (lstrip_no_space s H). now apply rstrip_no_space.
Qed.

Lemma collapse_ws_no_space (b : bool) (s : string) :
  Str.forallb no_space s = true -> Str.collapse_ws_from b s = s.
Proof.
  revert b. induction s as [|c r IH]; intros b; simpl; [easy|].
  unfold no_space at 1. rewrite andb_true_iff, negb_true_iff.
  intros [-> Hr]. now rewrite (IH false Hr).
Qed.

Lemma clean_text_no_space (s : string) :
  Str.forallb no_space s = true -> Normalize.clean_text (Some s) = s.
Proof.
  intros H. unfold Normalize.clean_text, Str.collapse_ws. simpl default.
  rewrite (collapse_ws_no_space false s H). now apply strip_no_space.
Qed.

(** Replacing a one-character text by the empty text deletes that
    character. *)
Lemma replace_fuel_char (a : ascii) (fuel : nat) (s : string) :
  (String.length s <= fuel)%nat ->
  Str.replace_fuel fuel (String a "") "" s = Str.filter (fun c => negb (Ascii.eqb a c)) s.
Proof.
  revert s. induction fuel as [|n IH]; intros [|c r] Hlen; simpl in *; try easy; try lia.
  rewrite andb_true_r. destruct (Ascii.eqb a c); simpl; rewrite IH by lia; reflexivity.
Qed.

Lemma replace_char (a : ascii) (s : string) :
  Str.replace (String a "") "" s = Str.filter (fun c => negb (Ascii.eqb a c)) s.
Proof. unfold Str.replace. now apply replace_fuel_char. Qed.

Lemma digit_or_comma_facts (c : ascii) :
  digit_or_comma c = true ->
  no_space c = true
  /\ negb (Ascii.eqb "," c) = Str.is_digit c
  /\ negb (Ascii.eqb "$" c) = true
  /\ negb (Ascii.eqb "%" c) = true
  /\ Scraper.money_char c = Str.is_digit c.
Proof.
  destruct c as [[] [] [] [] [] [] [] []]; cbv; intros H; try discriminate H; tauto.
Qed.

Lemma digit_facts (c : ascii) :
  Str.is_digit c = true ->
  no_space c = true
  /\ Str.lower_char c = c
  /\ negb (Ascii.eqb "%" c) = true
  /\ negb (Ascii.eqb c "_") = true.
Proof.
  destruct c as [[] [] [] [] [] [] [] []]; cbv; intros H; try discriminate H; tauto.
Qed.

Lemma append_empty (s : string) : (s ++ "")%string = s.
Proof.
  induction s as [|c r IH]; [easy|].
  change (String c (r ++ "")%string = String c r). now rewrite IH.
Qed.

Lemma digits_of_numeral (s : string) :
  grouped_numeral s = true ->
  exists c d, digits_of s = String c d
              /\ Str.is_digit c = true /\ Str.forallb Str.is_digit d = true.
Proof.
  destruct s as [|c r]; simpl; [easy|].
  rewrite andb_true_iff. intros [Hc _]. exists c, (Str.filter Str.is_digit r).
  unfold digits_of. simpl. rewrite Hc. auto using forallb_filter.
Qed.

Lemma numeral_chars (s : string) :
  grouped_numeral s = true -> Str.forallb digit_or_comma s = true.
Proof.
  destruct s as [|c r]; simpl; [easy|].
  unfold digit_or_comma at 2. rewrite !andb_true_iff. intros [-> Hr]. auto.
Qed.

(** The ten cases of a digit. *)
Ltac digit_head c Hc :=
  destruct (digit_cases c Hc) as [<-|[<-|[<-|[<-|[<-|[<-|[<-|[<-|[<-|[<-|[]]]]]]]]]]].

(** [Decimal(d)] and [Decimal("-" + d)] for a text of digits. *)
Lemma of_string_digits (c : ascii) (d : string) :
  Str.is_digit c = true -> Str.forallb Str.is_digit d = true ->
  Dec.of_string (String c d) = Ok (Dec.DFin false (Str.digits_value (String c d)) 0)
  /\ Dec.of_string (String "-" (String c d))
     = Ok (Dec.DFin true (Str.digits_value (String c d)) 0).
Proof.
  intros Hc Hd.
  assert (Hall : Str.forallb Str.is_digit (String c d) = true) by (simpl; now rewrite Hc).
  assert (Hsp : Str.forallb no_space (String c d) = true)
    by (eapply forallb_impl; [|exact Hall]; intros; now apply digit_facts).
  assert (Hus : Str.filter (fun x => negb (Ascii.eqb x "_")) (String c d) = String c d)
    by (apply filter_all; eapply forallb_impl; [|exact Hall]; intros; now apply digit_facts).
  assert (Hlow : Str.lower (String c d) = String c d)
    by (apply (map_fixed _ Str.is_digit); [intros; now apply digit_facts | exact Hall]).
  assert (Hspan := span_all Str.is_digit _ Hall).
  unfold Dec.of_string. split.
  - rewrite (strip_no_space _ Hsp), Hus.
    replace (Dec.split_sign (String c d)) with (false, String c d)
      by (digit_head c Hc;
          reflexivity).
    rewrite Hlow, Hspan.
    digit_head c Hc;
      cbn; now rewrite append_empty.
  - assert (Hstrip : Str.strip (String "-" (String c d)) = String "-" (String c d))
      by (apply strip_no_space; simpl; simpl in Hsp; exact Hsp).
    rewrite Hstrip.
    assert (Hus' : Str.filter (fun x => negb (Ascii.eqb x "_")) (String "-" (String c d))
                   = String "-" (String c d))
      by (change (String "-" (Str.filter (fun x => negb (Ascii.eqb x "_")) (String c d))
                  = String "-" (String c d)); now rewrite Hus).
    rewrite Hus'. cbn [Dec.split_sign].
    rewrite Hlow, Hspan.
    digit_head c Hc;
      cbn; now rewrite append_empty.
Qed.

Lemma delete_commas (s : string) :
  Str.forallb digit_or_comma s = true -> Str.replace "," "" s = digits_of s.
Proof.
  intros H. rewrite replace_char. unfold digits_of.
  apply (filter_agree _ _ digit_or_comma); [|exact H].
  intros c Hc. now apply digit_or_comma_facts.
Qed.

Lemma delete_absent (a : ascii) (s : string) :
  Str.forallb (fun c => negb (Ascii.eqb a c)) s = true -> Str.replace (String a "") "" s = s.
Proof. intros H. rewrite replace_char. now apply filter_all. Qed.

(** What [to_num] reads: a numeral with thousands separators is its
    digits, exactly. *)
Lemma to_num_grouped_numeral (s : string) :
  grouped_numeral s = true ->
  Normalize.to_num (Some s) = Some (Dec.DFin false (Str.digits_value (digits_of s)) 0).
Proof.
  intros Hs. pose proof (numeral_chars s Hs) as Hch.
  destruct (digits_of_numeral s Hs) as (c & d & Hd & Hc & Hds).
  unfold Normalize.to_num.
  rewrite clean_text_no_space
    by (eapply forallb_impl; [|exact Hch]; intros; now apply digit_or_comma_facts).
  rewrite (delete_commas s Hch), Hd.
  assert (Hall : Str.forallb Str.is_digit (String c d) = true) by (simpl; now rewrite Hc).
  rewrite delete_absent
    by (eapply forallb_impl; [|exact Hall]; intros; now apply digit_facts).
  rewrite (proj1 (of_string_digits c d Hc Hds)).
  replace (Str.lower (String c d)) with (String c d)
    by (symmetry; apply (map_fixed _ Str.is_digit); [intros; now apply digit_facts | exact Hall]).
  digit_head c Hc; reflexivity.
Qed.

Lemma forallb_app (p : ascii -> bool) (s t : string) :
  Str.forallb p (s ++ t)%string = Str.forallb p s && Str.forallb p t.
Proof.
  induction s as [|c r IH]; [easy|].
  change (p c && Str.forallb p (r ++ t)%string = p c && Str.forallb p r && Str.forallb p t).
  now rewrite IH, andb_assoc.
Qed.

Lemma filter_skip (p : ascii -> bool) (c : ascii) (r : string) :
  p c = false -> Str.filter p (String c r) = Str.filter p r.
Proof. intros H. simpl. now rewrite H. Qed.

Lemma filter_keep (p : ascii -> bool) (c : ascii) (r : string) :
  p c = true -> Str.filter p (String c r) = String c (Str.filter p r).
Proof. intros H. simpl. now rewrite H. Qed.

Lemma filter_parenthesised (p : ascii -> bool) (s : string) :
  p "("%char = true -> p ")"%char = true ->
  Str.filter p (String "(" (s ++ ")")%string) = String "(" (Str.filter p s ++ ")")%string.
Proof.
  intros Ho Hc. rewrite (filter_keep _ _ _ Ho), filter_app, (filter_keep _ _ _ Hc).
  reflexivity.
Qed.

Lemma list_ascii_app (s t : string) :
  list_ascii_of_string (s ++ t)%string = list_ascii_of_string s ++ list_ascii_of_string t.
Proof.
  induction s as [|c r IH]; [easy|].
  change (c :: list_ascii_of_string (r ++ t)%string
          = c :: (list_ascii_of_string r ++ list_ascii_of_string t)).
  now rewrite IH.
Qed.

Lemma rev_snoc (s : string) (a : ascii) :
  Str.rev (s ++ String a "")%string = String a (Str.rev s).
Proof.
  unfold Str.rev. rewrite list_ascii_app. simpl list_ascii_of_string.
  now rewrite rev_unit.
Qed.

Lemma rev_rev (s : string) : Str.rev (Str.rev s) = s.
Proof.
  unfold Str.rev. rewrite list_ascii_of_string_of_list_ascii, rev_involutive.
  apply string_of_list_ascii_of_string.
Qed.

(** A parenthesised text: [s[1:-1]] is what the parentheses hold. *)
Lemma parenthesised (s : string) :
  Str.starts_with "(" (String "(" (s ++ ")")%string) = true
  /\ Str.ends_with ")" (String "(" (s ++ ")")%string) = true
  /\ Str.strip_ends (String "(" (s ++ ")")%string) = s.
Proof.
  split; [reflexivity|]. split.
  - unfold Str.ends_with. change (String "(" (s ++ ")")%string) with (("(" ++ s) ++ ")")%string.
    rewrite rev_snoc. reflexivity.
  - unfold Str.strip_ends. cbn [Str.drop]. rewrite rev_snoc. cbn [Str.drop].
    apply rev_rev.
Qed.

(** [_money_to_num] keeps the digits, points and minus signs only: a
    dollar sign is dropped, and so are parentheses. *)
Lemma _money_to_num_grouped_numeral (s : string) :
  grouped_numeral s = true ->
  Scraper._money_to_num (Some (String "$" s))
    = Some (Scraper.Float false (digits_of s) "")
  /\ Scraper._money_to_num (Some (String "(" (s ++ ")")%string))
    = Some (Scraper.Float false (digits_of s) "").
Proof.
  intros Hs. pose proof (numeral_chars s Hs) as Hch.
  destruct (digits_of_numeral s Hs) as (c & d & Hd & Hc & Hds).
  assert (Hsp : Str.forallb no_space s = true)
    by (eapply forallb_impl; [|exact Hch]; intros; now apply digit_or_comma_facts).
  assert (Hmoney : Str.filter Scraper.money_char s = String c d).
  { rewrite <- Hd. unfold digits_of. apply (filter_agree _ _ digit_or_comma); [|exact Hch].
    intros x Hx. now apply digit_or_comma_facts. }
  assert (Hall : Str.forallb Str.is_digit (String c d) = true) by (simpl; now rewrite Hc).
  assert (Hfloat : Scraper.float_of_cleaned (String c d)
                   = Ok (Scraper.Float false (String c d) "")).
  { unfold Scraper.float_of_cleaned.
    replace (match String c d with String "-" r => (true, r) | _ => (false, String c d) end)
      with (false, String c d) by (digit_head c Hc; reflexivity).
    rewrite (span_all _ _ Hall). reflexivity. }
  assert (Hmem : Str.mem (String c d) [""; "-"; "."; "-."] = false)
    by (digit_head c Hc; reflexivity).
  unfold Scraper._money_to_num. split.
  - rewrite strip_no_space by (simpl; exact Hsp).
    cbn [Str.truthy String.eqb negb orb Str.upper Str.map].
    change (Str.upper_char "$") with "$"%char.
    cbn [String.eqb Ascii.eqb Bool.eqb].
    cbn [Str.filter]. change (Scraper.money_char "$") with false. cbv iota.
    rewrite Hmoney, Hmem, Hfloat, Hd. reflexivity.
  - rewrite strip_no_space by (simpl; rewrite forallb_app, Hsp; reflexivity).
    cbn [Str.truthy String.eqb negb orb Str.upper Str.map].
    change (Str.upper_char "(") with "("%char.
    cbn [String.eqb Ascii.eqb Bool.eqb].
    cbn [Str.filter]. change (Scraper.money_char "(") with false. cbv iota.
    rewrite filter_app, Hmoney. cbn [Str.filter].
    change (Scraper.money_char ")") with false. cbv iota.
    rewrite append_empty, Hmem, Hfloat, Hd. reflexivity.
Qed.

(** The coercion of the persistence layer reads both currency forms. *)
Lemma to_decimal_or_none_grouped_numeral (s : string) :
  grouped_numeral s = true ->
  Upsert.to_decimal_or_none (Some (String "$" s))
    = Some (Dec.DFin false (Str.digits_value (digits_of s)) 0)
  /\ Upsert.to_decimal_or_none (Some (String "(" (s ++ ")")%string))
    = Some (Dec.DFin true (Str.digits_value (digits_of s)) 0).
Proof.
  intros Hs. pose proof (numeral_chars s Hs) as Hch.
  destruct (digits_of_numeral s Hs) as (c & d & Hd & Hc & Hds).
  assert (Hsp : Str.forallb no_space s = true)
    by (eapply forallb_impl; [|exact Hch]; intros; now apply digit_or_comma_facts).
  assert (Hall : Str.forallb Str.is_digit (String c d) = true) by (simpl; now rewrite Hc).
  assert (Hdsp : Str.forallb no_space (String c d) = true)
    by (eapply forallb_impl; [|exact Hall]; intros; now apply digit_facts).
  assert (Hdollar : Str.filter (fun x => negb (Ascii.eqb "$" x)) s = s)
    by (apply filter_all; eapply forallb_impl; [|exact Hch]; intros;
        now apply digit_or_comma_facts).
  assert (Hpct : Str.filter (fun x => negb (Ascii.eqb "%" x)) s = s)
    by (apply filter_all; eapply forallb_impl; [|exact Hch]; intros;
        now apply digit_or_comma_facts).
  assert (Hcomma : Str.filter (fun x => negb (Ascii.eqb "," x)) s = String c d).
  { rewrite <- Hd. unfold digits_of. apply (filter_agree _ _ digit_or_comma); [|exact Hch].
    intros x Hx. now apply digit_or_comma_facts. }
  destruct (of_string_digits c d Hc Hds) as [Hpos Hneg].
  unfold Upsert.to_decimal_or_none, Upsert._is_nullish. split.
  - rewrite strip_no_space by (simpl; exact Hsp).
    cbn [Str.upper Str.map]. change (Str.upper_char "$") with "$"%char.
    cbn [Upsert._NULLISH Str.mem existsb String.eqb Ascii.eqb Bool.eqb orb default].
    unfold id. rewrite !replace_char.
    rewrite (filter_skip _ "$" s eq_refl), Hdollar, Hpct, Hcomma, (strip_no_space _ Hdsp).
    replace (Str.starts_with "(" (String c d)) with false by (digit_head c Hc; reflexivity).
    cbn [andb String.eqb]. rewrite Hpos, Hd. reflexivity.
  - rewrite strip_no_space by (simpl; rewrite forallb_app, Hsp; reflexivity).
    cbn [Str.upper Str.map]. change (Str.upper_char "(") with "("%char.
    cbn [Upsert._NULLISH Str.mem existsb String.eqb Ascii.eqb Bool.eqb orb default].
    unfold id. rewrite !replace_char.
    rewrite !(filter_parenthesised _ _ eq_refl eq_refl), Hdollar, Hpct, Hcomma.
    rewrite strip_no_space
      by (change (no_space "(" && Str.forallb no_space (String c d ++ ")")%string = true);
          rewrite forallb_app, Hdsp; reflexivity).
    destruct (parenthesised (String c d)) as (-> & -> & ->).
    cbn [andb]. change ("-" ++ String c d)%string with (String "-" (String c d)).
    cbn [String.eqb]. rewrite Hneg, Hd. reflexivity.
Qed.

(** ** Currency normalization (C1) *)

(** A text that starts with [c], where [c] is neither whitespace, a comma,
    a percent sign, a sign, a digit, a point nor the first letter of a
    sentinel or of a special value, is no number for [to_num]. *)
Ltac to_num_of_head c :=
  let r1 := fresh "r" in
  let r2 := fresh "r" in
  let r3 := fresh "r" in
  let r4 := fresh "r" in
  let r5 := fresh "r" in
  unfold Normalize.to_num;
  match goal with
  | |- context [Normalize.clean_text (Some (String c ?r))] =>
      destruct (clean_text_head c eq_refl r) as [r1 ->]
  end;
  destruct (replace_head c "," "" r1 eq_refl) as [r2 ->];
  destruct (replace_head c "%" "" r2 eq_refl) as [r3 ->];
  cbn [Str.lower Str.map Str.mem existsb];
  change (Str.lower_char c) with c;
  cbn [String.eqb Ascii.eqb Bool.eqb orb];
  unfold Dec.of_string;
  destruct (strip_head c eq_refl r3) as [r4 ->];
  destruct (filter_head c (fun x => negb (Ascii.eqb x "_")) r4 eq_refl) as [r5 ->];
  cbn [Dec.split_sign];
  cbn [Str.lower Str.map Str.mem existsb];
  change (Str.lower_char c) with c;
  cbn [String.eqb Ascii.eqb Bool.eqb orb Str.starts_with andb];
  cbn [Str.span];
  change (Str.is_digit c) with false;
  reflexivity.

Lemma to_num_dollar (r : string) : Normalize.to_num (Some (String "$" r)) = None.
Proof. to_num_of_head "$"%char. Qed.

Lemma to_num_open_paren (r : string) : Normalize.to_num (Some (String "(" r)) = None.
Proof. to_num_of_head "("%char. Qed.

(** What [to_num] does return a value for: plain numerals, with commas. *)
Example to_num_plain :
  Normalize.to_num (Some "1,234") = Some (Dec.DFin false 1234 0)
  /\ Normalize.to_num (Some " 302,630.50 ") = Some (Dec.DFin false 30263050 (-2))
  /\ Normalize.to_num (Some "-1,234") = Some (Dec.DFin true 1234 0)
  /\ Normalize.to_num (Some "25%") = Some (Dec.DFin false 25 0).
Proof. repeat split; reflexivity. Qed.

(** The sentinels, in any case and with surrounding blanks, give [None]. *)
Example to_num_sentinels :
  Forall (fun s => Normalize.to_num s = None)
    [None; Some ""; Some "  "; Some "N/A"; Some "n/a"; Some "NA"; Some "-";
     Some "NONE"; Some "None"]
  /\ Forall (fun s => Scraper._money_to_num s = None)
       [None; Some ""; Some "N/A"; Some "NA"; Some "-"; Some "NONE"].
Proof. split; repeat constructor. Qed.

(** So does every other text that is no numeral: [None] is not reserved to
    the sentinels. *)
Example to_num_other_text :
  Normalize.to_num (Some "abc") = None /\ Normalize.to_num (Some "12 34") = None.
Proof. split; reflexivity. Qed.

(** C1. The specification has [toNumber] strip a leading currency symbol
    and read a parenthesised amount as negative. Neither normalizer does:
    [to_num] gives [None] for every text that starts with a dollar sign or
    an opening parenthesis, where it reads the bare numeral exactly; and
    [_money_to_num] drops the parentheses and returns the amount with a
    positive sign. The numeric coercion of the persistence layer,
    [to_decimal_or_none], reads both forms. *)
Theorem C1_currency_forms_not_normalized :
  (forall r, Normalize.to_num (Some (String "$" r)) = None)
  /\ (forall r, Normalize.to_num (Some (String "(" r)) = None)
  /\ (forall s, grouped_numeral s = true ->
        Normalize.to_num (Some s)
        = Some (Dec.DFin false (Str.digits_value (digits_of s)) 0)
        /\ Scraper._money_to_num (Some (String "$" s))
           = Some (Scraper.Float false (digits_of s) "")
        /\ Scraper._money_to_num (Some (String "(" (s ++ ")")%string))
           = Some (Scraper.Float false (digits_of s) "")
        /\ Upsert.to_decimal_or_none (Some (String "$" s))
           = Some (Dec.DFin false (Str.digits_value (digits_of s)) 0)
        /\ Upsert.to_decimal_or_none (Some (String "(" (s ++ ")")%string))
           = Some (Dec.DFin true (Str.digits_value (digits_of s)) 0))
  /\ grouped_numeral "1,234" = true
  /\ Normalize.to_num (Some "1,234") = Some (Dec.DFin false 1234 0)
  /\ Normalize.to_num (Some "$1,234") = None
  /\ Normalize.to_num (Some "(1,234)") = None
  /\ Scraper._money_to_num (Some "$1,234") = Some (Scraper.Float false "1234" "")
  /\ Scraper._money_to_num (Some "(1,234)") = Some (Scraper.Float false "1234" "")
  /\ Upsert.to_decimal_or_none (Some "$1,234") = Some (Dec.DFin false 1234 0)
  /\ Upsert.to_decimal_or_none (Some "(1,234)") = Some (Dec.DFin true 1234 0).
Proof.
  split; [exact to_num_dollar|].
  split; [exact to_num_open_paren|].
  split.
  { intros s Hs.
    destruct (_money_to_num_grouped_numeral s Hs) as [Hm1 Hm2].
    destruct (to_decimal_or_none_grouped_numeral s Hs) as [Hd1 Hd2].
    repeat split; [now apply to_num_grouped_numeral | assumption..]. }
  repeat split; reflexivity.
Qed.

(** ** The tri-state normalizer (C3) *)

Lemma mem_In (s : string) (l : list string) : Str.mem s l = true <-> In s l.
Proof.
  unfold Str.mem. rewrite existsb_exists. split.
  - intros [x [Hin Heq]]. apply String.eqb_eq in Heq. now subst.
  - intros Hin. exists s. split; [assumption | apply String.eqb_refl].
Qed.

Lemma mem_not_In (s : string) (l : list string) : Str.mem s l = false <-> ~ In s l.
Proof.
  rewrite <- mem_In. destruct (Str.mem s l); split; intros; congruence.
Qed.








(** [map_yn_to_none] returns a text for every input; [to_bool] a boolean:
    both are total, so neither raises. *)



(** ** De-duplication of search results (C5) *)

Section FirstSeenFacts.

(** Rows with a key; [keep_key] tells which keys are kept at all. *)
Context {A : Type} (key : A -> string) (keep_key : string -> bool).

Lemma first_seen_elem (seen : gset string) (rows : list A) (r : A) :
  (r ∈ first_seen key keep_key seen rows) ->
  keep_key (key r) = true /\ (key r ∉ seen) /\ (r ∈ rows).
Proof.
  revert seen. induction rows as [|r0 rest IH]; intros seen Hin; simpl in Hin.
  - now apply elem_of_nil in Hin.
  - destruct (keep_key (key r0)) eqn:Hk; simpl in Hin.
    + case_bool_decide as Hs; simpl in Hin.
      * destruct (IH _ Hin) as (? & ? & ?). repeat split; [assumption.. | now right].
      * apply elem_of_cons in Hin as [-> | Hin].
        -- repeat split; [assumption.. | now left].
        -- destruct (IH _ Hin) as (? & Hn & ?).
           apply not_elem_of_union in Hn as [_ Hn].
           repeat split; [assumption.. | now right].
    + destruct (IH _ Hin) as (? & ? & ?). repeat split; [assumption.. | now right].
Qed.

Lemma first_seen_NoDup (seen : gset string) (rows : list A) :
  NoDup (key <$> first_seen key keep_key seen rows).
Proof.
  revert seen. induction rows as [|r0 rest IH]; intros seen; simpl.
  - constructor.
  - destruct (keep_key (key r0) && negb (bool_decide (key r0 ∈ seen))); [|apply IH].
    rewrite ?fmap_cons. constructor; [|apply IH].
    intros Hin. apply list_elem_of_fmap in Hin as (r & Hkey & Hr).
    apply first_seen_elem in Hr as (_ & Hn & _).
    apply not_elem_of_union in Hn as [Hn _]. apply Hn, elem_of_singleton. congruence.
Qed.

Lemma first_seen_complete (seen : gset string) (rows : list A) (k : string) :
  (k ∈ key <$> rows) -> keep_key k = true -> (k ∉ seen) ->
  k ∈ key <$> first_seen key keep_key seen rows.
Proof.
  revert seen. induction rows as [|r0 rest IH]; intros seen Hin Hk Hs.
  - now apply elem_of_nil in Hin.
  - rewrite fmap_cons in Hin. cbn [first_seen].
    destruct (decide (k = key r0)) as [->|Hne].
    + rewrite Hk. rewrite bool_decide_eq_false_2 by assumption. cbn [andb negb].
      rewrite fmap_cons. now left.
    + apply elem_of_cons in Hin as [?|Hin]; [contradiction|].
      destruct (keep_key (key r0) && negb (bool_decide (key r0 ∈ seen))).
      * rewrite fmap_cons. right. apply IH; [assumption.. |].
        apply not_elem_of_union. split; [|assumption].
        now intros ?%elem_of_singleton.
      * now apply IH.
Qed.

Lemma first_seen_first (seen : gset string) (rows : list A) (r : A) :
  (r ∈ first_seen key keep_key seen rows) ->
  exists l1 l2, rows = l1 ++ r :: l2 /\ (key r ∉ key <$> l1).
Proof.
  revert seen. induction rows as [|r0 rest IH]; intros seen Hin; simpl in Hin.
  - now apply elem_of_nil in Hin.
  - assert (Hstep : forall seen', (r ∈ first_seen key keep_key seen' rest) -> key r <> key r0 ->
                      exists l1 l2, r0 :: rest = l1 ++ r :: l2 /\ (key r ∉ key <$> l1)).
    { intros seen' Hr Hne. destruct (IH _ Hr) as (l1 & l2 & -> & Hn).
      exists (r0 :: l1), l2. split; [reflexivity|].
      rewrite fmap_cons. intros [?|?]%elem_of_cons; [congruence | contradiction]. }
    destruct (keep_key (key r0)) eqn:Hk; simpl in Hin.
    + case_bool_decide as Hs; simpl in Hin.
      * apply (Hstep _ Hin). apply first_seen_elem in Hin as (_ & Hn & _). congruence.
      * apply elem_of_cons in Hin as [-> | Hin].
        -- exists [], rest. split; [reflexivity|]. rewrite fmap_nil. apply not_elem_of_nil.
        -- apply (Hstep _ Hin). apply first_seen_elem in Hin as (_ & Hn & _).
           apply not_elem_of_union in Hn as [Hn _]. intros E. apply Hn, elem_of_singleton, E.
    + apply (Hstep _ Hin). apply first_seen_elem in Hin as (Hk' & _ & _). congruence.
Qed.

Lemma first_seen_sublist (seen : gset string) (rows : list A) :
  first_seen key keep_key seen rows `sublist_of` rows.
Proof.
  revert seen. induction rows as [|r0 rest IH]; intros seen; simpl.
  - constructor.
  - destruct (keep_key (key r0) && negb (bool_decide (key r0 ∈ seen))).
    + apply sublist_skip, IH.
    + apply sublist_cons, IH.
Qed.

End FirstSeenFacts.

Lemma dedupe_fold (rows : list Search.result_row) (seen : gset string)
    (uniq : list Search.result_row) :
  snd (fold_left Search.dedupe_step rows (seen, uniq))
  = uniq ++ first_seen Search.account_id Str.truthy seen rows.
Proof.
  revert seen uniq. induction rows as [|r rest IH]; intros seen uniq; simpl.
  - now rewrite app_nil_r.
  - destruct (Str.truthy (Search.account_id r)
              && negb (bool_decide (Search.account_id r ∈ seen))).
    + rewrite IH, <- app_assoc. reflexivity.
    + apply IH.
Qed.

Lemma dedupe_first_seen (rows : list Search.result_row) :
  Search.dedupe rows = first_seen Search.account_id Str.truthy ∅ rows.
Proof. unfold Search.dedupe. now rewrite dedupe_fold. Qed.

Lemma keep_first_fold {A : Type} (key : A -> string) (rows : list A)
    (seen : gset string) (out : list A) :
  snd (fold_left (Search.keep_first_step A key) rows (seen, out))
  = out ++ first_seen key (fun _ => true) seen rows.
Proof.
  revert seen out. induction rows as [|r rest IH]; intros seen out; simpl.
  - now rewrite app_nil_r.
  - case_bool_decide; simpl.
    + apply IH.
    + rewrite IH, <- app_assoc. reflexivity.
Qed.

Lemma truthy_iff (s : string) : Str.truthy s = true <-> s <> "".
Proof.
  unfold Str.truthy. rewrite negb_true_iff. split.
  - intros H ->. discriminate.
  - intros H. destruct (String.eqb_spec s ""); [contradiction | reflexivity].
Qed.

(** C5, counterexample. A row with an empty account id is dropped by the
    paged search, so that id is not in the output at all. *)
Lemma C5_empty_id_is_dropped :
  Search.dedupe [row_without_id] = []
  /\ ~ each_id_once [row_without_id] (Search.dedupe [row_without_id]).
Proof.
  split; [reflexivity|].
  intros [_ H]. specialize (H "").
  change (Search.dedupe [row_without_id]) with (@nil Search.result_row) in H.
  apply elem_of_nil in H; [assumption|]. now left.
Qed.

(** C5, as amended. For every list of rows accumulated across the pages,
    the paged search returns each non-empty account id exactly once; each
    kept row is the first row of the input with its id, the kept rows stand
    in input order, and rows with an empty account id are dropped. The
    loop of [_find_results_rows], whose ids are never empty, does the same
    with no row dropped for its id. *)
Theorem C5_dedupe_first_seen (rows : list Search.result_row) :
  let out := Search.dedupe rows in
  NoDup (Search.account_id <$> out)
  /\ (forall id, id <> "" -> (id ∈ Search.account_id <$> rows) ->
                 (id ∈ Search.account_id <$> out))
  /\ (forall r, (r ∈ out) ->
        Search.account_id r <> ""
        /\ exists l1 l2, rows = l1 ++ r :: l2
                         /\ (Search.account_id r ∉ Search.account_id <$> l1))
  /\ out `sublist_of` rows
  /\ (forall (A : Type) (key : A -> string) (l : list A),
        let kept := Search.keep_first A key l in
        NoDup (key <$> kept)
        /\ (forall k, (k ∈ key <$> l) -> (k ∈ key <$> kept))
        /\ (forall r, (r ∈ kept) ->
              exists l1 l2, l = l1 ++ r :: l2 /\ (key r ∉ key <$> l1))
        /\ kept `sublist_of` l).
Proof.
  cbn zeta. rewrite dedupe_first_seen.
  split; [apply first_seen_NoDup|].
  split.
  { intros id Hne Hin. apply first_seen_complete; [assumption | now apply truthy_iff |].
    apply not_elem_of_empty. }
  split.
  { intros r Hr. split.
    - apply first_seen_elem in Hr as (Hk & _ & _). now apply truthy_iff.
    - eapply first_seen_first, Hr. }
  split; [apply first_seen_sublist|].
  intros A key l. unfold Search.keep_first. rewrite keep_first_fold. cbn [app].
  split; [apply first_seen_NoDup|].
  split.
  { intros k Hin. apply first_seen_complete; [assumption | reflexivity |].
    apply not_elem_of_empty. }
  split; [intros r Hr; eapply first_seen_first, Hr | apply first_seen_sublist].
Qed.

(** A page of results seen twice, with a row that has no id in between. *)
Example dedupe_example :
  let a := Search.ResultRow "00000776533000000" "1 ELM ST" "DALLAS" "A" "$1" "R" "u1" in
  let a' := Search.ResultRow "00000776533000000" "1 ELM STREET" "DALLAS" "A" "$1" "R" "u1" in
  let b := Search.ResultRow "00000776534000000" "2 ELM ST" "DALLAS" "B" "$2" "R" "u2" in
  Search.dedupe [a; row_without_id; b; a'; b] = [a; b].
Proof. reflexivity. Qed.

(** ** Termination of the paged search (C4) *)

Section PagedSearch.

Variable lxml_parser : string -> node.
Variable urljoin : string -> string -> result string.
Variable parse_query : string -> result (string -> list string).
Variable site : Type.
Variable http : site -> Search.request -> site * result string.

Local Abbreviation page_loop :=
  (Search.page_loop lxml_parser urljoin parse_query site http).
Local Abbreviation rows_of :=
  (Search._parse_results_table lxml_parser urljoin parse_query).
Local Abbreviation next_of := (Search._find_next_postback lxml_parser).
Local Abbreviation postback text target :=
  (Search.Post search_url (Search.postback_form lxml_parser text target)).
Local Abbreviation follows := (follows lxml_parser site http).
Local Abbreviation all_parse := (all_parse lxml_parser urljoin parse_query).

(** With enough fuel to reach the ceiling the loop ends, having read more
    pages than it started with and at most [page_ceiling]. *)
Lemma page_loop_ends (fuel : nat) (url : string) (s : site) (pages : nat)
    (text : string) (rows : list Search.result_row) :
  (pages < Search.page_ceiling)%nat ->
  (Search.page_ceiling <= pages + fuel)%nat ->
  exists s' p r,
    page_loop fuel url s pages text rows = Some (s', p, r)
    /\ (pages < p <= Search.page_ceiling)%nat.
Proof.
  revert s pages text rows.
  induction fuel as [|fuel IH]; intros s pages text rows Hlt Hfuel; [lia|].
  cbn [Search.page_loop].
  destruct (rows_of text) as [found|e]; [|exists s, (S pages), (Raise e); split; [easy|lia]].
  destruct (Search.page_ceiling <=? S pages)%nat eqn:Hc.
  - apply Nat.leb_le in Hc. eexists s, (S pages), _. split; [reflexivity | lia].
  - apply Nat.leb_gt in Hc.
    destruct (next_of text) as [target|];
      [|eexists s, (S pages), _; split; [reflexivity | lia]].
    destruct (http s _) as [s' [text'|e]].
    + destruct (IH s' (S pages) text' (rows ++ found)) as (s2 & p & r & Heq & Hp);
        [lia | lia |].
      exists s2, p, r. split; [exact Heq | lia].
    + exists s', (S pages), (Raise e). split; [reflexivity | lia].
Qed.

(** More fuel does not change a result. *)
Lemma page_loop_more_fuel (fuel k : nat) (url : string) (s : site) (pages : nat)
    (text : string) (rows : list Search.result_row) x :
  page_loop fuel url s pages text rows = Some x ->
  page_loop (fuel + k) url s pages text rows = Some x.
Proof.
  revert s pages text rows.
  induction fuel as [|fuel IH]; intros s pages text rows H; [discriminate|].
  cbn [Search.page_loop Nat.add] in H |- *.
  destruct (rows_of text) as [found|e]; [|exact H].
  destruct (Search.page_ceiling <=? S pages)%nat; [exact H|].
  destruct (next_of text); [|exact H].
  destruct (http s _) as [s' [text'|e]]; [|exact H].
  apply IH, H.
Qed.

(** What the loop returns, told from the pages the site served: the
    pages read are those reached by following the next links, every page
    but the last has parsed, and the loop ended at the last one in one of
    the three ways of [crawl_ends], with the rows gathered before in
    front. *)
Lemma page_loop_trace (fuel : nat) (s : site) (pages : nat) (text : string)
    (rows : list Search.result_row) (s' : site) (p : nat)
    (r : result (list Search.result_row)) :
  (pages < Search.page_ceiling)%nat ->
  page_loop fuel search_url s pages text rows = Some (s', p, r) ->
  exists texts s_last init last rowss,
    follows s text texts s_last /\ p = (pages + List.length texts)%nat
    /\ texts = init ++ [last] /\ all_parse init rowss
    /\ match rows_of last with
       | Raise e => r = Raise e /\ s' = s_last
       | Ok found =>
           (r = Ok (rows ++ concat rowss ++ found) /\ s' = s_last
            /\ (p = Search.page_ceiling \/ next_of last = None))
           \/ ((p < Search.page_ceiling)%nat
               /\ exists target e,
                    next_of last = Some target
                    /\ http s_last (postback last target) = (s', Raise e)
                    /\ r = Raise e)
       end.
Proof.
  revert s pages text rows.
  induction fuel as [|fuel IH]; intros s pages text rows Hlt H; [discriminate|].
  cbn [Search.page_loop] in H.
  assert (Hone : forall P : Prop,
             (match rows_of text with
              | Raise e => r = Raise e /\ s' = s
              | Ok found =>
                  (r = Ok (rows ++ concat [] ++ found) /\ s' = s
                   /\ (p = Search.page_ceiling \/ next_of text = None))
                  \/ ((p < Search.page_ceiling)%nat
                      /\ exists target e,
                           next_of text = Some target
                           /\ http s (postback text target) = (s', Raise e)
                           /\ r = Raise e)
              end) ->
             p = S pages ->
             exists texts s_last init last rowss,
               follows s text texts s_last /\ p = (pages + List.length texts)%nat
               /\ texts = init ++ [last] /\ all_parse init rowss
               /\ match rows_of last with
                  | Raise e => r = Raise e /\ s' = s_last
                  | Ok found =>
                      (r = Ok (rows ++ concat rowss ++ found) /\ s' = s_last
                       /\ (p = Search.page_ceiling \/ next_of last = None))
                      \/ ((p < Search.page_ceiling)%nat
                          /\ exists target e,
                               next_of last = Some target
                               /\ http s_last (postback last target) = (s', Raise e)
                               /\ r = Raise e)
                  end).
  { intros _ Hend Hp. exists [text], s, [], text, [].
    split; [constructor|]. split; [cbn [List.length]; lia|].
    split; [reflexivity|]. split; [constructor | exact Hend]. }
  destruct (rows_of text) as [found|e] eqn:Hparse.
  2:{ injection H as <- <- <-. apply (Hone True); [now split | reflexivity]. }
  destruct (Search.page_ceiling <=? S pages)%nat eqn:Hc.
  { apply Nat.leb_le in Hc. injection H as <- <- <-.
    apply (Hone True); [|reflexivity]. left. repeat split. left. lia. }
  apply Nat.leb_gt in Hc.
  destruct (next_of text) as [target|] eqn:Hnext.
  2:{ injection H as <- <- <-. apply (Hone True); [|reflexivity].
      left. repeat split. now right. }
  destruct (http s (postback text target)) as [s1 [text'|e]] eqn:Hhttp.
  2:{ injection H as <- <- <-. apply (Hone True); [|reflexivity].
      right. split; [exact Hc|].
      exists target, e. split; [reflexivity|]. split; [exact Hhttp | reflexivity]. }
  destruct (IH s1 (S pages) text' (rows ++ found) Hc H)
    as (texts & s_last & init & last & rowss & Hfol & Hp & Htexts & Hall & Hend).
  exists (text :: texts), s_last, (text :: init), last, (found :: rowss).
  split; [now apply (follows_next _ _ _ s text target s1 text')|].
  split; [cbn [List.length]; lia|].
  split; [now rewrite Htexts|].
  split; [now constructor|].
  destruct (rows_of last) as [found'|e']; [|exact Hend].
  destruct Hend as [(Hr & Hs & Hstop)|Hreq]; [left | now right].
  repeat split; [|exact Hs | exact Hstop].
  rewrite Hr. cbn [concat]. now rewrite <- !app_assoc.
Qed.

End PagedSearch.

(** C4. For every site, whatever pages it serves and whether or not they
    carry a next link, the paged search ends after at most 200 page
    iterations: run with fuel for 200 iterations or more it always
    returns, and more fuel changes nothing. What it returns is told from
    the requests the site answered: the pages read are exactly those
    reached from the first results page by following the next link of
    each page in turn; the search stops at the first page that fails to
    parse, at a page without a next link, at a request that fails, or at
    page 200; and when it stops at a page that parsed, for want of a next
    link or at the ceiling, it returns the rows of every page read,
    de-duplicated. Reaching the ceiling is thus no error: at 200 pages an
    exception can only come from parsing a page. *)
Theorem C4_paged_search_terminates
    (lxml_parser : string -> node) (urljoin : string -> string -> result string)
    (parse_query : string -> result (string -> list string))
    (site : Type) (http : site -> Search.request -> site * result string)
    (fuel : nat) (s : site) (q : string) (city direction : option string) :
  (Search.page_ceiling <= fuel)%nat ->
  exists s' pages r,
    Search._search_address_paged lxml_parser urljoin parse_query site http
      fuel s q city direction = Some (s', pages, r)
    /\ (pages <= 200)%nat
    /\ search_outcome lxml_parser urljoin parse_query site http s q city direction
         s' pages r
    /\ (pages = 200%nat ->
        forall e, r = Raise e ->
          exists text, Search._parse_results_table lxml_parser urljoin parse_query text
                       = Raise e)
    /\ Search._search_address_paged lxml_parser urljoin parse_query site http
         Search.page_ceiling s q city direction = Some (s', pages, r).
Proof.
  intros Hfuel. unfold Search._search_address_paged, search_outcome.
  fold search_url.
  destruct (http s (Search.Get search_url)) as [s0 [text0|e]].
  2:{ exists s0, 0%nat, (Raise e). repeat split; [lia | discriminate]. }
  destruct (http s0 _) as [s1 [text|e]].
  2:{ exists s1, 0%nat, (Raise e). repeat split; [lia | discriminate]. }
  destruct (page_loop_ends lxml_parser urljoin parse_query site http
              Search.page_ceiling search_url s1 0 text [])
    as (s' & p & r & Heq & Hp); [unfold Search.page_ceiling; lia | lia |].
  pose proof (page_loop_more_fuel lxml_parser urljoin parse_query site http
                _ (fuel - Search.page_ceiling) _ _ _ _ _ _ Heq) as Hmore.
  replace (Search.page_ceiling + (fuel - Search.page_ceiling))%nat with fuel in Hmore by lia.
  rewrite Hmore, Heq.
  assert (H0 : (0 < Search.page_ceiling)%nat) by (unfold Search.page_ceiling; lia).
  destruct (page_loop_trace lxml_parser urljoin parse_query site http
              Search.page_ceiling s1 0 text [] s' p r H0 Heq)
    as (texts & s_last & init & last & rowss & Hfol & Hlen & Htexts & Hall & Hend).
  cbn [Nat.add] in Hlen. cbn [app] in Hend.
  exists s', p, (match r with Ok all => Ok (Search.dedupe all) | Raise e => Raise e end).
  split; [now destruct r|].
  split; [unfold Search.page_ceiling in Hp; lia|].
  split; [|split; [|now destruct r]].
  - exists texts, s_last. split; [exact Hfol|]. split; [now symmetry|].
    exists init, last, rowss. split; [exact Htexts|]. split; [exact Hall|].
    destruct (Search._parse_results_table _ _ _ last) as [found|e'].
    + destruct Hend as [(-> & Hs & Hstop)|(Hlt & target & e & Hn & Hreq & ->)].
      * left. repeat split; [exact Hs|]. rewrite <- Hlen. exact Hstop.
      * right. split; [rewrite <- Hlen; exact Hlt|].
        exists target, e. split; [exact Hn|]. split; [exact Hreq | reflexivity].
    + destruct Hend as [-> Hs]. now split.
  - intros -> e Hr. exists last.
    destruct (Search._parse_results_table _ _ _ last) as [found|e'].
    + destruct Hend as [(-> & _)|(Hlt & _)]; [discriminate Hr|].
      unfold Search.page_ceiling in Hlt. lia.
    + destruct Hend as [-> _]. now injection Hr as ->.
Qed.

Example self_linking_page_has_next :
  Search._find_next_postback (fun _ => self_linking_page) "self"
  = Some "SearchResults1$dgResults$ctl01$ctl02".
Proof. reflexivity. Qed.

(** The crawl of the self-linking site stops after exactly 200 pages and
    returns the one distinct row. *)
Example self_linking_site_crawl :
  Search._search_address_paged (fun _ => self_linking_page) link_as_written id_of_link
    unit self_linking_site 200 tt "100 main st" None None
  = Some (tt, 200%nat,
          Ok [Search.ResultRow "00000776533000000" "100 MAIN ST" "DALLAS" "SMITH JOHN"
                "$250,000" "RESIDENTIAL" "AcctDetail.aspx?ID=00000776533000000"]).
Proof. vm_compute. reflexivity. Qed.

(** A page with a link that is no URL ends the search with the exception
    of [urljoin], whatever rows were read before. *)
Example broken_link_site_crawl :
  Search._search_address_paged (fun _ => broken_link_page) strict_urljoin id_of_link
    unit self_linking_site 200 tt "100 main st" None None
  = Some (tt, 1%nat, Raise ValueError).
Proof. vm_compute. reflexivity. Qed.

Lemma C4_paged_search_terminates_witness :
  exists s' pages r,
    Search._search_address_paged (fun _ => self_linking_page) link_as_written id_of_link
      unit self_linking_site 200 tt "100 main st" None None = Some (s', pages, r)
    /\ (pages <= 200)%nat
    /\ search_outcome (fun _ => self_linking_page) link_as_written id_of_link
         unit self_linking_site tt "100 main st" None None s' pages r
    /\ (pages = 200%nat ->
        forall e, r = Raise e ->
          exists text, Search._parse_results_table (fun _ => self_linking_page)
                         link_as_written id_of_link text = Raise e)
    /\ Search._search_address_paged (fun _ => self_linking_page) link_as_written id_of_link
         unit self_linking_site Search.page_ceiling tt "100 main st" None None
       = Some (s', pages, r).
Proof.
  apply (C4_paged_search_terminates (fun _ => self_linking_page) link_as_written id_of_link
           unit self_linking_site 200 tt "100 main st" None None).
  apply Nat.le_refl.
Defined.

(** ** The area backfill (C6) *)

Import Standalone.


(** After a backfill, a missing total living area means that no area
    figure exists. *)
Lemma backfill_closed (d : areas) :
  total_living_area (backfill d) = None ->
  total_area_sqft (backfill d) = None /\ living_area_sqft (backfill d) = None.
Proof. destruct d as [[la|] [tla|] [ta|]]; cbn; intros H; try discriminate; now split. Qed.

Lemma backfill_idempotent (d : areas) : backfill (backfill d) = backfill d.
Proof. destruct d as [[la|] [tla|] [ta|]]; reflexivity. Qed.

(** The extractor always ends with a backfill. *)
Lemma extract_is_backfilled (doc : node) :
  exists d, _extract_primary_improvements doc = backfill d.
Proof.
  unfold _extract_primary_improvements, areas_by_id, table_pass.
  destruct (List.find _ (candidates doc)); eauto.
Qed.

(** The identifier lookups come first, and their backfill with them: once
    it has filled the total living area from the living area found by
    identifier, the table pass leaves that value in place. *)
Example identifier_areas_come_first :
  parse_detail identifier_and_table_page = Areas (Some 1800) (Some 1800) None.
Proof. vm_compute. reflexivity. Qed.




(** ** Derivation of the land value (C7) *)

(** Amounts written as plain numerals are derived from, and an improvement
    value above the market value leaves the land value unset. *)
Example land_value_from_plain_numerals :
  Detail.parse_value_summary (value_summary_page "120000" "300000")
  = Detail.ValueSummary "120000" "$180,000" "300000"
  /\ Detail.parse_value_summary (value_summary_page "120,000" "300,000")
     = Detail.ValueSummary "120,000" "$180,000" "300,000"
  /\ Detail.parse_value_summary (value_summary_page "350000" "300000")
     = Detail.ValueSummary "350000" "N/A" "300000"
  /\ Detail.parse_value_summary (value_summary_page "300000" "300000")
     = Detail.ValueSummary "300000" "$0" "300000".
Proof. repeat split; vm_compute; reflexivity. Qed.

Lemma div_half_even_nonneg (n d : Z) : 0 <= n -> 0 < d -> 0 <= Dec.div_half_even n d.
Proof.
  intros Hn Hd. unfold Dec.div_half_even.
  assert (0 <= n / d) by (apply Z.div_pos; lia).
  destruct (_ || _); lia.
Qed.

Lemma pow10_pos (k : Z) : 0 <= k -> 0 < 10 ^ k.
Proof. intros. apply Z.pow_pos_nonneg; lia. Qed.

(** Rounding zero gives zero. *)
Lemma div_half_even_zero (d : Z) : 0 < d -> Dec.div_half_even 0 d = 0.
Proof.
  intros Hd. unfold Dec.div_half_even.
  rewrite Z.div_0_l, Z.mod_0_l by lia.
  replace (d <? 2 * 0) with false by (symmetry; apply Z.ltb_ge; lia).
  replace (d =? 2 * 0) with false by (symmetry; apply Z.eqb_neq; lia).
  reflexivity.
Qed.

(** A decimal that compares [>= 0] rounds to a non-negative integer. *)
Lemma round_nonneg (d : decimal) (r : Z) :
  Dec.ge_int d 0 = Ok true -> Dec.round d = Ok r -> 0 <= r.
Proof.
  destruct d as [neg c e| |]; cbn [Dec.ge_int Dec.ge Dec.of_Z Dec.round]; try discriminate.
  intros Hge [= <-]. injection Hge as Hge. apply Z.leb_le in Hge.
  unfold Dec.scaled in Hge. cbn in Hge.
  assert (Hc : 0 <= Z.of_N c) by lia.
  assert (Hd : 0 < 10 ^ (- e) \/ 0 <= e).
  { destruct (Z.le_gt_cases 0 e); [now right | left; apply pow10_pos; lia]. }
  assert (Hm : 0 <= (if 0 <=? e then Z.of_N c * 10 ^ e
                     else Dec.div_half_even (Z.of_N c) (10 ^ (- e)))).
  { destruct (0 <=? e) eqn:He.
    - apply Z.leb_le in He. pose proof (pow10_pos e He). nia.
    - apply Z.leb_gt in He. apply div_half_even_nonneg; [lia | apply pow10_pos; lia]. }
  destruct neg; [|exact Hm].
  assert (Hp : 0 < 10 ^ (e - Z.min e 0)) by (apply pow10_pos; lia).
  assert (Hz : Z.of_N c = 0) by nia.
  rewrite Hz. destruct (0 <=? e) eqn:He; [lia|].
  apply Z.leb_gt in He. rewrite div_half_even_zero; [lia | apply pow10_pos; lia].
Qed.

Lemma float_of_int_nonneg (n f : Z) : 0 <= n -> float_of_int n = Ok f -> 0 <= f.
Proof.
  intros Hn. unfold float_of_int.
  replace (n <? 0) with false by (symmetry; apply Z.ltb_ge; lia).
  rewrite Z.abs_eq by lia.
  set (v := if n <? 2 ^ 53 then n else _).
  assert (Hv : 0 <= v).
  { subst v. destruct (n <? 2 ^ 53); [assumption|].
    assert (0 < 2 ^ (Z.log2 n - 52) \/ 2 ^ (Z.log2 n - 52) = 0) as [Hp|Hp].
    { destruct (Z.le_gt_cases 0 (Z.log2 n - 52)).
      - left. apply Z.pow_pos_nonneg; lia.
      - right. apply Z.pow_neg_r. lia. }
    - pose proof (div_half_even_nonneg n _ Hn Hp). nia.
    - rewrite Hp. lia. }
  destruct (2 ^ 1024 <=? v); [discriminate|]. now intros [= <-].
Qed.

(** Whatever the two texts, a derived land value is a dollar sign followed
    by a non-negative whole amount: a negative one is never surfaced. *)
Lemma derived_land_value_nonnegative (improvement market s : string) :
  Detail.derive_land_value improvement market = Ok (Some s) ->
  exists n : Z, 0 <= n /\ s = ("$" ++ format_comma_f0 n)%string.
Proof.
  unfold Detail.derive_land_value.
  destruct (if Detail.present improvement then _ else _) as [imp_n|]; [|discriminate].
  destruct (if Detail.present market then _ else _) as [mkt_n|]; [|discriminate].
  destruct (Dec.ge mkt_n imp_n) as [[|]|]; cbn [mbind result_bind]; try discriminate.
  destruct (Dec.sub mkt_n imp_n) as [land_calc|]; cbn [mbind result_bind]; [|discriminate].
  destruct (Dec.ge_int land_calc 0) as [[|]|] eqn:Hge; cbn [mbind result_bind]; try discriminate.
  destruct (Dec.round land_calc) as [r|] eqn:Hr; cbn [mbind result_bind]; [|discriminate].
  destruct (float_of_int r) as [f|] eqn:Hf; cbn [mbind result_bind]; [|discriminate].
  intros [= <-]. exists f. split; [|reflexivity].
  eapply float_of_int_nonneg; [|exact Hf]. eapply round_nonneg; eassumption.
Qed.

(** When the improvement value exceeds the market value nothing is
    derived. *)
Lemma land_value_unset_when_exceeded (improvement market : string) (imp_n mkt_n : decimal) :
  Normalize.to_num (Some improvement) = Some imp_n ->
  Normalize.to_num (Some market) = Some mkt_n ->
  Dec.ge mkt_n imp_n = Ok false ->
  Detail.finish_value_summary improvement "N/A" market
  = Detail.ValueSummary improvement "N/A" market.
Proof.
  intros Hi Hm Hge. unfold Detail.finish_value_summary, Detail.derive_land_value.
  rewrite Hi, Hm. cbn [String.eqb Ascii.eqb Bool.eqb].
  destruct (Detail.present improvement), (Detail.present market);
    rewrite ?Hge; reflexivity.
Qed.

(** *** Whole amounts *)

Lemma digit_cons_length (r : N) (d : Decimal.uint) :
  Decimal.nb_digits (digit_cons r d) = S (Decimal.nb_digits d).
Proof.
  destruct r as [|p]; [reflexivity|].
  do 4 (destruct p as [p|p|]; try reflexivity).
Qed.

Lemma digit_cons_value (r : N) (d : Decimal.uint) :
  (r < 10)%N ->
  DecimalPos.Unsigned.of_lu (digit_cons r d) = (r + 10 * DecimalPos.Unsigned.of_lu d)%N.
Proof.
  intros Hr. destruct r as [|p]; [reflexivity|].
  do 4 (destruct p as [p|p|]; try reflexivity; try lia).
Qed.

Lemma low_digits_length (k : nat) (c : N) : Decimal.nb_digits (low_digits k c) = k.
Proof.
  revert c. induction k as [|k IH]; intros c; [reflexivity|].
  cbn [low_digits]. now rewrite digit_cons_length, IH.
Qed.

Lemma low_digits_value (k : nat) (c : N) :
  (c < 10 ^ N.of_nat k)%N -> DecimalPos.Unsigned.of_lu (low_digits k c) = c.
Proof.
  revert c. induction k as [|k IH]; intros c Hc.
  - cbn in *. lia.
  - assert (Hdiv : (c / 10 < 10 ^ N.of_nat k)%N).
    { apply N.Div0.div_lt_upper_bound. rewrite Nat2N.inj_succ, N.pow_succ_r' in Hc. lia. }
    pose proof (N.mod_upper_bound c 10 ltac:(lia)) as Hmod.
    pose proof (N.div_mod c 10 ltac:(lia)) as Hdm.
    cbn [low_digits]. rewrite (digit_cons_value _ _ Hmod), (IH _ Hdiv). lia.
Qed.

(** A coefficient below [10 ^ k] has at most [k] digits. *)
Lemma ndigits_bound (k : nat) (c : N) :
  (0 < k)%nat -> (c < 10 ^ N.of_nat k)%N -> Dec.ndigits c <= Z.of_nat k.
Proof.
  intros Hk Hc. unfold Dec.ndigits.
  set (d := Decimal.rev (low_digits k c)).
  assert (Hd : N.of_uint d = c).
  { unfold N.of_uint, d. rewrite DecimalPos.Unsigned.of_lu_rev. now apply low_digits_value. }
  assert (Hn : Decimal.nb_digits d = k)
    by (unfold d; now rewrite DecimalFacts.nb_digits_rev, low_digits_length).
  rewrite <- Hd, DecimalN.Unsigned.to_of.
  assert (Hnil : d <> Decimal.Nil).
  { intros E. rewrite E in Hn. cbn in Hn. lia. }
  pose proof (DecimalFacts.nb_digits_unorm d Hnil) as Hle.
  assert (Hlen : forall u, u <> Decimal.Nil ->
             String.length (NilZero.string_of_uint u) = Decimal.nb_digits u).
  { intros u Hu. unfold NilZero.string_of_uint.
    assert (forall v, String.length (NilEmpty.string_of_uint v) = Decimal.nb_digits v)
      as Hv by (induction v; cbn; congruence).
    destruct u; [contradiction|..]; apply Hv. }
  rewrite Hlen by apply DecimalFacts.unorm_nonnil. lia.
Qed.

Lemma numeral_present (s : string) : grouped_numeral s = true -> Detail.present s = true.
Proof.
  destruct s as [|c r]; [discriminate|]. cbn [grouped_numeral].
  rewrite andb_true_iff. intros [Hc _]. digit_head c Hc; reflexivity.
Qed.

(** Subtraction of whole amounts within the precision of the context is
    exact. *)
Lemma sub_whole (a b : N) :
  (a <= b)%N -> (b < 10 ^ 28)%N ->
  Dec.sub (Dec.DFin false b 0) (Dec.DFin false a 0) = Ok (Dec.DFin false (b - a) 0).
Proof.
  intros Hab Hb. cbn [Dec.sub]. change (Z.min 0 0) with 0.
  unfold Dec.scaled. rewrite Z.sub_diag, Z.pow_0_r, !Z.mul_1_r.
  set (m := Z.of_N b - Z.of_N a).
  assert (Hm : Z.abs_N m = (b - a)%N) by (unfold m; lia).
  assert (Hneg : (if m =? 0 then (if (b =? 0)%N && (a =? 0)%N then false && negb false else false)
                  else m <? 0) = false).
  { destruct (m =? 0) eqn:E; [now destruct (_ && _)|]. apply Z.ltb_ge. unfold m. lia. }
  rewrite Hneg, Hm. unfold Dec.fix_ctx.
  destruct (b - a =? 0)%N eqn:E0.
  { apply N.eqb_eq in E0. rewrite E0. reflexivity. }
  assert (Hlt : (b - a < 10 ^ N.of_nat 28)%N)
    by (apply N.le_lt_trans with b; [apply N.le_sub_l | exact Hb]).
  pose proof (ndigits_bound 28 (b - a) (Nat.lt_0_succ 27) Hlt) as Hd.
  assert (Hpos : 0 <= Dec.ndigits (b - a)) by (unfold Dec.ndigits; lia).
  replace (Dec.Etop <? Dec.ndigits (b - a) + 0 - Dec.prec) with false
    by (symmetry; apply Z.ltb_ge; unfold Dec.Etop, Dec.Emax, Dec.prec; lia).
  replace (0 <? Z.max (Dec.ndigits (b - a) + 0 - Dec.prec) Dec.Etiny) with false
    by (symmetry; apply Z.ltb_ge; unfold Dec.Etiny, Dec.Emin, Dec.prec; lia).
  reflexivity.
Qed.

Lemma ge_int_whole (c : N) : Dec.ge_int (Dec.DFin false c 0) 0 = Ok true.
Proof.
  cbn [Dec.ge_int Dec.ge Dec.of_Z]. f_equal. apply Z.leb_le.
  unfold Dec.scaled. cbn. lia.
Qed.

Lemma round_whole (c : N) : Dec.round (Dec.DFin false c 0) = Ok (Z.of_N c).
Proof. cbn. now rewrite Z.mul_1_r. Qed.

(** For amounts written as numerals the derivation is the one the
    specification describes. *)
Lemma land_value_derived_from_numerals (improvement market : string) :
  grouped_numeral improvement = true -> grouped_numeral market = true ->
  amount market < 2 ^ 53 ->
  Detail.finish_value_summary improvement "N/A" market
  = Detail.ValueSummary improvement
      (if amount improvement <=? amount market
       then ("$" ++ format_comma_f0 (amount market - amount improvement))%string
       else "N/A")
      market.
Proof.
  intros Hi Hm Hb. unfold Detail.finish_value_summary, Detail.derive_land_value.
  rewrite (numeral_present _ Hi), (numeral_present _ Hm).
  rewrite (to_num_grouped_numeral _ Hi), (to_num_grouped_numeral _ Hm).
  unfold amount in *.
  set (a := Str.digits_value (digits_of improvement)) in *.
  set (b := Str.digits_value (digits_of market)) in *.
  cbn [String.eqb Ascii.eqb Bool.eqb Dec.ge]. change (Z.min 0 0) with 0.
  unfold Dec.scaled. rewrite Z.sub_diag, Z.pow_0_r, !Z.mul_1_r.
  cbn [mbind result_bind].
  destruct (Z.of_N a <=? Z.of_N b) eqn:Hab; [|reflexivity].
  apply Z.leb_le in Hab.
  rewrite sub_whole by lia. cbn [mbind result_bind].
  rewrite ge_int_whole. cbn [mbind result_bind].
  rewrite round_whole. cbn [mbind result_bind].
  assert (Hf : float_of_int (Z.of_N (b - a)) = Ok (Z.of_N (b - a))).
  { unfold float_of_int. rewrite Z.abs_eq by lia.
    replace (Z.of_N (b - a) <? 2 ^ 53) with true by (symmetry; apply Z.ltb_lt; lia).
    replace (2 ^ 1024 <=? Z.of_N (b - a)) with false
      by (symmetry; apply Z.leb_gt;
          apply Z.lt_trans with (2 ^ 53); [lia | apply Z.pow_lt_mono_r; lia]).
    replace (Z.of_N (b - a) <? 0) with false by (symmetry; apply Z.ltb_ge; lia).
    reflexivity. }
  rewrite Hf. cbn [mbind result_bind try_except default].
  replace (Z.of_N b - Z.of_N a) with (Z.of_N (b - a)) by lia. reflexivity.
Qed.

Lemma txt_no_space (n : node) (s dflt : string) :
  Str.forallb no_space s = true -> Str.truthy s = true ->
  strings n = [s] -> Detail._txt (Some n) dflt = s.
Proof.
  intros Hs Ht Hn. unfold Detail._txt, get_text. rewrite Hn.
  cbn [List.map List.filter]. rewrite (strip_no_space s Hs), Ht.
  cbn [Str.join]. rewrite (clean_text_no_space s Hs), Ht. reflexivity.
Qed.

Lemma value_summary_page_texts (improvement market : string) :
  Str.forallb no_space improvement = true -> Str.truthy improvement = true ->
  Str.forallb no_space market = true -> Str.truthy market = true ->
  Detail.parse_value_summary (value_summary_page improvement market)
  = Detail.finish_value_summary improvement "N/A" market.
Proof.
  intros Hi Hit Hm Hmt. unfold Detail.parse_value_summary.
  change (select_one_nested_ids (value_summary_page improvement market)
            "tblValueSum" "ValueSummary1_lblImpVal")
    with (Some (Tag "span" [("id", "ValueSummary1_lblImpVal")] [Text improvement])).
  change (select_one_nested_ids (value_summary_page improvement market)
            "tblValueSum" "ValueSummary1_pnlValue_lblLandVal") with (@None node).
  change (select_one_nested_ids (value_summary_page improvement market)
            "tblValueSum" "ValueSummary1_lblLandVal") with (@None node).
  change (select_one_nested_ids (value_summary_page improvement market)
            "tblValueSum" "ValueSummary1_pnlValue_lblTotalVal")
    with (Some (Tag "span" [("id", "ValueSummary1_pnlValue_lblTotalVal")] [Text market])).
  cbn [Detail.or_else].
  rewrite (txt_no_space (Tag "span" [("id", "ValueSummary1_lblImpVal")] [Text improvement])
             improvement "N/A" Hi Hit eq_refl).
  rewrite (txt_no_space (Tag "span" [("id", "ValueSummary1_pnlValue_lblTotalVal")] [Text market])
             market "N/A" Hm Hmt eq_refl).
  reflexivity.
Qed.

Lemma numeral_no_space (s : string) :
  grouped_numeral s = true -> Str.forallb no_space s = true /\ Str.truthy s = true.
Proof.
  intros Hs. split.
  - eapply forallb_impl; [|exact (numeral_chars s Hs)].
    intros c Hc. now apply digit_or_comma_facts.
  - now destruct s.
Qed.

(** C7. The land value is meant to be derived from the market value and
    the improvement value when the page gives no land value. The amounts of
    a value summary are written with a dollar sign, which [to_num] does not
    strip, so for such amounts no derivation takes place and the land value
    stays unset: this holds for every pair of dollar amounts, and for every
    improvement text and every market text that starts with a dollar sign.
    For the same amounts written as bare numerals the land value is the
    difference when it is not negative, and stays unset otherwise. *)
Theorem C7_dollar_amounts_are_not_derived_from :
  Detail.parse_value_summary (value_summary_page "$120,000" "$300,000")
  = Detail.ValueSummary "$120,000" "N/A" "$300,000"
  /\ (forall improvement market,
        grouped_numeral improvement = true -> grouped_numeral market = true ->
        Detail.parse_value_summary
          (value_summary_page (String "$" improvement) (String "$" market))
        = Detail.ValueSummary (String "$" improvement) "N/A" (String "$" market))
  /\ (forall improvement market,
        grouped_numeral improvement = true -> grouped_numeral market = true ->
        amount market < 2 ^ 53 ->
        Detail.parse_value_summary (value_summary_page improvement market)
        = Detail.ValueSummary improvement
            (if amount improvement <=? amount market
             then ("$" ++ format_comma_f0 (amount market - amount improvement))%string
             else "N/A")
            market)
  /\ (forall r market,
        Detail.finish_value_summary (String "$" r) "N/A" market
        = Detail.ValueSummary (String "$" r) "N/A" market)
  /\ (forall improvement r,
        Detail.finish_value_summary improvement "N/A" (String "$" r)
        = Detail.ValueSummary improvement "N/A" (String "$" r)).
Proof.
  assert (Hdollar : forall r market,
             Detail.finish_value_summary (String "$" r) "N/A" market
             = Detail.ValueSummary (String "$" r) "N/A" market).
  { intros r market. unfold Detail.finish_value_summary, Detail.derive_land_value.
    rewrite to_num_dollar. cbn [String.eqb Ascii.eqb Bool.eqb].
    destruct (Detail.present (String "$" r)); reflexivity. }
  split; [vm_compute; reflexivity|].
  split.
  { intros improvement market Hi Hm.
    destruct (numeral_no_space _ Hi) as [Hi1 _], (numeral_no_space _ Hm) as [Hm1 _].
    rewrite value_summary_page_texts; [apply Hdollar | | reflexivity | | reflexivity].
    - change (no_space "$" && Str.forallb no_space improvement = true). now rewrite Hi1.
    - change (no_space "$" && Str.forallb no_space market = true). now rewrite Hm1. }
  split.
  { intros improvement market Hi Hm Hb.
    destruct (numeral_no_space _ Hi) as [Hi1 Hi2], (numeral_no_space _ Hm) as [Hm1 Hm2].
    rewrite value_summary_page_texts by assumption.
    now apply land_value_derived_from_numerals. }
  split; [exact Hdollar|].
  intros improvement r. unfold Detail.finish_value_summary, Detail.derive_land_value.
  rewrite to_num_dollar. cbn [String.eqb Ascii.eqb Bool.eqb].
  destruct (if Detail.present improvement then _ else _);
    destruct (Detail.present (String "$" r)); reflexivity.
Qed.

(** ** Rows of the improvement grids (C8) *)

Lemma additional_row_key (cols : Detail.columns) (tr : node) (e : Detail.row_dict) :
  Detail.additional_row cols tr = Ok (Some e) ->
  row_is_numbered cols tr = true
  /\ numbered_by cols tr e /\ e !! "number" = None.
Proof.
  unfold Detail.additional_row, row_is_numbered, numbered_by.
  destruct (Detail.td_texts tr) as [|c cs]; [discriminate|].
  destruct (Detail.any_in _ _); [discriminate|].
  destruct (Detail.imp_number _ _) as [number|]; [|discriminate].
  destruct (Dec.to_int number) as [n|] eqn:Hn; cbn [mbind result_bind]; [|discriminate].
  unfold py_str. destruct (_ <? _); cbn [mbind result_bind]; [discriminate|].
  intros [= <-]. split; [reflexivity|]. split; [|reflexivity].
  exists number, n. split; [reflexivity|]. split; [exact Hn | reflexivity].
Qed.


(** The rows that are skipped are those that [row_is_numbered] leaves
    out. *)
Lemma additional_row_none (cols : Detail.columns) (tr : node) :
  Detail.additional_row cols tr = Ok None -> row_is_numbered cols tr = false.
Proof.
  unfold Detail.additional_row, row_is_numbered.
  destruct (Detail.td_texts tr) as [|c cs]; [reflexivity|].
  destruct (Detail.any_in _ _); [reflexivity|].
  destruct (Detail.imp_number _ _) as [number|]; [|reflexivity].
  destruct (Dec.to_int number) as [n|]; cbn [mbind result_bind]; [|discriminate].
  unfold py_str. destruct (_ <? _); cbn [mbind result_bind]; discriminate.
Qed.

Lemma numbered_rows_sublist (cols : Detail.columns) (trs : list node) :
  List.filter (row_is_numbered cols) trs `sublist_of` trs.
Proof.
  induction trs as [|tr trs IH]; cbn [List.filter]; [constructor|].
  destruct (row_is_numbered cols tr); [apply sublist_skip | apply sublist_cons]; exact IH.
Qed.

Lemma additional_rows_keys (cols : Detail.columns) (trs : list node)
    (rows : list Detail.row_dict) :
  Detail.additional_rows cols trs = Ok rows ->
  Forall2 (fun tr e => numbered_by cols tr e /\ e !! "number" = None)
    (List.filter (row_is_numbered cols) trs) rows.
Proof.
  revert rows. induction trs as [|tr trs IH]; intros rows;
    cbn [Detail.additional_rows List.filter].
  - intros [= <-]. constructor.
  - destruct (Detail.additional_row cols tr) as [o|] eqn:Hrow; cbn [mbind result_bind];
      [|discriminate].
    destruct (Detail.additional_rows cols trs) as [rest|]; cbn [mbind result_bind];
      [|discriminate].
    intros [= <-]. specialize (IH rest eq_refl).
    destruct o as [e|].
    + destruct (additional_row_key cols tr e Hrow) as (-> & Hn & Hnone).
      constructor; [split; assumption | exact IH].
    + rewrite (additional_row_none cols tr Hrow). exact IH.
Qed.

Lemma parse_additional_improvements_keys (tbl : node) (rows : list Detail.row_dict) :
  Detail.parse_additional_improvements (Some tbl) = Ok rows ->
  exists kept,
    kept `sublist_of` grid_data_rows tbl
    /\ Forall2 (fun tr e => numbered_by (grid_columns tbl) tr e /\ e !! "number" = None)
         kept rows
    /\ (rows <> [] ->
        kept = List.filter (row_is_numbered (grid_columns tbl)) (grid_data_rows tbl)).
Proof.
  assert (Hnone : Ok [] = Ok rows ->
          exists kept,
            kept `sublist_of` grid_data_rows tbl
            /\ Forall2 (fun tr e => numbered_by (grid_columns tbl) tr e
                                    /\ e !! "number" = None) kept rows
            /\ (rows <> [] ->
                kept = List.filter (row_is_numbered (grid_columns tbl))
                         (grid_data_rows tbl))).
  { intros [= <-]. exists []. split; [apply sublist_nil_l|].
    split; [constructor|]. intros H. now contradiction H. }
  unfold Detail.parse_additional_improvements.
  destruct (Detail._is_nav_like_table tbl); [exact Hnone|].
  unfold grid_data_rows, grid_columns in *.
  destruct (find_all (named ["tr"]) tbl) as [|tr0 [|tr1 trs]]; try exact Hnone.
  destruct (Detail.any_in _ _); [exact Hnone|].
  clear Hnone. intros H. cbn [List.tl].
  eexists. split; [apply numbered_rows_sublist|].
  split; [apply additional_rows_keys, H|]. reflexivity.
Qed.

(** The loop of the entry point keeps every such row, with its number. *)
Lemma secondary_row_key (r : Detail.row_dict) (v : string) :
  r !! "number" = None -> r !! "imp_num" = Some (Detail.VStr v) ->
  exists r', Detail.secondary_row r = Some r' /\ r' !! "imp_num" = Some (Detail.VStr v).
Proof.
  intros Hnone Hn. unfold Detail.secondary_row, Detail.dget.
  rewrite Hnone, Hn. cbn [default Detail.py_or Detail.py_truthy Detail.is_none].
  eexists. split; reflexivity.
Qed.

Lemma secondary_rows_keys (cols : Detail.columns) (kept : list node)
    (rows : list Detail.row_dict) :
  Forall2 (fun tr e => numbered_by cols tr e /\ e !! "number" = None) kept rows ->
  Forall2 (numbered_by cols) kept (Detail.secondary_rows rows)
  /\ List.length (Detail.secondary_rows rows) = List.length rows.
Proof.
  unfold Detail.secondary_rows.
  induction 1 as [|tr r kept rows [Hr Hnone] _ [IH1 IH2]];
    [split; [constructor | reflexivity]|].
  destruct Hr as (d & n & Hd & Hn & Hkey).
  destruct (secondary_row_key r _ Hnone Hkey) as (r' & Heq & Hr').
  cbn [omap list_omap]. rewrite Heq. split.
  - constructor; [|exact IH1]. exists d, n. split; [exact Hd|]. split; [exact Hn | exact Hr'].
  - cbn [List.length]. now rewrite IH2.
Qed.

Lemma numbered_rows_have_numbers (cols : Detail.columns) (kept : list node)
    (rows : list Detail.row_dict) :
  Forall2 (numbered_by cols) kept rows -> Forall has_imp_number rows.
Proof.
  induction 1 as [|tr r kept rows (d & n & _ & _ & Hkey) _ IH]; constructor; [|exact IH].
  exists n. exact Hkey.
Qed.




(** ** The main-improvement scenario (C9) *)

(** C9, counterexample. The key and value extractor reads a row of more
    than two cells as successive label and value pairs, so the header row
    of the scenario pairs the headers with each other and the data row
    pairs the values with each other: no year is found, the desirability
    is the text of the fourth header, and the total living area is
    missing. *)
Lemma C9_header_row_table_is_misread :
  main_improvement_table header_row_page = Some header_row_table
  /\ Detail.parse_keyvalue_table header_row_table
     = list_to_map [("year built", "Effective Year Built");
                    ("desirability", "Total Living Area");
                    ("1998", "2001"); ("good", "2,115 sqft")]
  /\ Detail.parse_main_improvement header_row_page !! "year_built" = Some Detail.VNone
  /\ Detail.parse_main_improvement header_row_page !! "effective_year_built"
     = Some Detail.VNone
  /\ Detail.parse_main_improvement header_row_page !! "desirability"
     = Some (Detail.VStr "Total Living Area")
  /\ Detail.parse_main_improvement header_row_page !! "total_living_area"
     = Some Detail.VNone.
Proof. repeat split; vm_compute; reflexivity. Qed.

Lemma get_any_first (kv : gmap string string) (k v : string) (ks : list string) :
  kv !! k = Some v -> Str.truthy v = true -> Detail.get_any kv (k :: ks) = v.
Proof. intros H Ht. cbn [Detail.get_any]. now rewrite H, Ht. Qed.

(** C9, as amended. Given a page whose main-improvement section is a table
    that reads as label and value pairs, among them Year Built 1998,
    Effective Year Built 2001, Desirability GOOD and Total Living Area
    2,115 sqft (one pair per row, or successive pairs within a row), the
    parsed primary improvement record has year_built = 1998,
    effective_year_built = 2001, desirability = GOOD and
    total_living_area = 2115. *)
Theorem C9_label_value_main_improvement (doc tbl : node) :
  main_improvement_table doc = Some tbl ->
  Detail.parse_keyvalue_table tbl !! "year built" = Some "1998" ->
  Detail.parse_keyvalue_table tbl !! "effective year built" = Some "2001" ->
  Detail.parse_keyvalue_table tbl !! "desirability" = Some "GOOD" ->
  Detail.parse_keyvalue_table tbl !! "total living area" = Some "2,115 sqft" ->
  Detail.parse_main_improvement doc !! "year_built"
  = Some (Detail.VDec (Dec.of_Z 1998))
  /\ Detail.parse_main_improvement doc !! "effective_year_built"
     = Some (Detail.VDec (Dec.of_Z 2001))
  /\ Detail.parse_main_improvement doc !! "desirability" = Some (Detail.VStr "GOOD")
  /\ Detail.parse_main_improvement doc !! "total_living_area"
     = Some (Detail.VDec (Dec.of_Z 2115)).
Proof.
  unfold main_improvement_table, Detail.parse_main_improvement.
  intros -> Hy He Hd Ht.
  set (kv := Detail.parse_keyvalue_table tbl) in *.
  unfold Detail.main_improvement_fields.
  destruct (Detail._parse_baths_full_half kv) as [bf bh].
  rewrite (get_any_first kv "year built" "1998" _ Hy eq_refl).
  rewrite (get_any_first kv "effective year built" "2001" _ He eq_refl).
  rewrite (get_any_first kv "total living area" "2,115 sqft" _ Ht eq_refl).
  unfold Detail.get_or_empty. rewrite Hd.
  cbn [List.map existsb].
  change (Detail.blank_to_none (Detail.of_num (Normalize.to_num (Some "1998"))))
    with (Detail.VDec (Dec.of_Z 1998)).
  cbn [Detail.is_none negb orb].
  rewrite orb_true_r. cbn [negb].
  repeat split;
    repeat (rewrite lookup_insert_ne by discriminate);
    rewrite lookup_insert_eq; reflexivity.
Qed.

Lemma C9_label_value_main_improvement_witness :
  (main_improvement_table label_value_page = Some label_value_table
   /\ Detail.parse_keyvalue_table label_value_table
      = list_to_map [("year built", "1998"); ("effective year built", "2001");
                     ("desirability", "GOOD"); ("total living area", "2,115 sqft")])
  /\ (Detail.parse_main_improvement label_value_page !! "year_built"
      = Some (Detail.VDec (Dec.of_Z 1998))
      /\ Detail.parse_main_improvement label_value_page !! "effective_year_built"
         = Some (Detail.VDec (Dec.of_Z 2001))
      /\ Detail.parse_main_improvement label_value_page !! "desirability"
         = Some (Detail.VStr "GOOD")
      /\ Detail.parse_main_improvement label_value_page !! "total_living_area"
         = Some (Detail.VDec (Dec.of_Z 2115))).
Proof.
  split; [split; vm_compute; reflexivity|].
  apply (C9_label_value_main_improvement label_value_page label_value_table);
    vm_compute; reflexivity.
Defined.

(** The layout with two pairs per row reads as the same pairs. *)
Example paired_table_main_improvement :
  let page := soup [section_heading "lblMainImp" "Main Improvement"; paired_table] in
  main_improvement_table page = Some paired_table
  /\ Detail.parse_keyvalue_table paired_table
     = Detail.parse_keyvalue_table label_value_table
  /\ Detail.parse_main_improvement page = Detail.parse_main_improvement label_value_page.
Proof. repeat split; vm_compute; reflexivity. Qed.

(** ** The history block of the entry point (C10) *)

(** The three history parsers the entry point calls are bound nowhere in
    the module. *)
Lemma history_parsers_unbound :
  Str.mem "parse_history_market_value" Detail.module_globals = false
  /\ Str.mem "parse_history_taxable_value" Detail.module_globals = false
  /\ Str.mem "parse_history_exemptions" Detail.module_globals = false.
Proof. repeat split; reflexivity. Qed.

Section EntryPoint.

Variable html_parser : string -> node.
Variables location_t owner_t legal_t arb_t land_t owner_history_t history_rows_t
          exemption_details_t exemptions_table_t : Type.
Variable parse_property_location : node -> result location_t.
Variable parse_owner : node -> result owner_t.
Variable parse_legal_description : node -> result legal_t.
Variable parse_arb_hearing : node -> result arb_t.
Variable parse_land_detail : node -> result land_t.
Variable owner_history_of_table : option node -> result owner_history_t.
Variable parse_exemption_details : option string -> result exemption_details_t.
Variable _parse_exempt_details_history_all : option string -> result exemptions_table_t.
Variable history_parser_named : string -> string -> result (list history_rows_t).

Local Abbreviation parse_history_block :=
  (Detail.parse_history_block html_parser owner_history_t history_rows_t
     owner_history_of_table history_parser_named).

Local Abbreviation parse_history_owner_table :=
  (Detail.parse_history_owner_table html_parser owner_history_t owner_history_of_table).

Local Abbreviation parse_detail_html :=
  (Detail.parse_detail_html html_parser location_t owner_t legal_t arb_t land_t
     owner_history_t history_rows_t exemption_details_t exemptions_table_t
     parse_property_location parse_owner parse_legal_description parse_arb_hearing
     parse_land_detail owner_history_of_table parse_exemption_details
     _parse_exempt_details_history_all history_parser_named).

Local Abbreviation sections_parse :=
  (account_sections_parse location_t owner_t legal_t arb_t land_t
     parse_property_location parse_owner parse_legal_description parse_arb_hearing
     parse_land_detail).

(** With a history page the block always raises: whatever the owner table
    parser does, the next call is of an unbound name. *)
Lemma history_block_raises (h : string) :
  Str.truthy h = true ->
  exists e, parse_history_block (Some h) = Raise e
            /\ (is_ok (parse_history_owner_table h) = true ->
                e = NameError "parse_history_market_value").
Proof.
  intros Ht. unfold Detail.parse_history_block. rewrite Ht.
  destruct (parse_history_owner_table h) as [oh|e]; cbn [mbind result_bind].
  - exists (NameError "parse_history_market_value"). split; reflexivity.
  - exists e. split; [reflexivity | discriminate].
Qed.

(** Without one the block is the initial, empty one. *)
Lemma history_block_default (history_html : option string) :
  Detail.opt_truthy history_html = false ->
  parse_history_block history_html
  = Ok (Detail.HistoryBlock owner_history_t history_rows_t "N/A" None [] [] []).
Proof.
  destruct history_html as [h|]; cbn; [|reflexivity].
  intros ->. reflexivity.
Qed.

Lemma parse_detail_html_with_history
    (account_html history_html ed edh html : option string) :
  Detail.opt_truthy history_html = true ->
  (forall d, parse_detail_html account_html history_html ed edh html <> Ok d)
  /\ (Detail.opt_truthy (Detail.effective_account_html account_html html) = true ->
      sections_parse
        (html_parser (default "" (Detail.effective_account_html account_html html))) ->
      is_ok (parse_history_owner_table (default "" history_html)) = true ->
      parse_detail_html account_html history_html ed edh html
      = Raise (NameError "parse_history_market_value")).
Proof.
  intros Hh. destruct history_html as [h|]; [cbn in Hh | discriminate].
  destruct (history_block_raises h Hh) as (e & Hblock & He).
  unfold Detail.parse_detail_html.
  set (doc := html_parser _).
  destruct (Detail.opt_truthy (Detail.effective_account_html account_html html));
    cbn [negb].
  2:{ split; [discriminate|]. discriminate. }
  destruct (Detail.parse_estimated_taxes doc) as [[est total] status].
  unfold account_sections_parse.
  destruct (parse_property_location doc); cbn [mbind result_bind is_ok];
    [|split; [discriminate | intros _ (? & _); discriminate]].
  destruct (parse_owner doc); cbn [mbind result_bind is_ok];
    [|split; [discriminate | intros _ (_ & ? & _); discriminate]].
  destruct (parse_legal_description doc); cbn [mbind result_bind is_ok];
    [|split; [discriminate | intros _ (_ & _ & ? & _); discriminate]].
  destruct (parse_arb_hearing doc); cbn [mbind result_bind is_ok];
    [|split; [discriminate | intros _ (_ & _ & _ & ? & _); discriminate]].
  destruct (Detail.additional_improvements_of doc); cbn [mbind result_bind is_ok];
    [|split; [discriminate | intros _ (_ & _ & _ & _ & ? & _); discriminate]].
  destruct (parse_land_detail doc); cbn [mbind result_bind is_ok];
    [|split; [discriminate | intros _ (_ & _ & _ & _ & _ & ?); discriminate]].
  rewrite Hblock. cbn [mbind result_bind].
  split; [discriminate|]. intros _ _ Hoh. now rewrite (He Hoh).
Qed.

(** Every row of [secondary_improvements] in a record the entry point
    returns carries its improvement number. *)
Lemma parse_detail_html_secondary_rows
    (account_html history_html ed edh html : option string) d :
  parse_detail_html account_html history_html ed edh html = Ok d ->
  Forall has_imp_number (Detail.secondary_improvements _ _ _ _ _ _ _ _ _ d).
Proof.
  unfold Detail.parse_detail_html.
  set (doc := html_parser _).
  destruct (negb _); [discriminate|].
  destruct (Detail.parse_estimated_taxes doc) as [[est total] status].
  destruct (parse_property_location doc); cbn [mbind result_bind]; [|discriminate].
  destruct (parse_owner doc); cbn [mbind result_bind]; [|discriminate].
  destruct (parse_legal_description doc); cbn [mbind result_bind]; [|discriminate].
  destruct (parse_arb_hearing doc); cbn [mbind result_bind]; [|discriminate].
  destruct (Detail.additional_improvements_of doc) as [rows|] eqn:Hrows;
    cbn [mbind result_bind]; [|discriminate].
  destruct (parse_land_detail doc); cbn [mbind result_bind]; [|discriminate].
  destruct (parse_history_block history_html); cbn [mbind result_bind]; [|discriminate].
  destruct (parse_exemption_details ed); cbn [mbind result_bind]; [|discriminate].
  destruct (_parse_exempt_details_history_all edh); cbn [mbind result_bind]; [|discriminate].
  intros [= <-]. cbn [Detail.secondary_improvements].
  unfold Detail.additional_improvements_of in Hrows.
  destruct (Detail._resolve_additional_improvements_table doc) as [tbl|].
  - apply parse_additional_improvements_keys in Hrows.
    destruct Hrows as (kept & _ & Hkeys & _).
    eapply numbered_rows_have_numbers, secondary_rows_keys, Hkeys.
  - injection Hrows as <-. constructor.
Qed.

End EntryPoint.

(** C10, counterexample. A call with a history page does not always reach
    the unbound names: without an account page the guard at the top raises
    [ValueError], and a history page whose owner anchor is followed by no
    table makes the owner table locator raise [AttributeError] first. *)
Lemma C10_other_exceptions_come_first :
  sample_parse_detail_html None (Some "history") None None None = Raise ValueError
  /\ sample_parse_detail_html (Some "") (Some "history") None None None = Raise ValueError
  /\ sample_parse_detail_html (Some "account") (Some "history without table") None None None
     = Raise AttributeError
  /\ sample_parse_detail_html (Some "account") (Some "history") None None None
     = Raise (NameError "parse_history_market_value").
Proof. repeat split; vm_compute; reflexivity. Qed.

(** C10, as amended. For every call of [parse_detail_html] with a
    non-empty [history_html]: the call never returns a record; and when an
    account page is given ([account_html] or [html] non-empty), its section
    parsers return and the owner table of the history page is parsed
    without an exception, execution reaches the call of
    [parse_history_market_value], which is bound nowhere in the module (no
    more than [parse_history_taxable_value] and [parse_history_exemptions],
    which are therefore never reached), and the call raises [NameError].
    The history block is thus produced only when [history_html] is [None]
    or empty, and is then the initial empty block. *)
Theorem C10_history_page_never_parsed
    (html_parser : string -> node)
    (location_t owner_t legal_t arb_t land_t owner_history_t history_rows_t
     exemption_details_t exemptions_table_t : Type)
    (parse_property_location : node -> result location_t)
    (parse_owner : node -> result owner_t)
    (parse_legal_description : node -> result legal_t)
    (parse_arb_hearing : node -> result arb_t)
    (parse_land_detail : node -> result land_t)
    (owner_history_of_table : option node -> result owner_history_t)
    (parse_exemption_details : option string -> result exemption_details_t)
    (_parse_exempt_details_history_all : option string -> result exemptions_table_t)
    (history_parser_named : string -> string -> result (list history_rows_t))
    (account_html history_html exemption_details_html
     exemption_details_history_html html : option string) :
  Detail.opt_truthy history_html = true ->
  (forall d,
      Detail.parse_detail_html html_parser location_t owner_t legal_t arb_t land_t
        owner_history_t history_rows_t exemption_details_t exemptions_table_t
        parse_property_location parse_owner parse_legal_description parse_arb_hearing
        parse_land_detail owner_history_of_table parse_exemption_details
        _parse_exempt_details_history_all history_parser_named
        account_html history_html exemption_details_html
        exemption_details_history_html html <> Ok d)
  /\ (Detail.opt_truthy (Detail.effective_account_html account_html html) = true ->
      account_sections_parse location_t owner_t legal_t arb_t land_t
        parse_property_location parse_owner parse_legal_description parse_arb_hearing
        parse_land_detail
        (html_parser (default "" (Detail.effective_account_html account_html html))) ->
      is_ok (Detail.parse_history_owner_table html_parser owner_history_t
               owner_history_of_table (default "" history_html)) = true ->
      Detail.parse_detail_html html_parser location_t owner_t legal_t arb_t land_t
        owner_history_t history_rows_t exemption_details_t exemptions_table_t
        parse_property_location parse_owner parse_legal_description parse_arb_hearing
        parse_land_detail owner_history_of_table parse_exemption_details
        _parse_exempt_details_history_all history_parser_named
        account_html history_html exemption_details_html
        exemption_details_history_html html
      = Raise (NameError "parse_history_market_value"))
  /\ Str.mem "parse_history_market_value" Detail.module_globals = false
  /\ Str.mem "parse_history_taxable_value" Detail.module_globals = false
  /\ Str.mem "parse_history_exemptions" Detail.module_globals = false
  /\ (forall hh, Detail.opt_truthy hh = false ->
        Detail.parse_history_block html_parser owner_history_t history_rows_t
          owner_history_of_table history_parser_named hh
        = Ok (Detail.HistoryBlock owner_history_t history_rows_t "N/A" None [] [] [])).
Proof.
  intros Hh.
  destruct (parse_detail_html_with_history html_parser location_t owner_t legal_t arb_t
              land_t owner_history_t history_rows_t exemption_details_t exemptions_table_t
              parse_property_location parse_owner parse_legal_description
              parse_arb_hearing parse_land_detail owner_history_of_table
              parse_exemption_details _parse_exempt_details_history_all
              history_parser_named account_html history_html exemption_details_html
              exemption_details_history_html html Hh) as [H1 H2].
  split; [exact H1|]. split; [exact H2|].
  destruct history_parsers_unbound as (U1 & U2 & U3).
  split; [exact U1|]. split; [exact U2|]. split; [exact U3|].
  apply history_block_default.
Qed.

Lemma C10_history_page_never_parsed_witness :
  Detail.opt_truthy (Some "history") = true
  /\ sample_parse_detail_html (Some "account") (Some "history") None None None
     = Raise (NameError "parse_history_market_value")
  /\ (forall d, sample_parse_detail_html (Some "account") (Some "history") None None None
                <> Ok d).
Proof.
  split; [reflexivity|].
  destruct (C10_history_page_never_parsed sample_parser unit unit unit unit unit unit unit
              unit unit returns_unit returns_unit returns_unit returns_unit returns_unit
              returns_unit returns_unit returns_unit no_rows
              (Some "account") (Some "history") None None None eq_refl)
    as (Hnever & Hname & _).
  split; [|exact Hnever].
  apply Hname.
  - reflexivity.
  - repeat split; vm_compute; reflexivity.
  - vm_compute. reflexivity.
Defined.

(** ** The jurisdiction maps (C2) *)

Section SynthesizeMissing.

Import Detail.

Lemma synthesize_keeps (keys : list string) (b : gmap string tax_entry) k v :
  b !! k = Some v -> synthesize keys b !! k = Some v.
Proof.
  revert b. induction keys as [|k0 keys IH]; intros b H; [exact H|].
  cbn [synthesize fold_left]. apply IH.
  destruct (b !! k0) eqn:E; [exact H|].
  destruct (decide (k0 = k)) as [->|Hne]; [congruence|].
  now rewrite lookup_insert_ne.
Qed.

Lemma synthesize_adds (keys : list string) (b : gmap string tax_entry) k :
  In k keys -> b !! k = None -> synthesize keys b !! k = Some na_tax_entry.
Proof.
  revert b. induction keys as [|k0 keys IH]; intros b Hin H; [contradiction|].
  cbn [synthesize fold_left].
  destruct (decide (k0 = k)) as [->|Hne].
  - rewrite H. apply synthesize_keeps, lookup_insert_eq.
  - destruct Hin as [?|Hin]; [contradiction|]. apply IH; [exact Hin|].
    destruct (b !! k0); [exact H|]. now rewrite lookup_insert_ne.
Qed.

Lemma synthesize_other (keys : list string) (b : gmap string tax_entry) k :
  ~ In k keys -> synthesize keys b !! k = b !! k.
Proof.
  revert b. induction keys as [|k0 keys IH]; intros b Hin; [reflexivity|].
  cbn [synthesize fold_left]. rewrite IH by (intros ?; apply Hin; now right).
  destruct (b !! k0); [reflexivity|].
  rewrite lookup_insert_ne; [reflexivity|]. intros ->. apply Hin. now left.
Qed.

Lemma synthesize_missing_present (b : gmap string tax_entry) (k : string) :
  In k canonical_jurisdictions -> is_Some (synthesize_missing b !! k).
Proof.
  intros Hin. change (synthesize_missing b) with (synthesize canonical_jurisdictions b).
  destruct (b !! k) as [v|] eqn:E.
  - exists v. now apply synthesize_keeps.
  - exists na_tax_entry. now apply synthesize_adds.
Qed.

(** The buckets filled from the column headers have the keys
    [bucket_for col] only. *)
Lemma fill_buckets_other (tj rate tv et tc : list string) (i : nat) (cols : list string)
    (b : gmap string tax_entry) (k : string) :
  ~ In k (List.map bucket_for cols) ->
  fill_buckets tj rate tv et tc i cols b !! k = b !! k.
Proof.
  revert i b. induction cols as [|col cols IH]; intros i b Hin; [reflexivity|].
  cbn [fill_buckets]. rewrite IH by (intros ?; apply Hin; now right).
  apply lookup_insert_ne. intros E. apply Hin. now left.
Qed.

(** The keys of the exemptions map are the keys made of the column
    headers. *)
Lemma fill_exemptions_keys (row1 row2 : list string) (row3 : option (list string))
    (i : nat) (cols : list string) (out : gmap string exemption_entry) (k : string) :
  is_Some (fill_exemptions row1 row2 row3 i cols out !! k)
  <-> is_Some (out !! k) \/ In k (List.map exemption_key cols).
Proof.
  revert i out. induction cols as [|col cols IH]; intros i out; cbn [fill_exemptions List.map In].
  - tauto.
  - rewrite IH. destruct (decide (exemption_key col = k)) as [->|Hne].
    + rewrite lookup_insert_eq. split; [tauto|]. intros _. left. eauto.
    + rewrite lookup_insert_ne by assumption. tauto.
Qed.

End SynthesizeMissing.

Example estimated_taxes_of_page :
  estimated_taxes_map estimated_taxes_page
  = list_to_map
      [("city", Detail.TaxEntry "DALLAS" "$0.7357" "$200,000" "$1,471.40" "N/A");
       ("school", Detail.TaxEntry "DALLAS ISD" "$1.013835" "$150,000" "$1,520.75" "N/A");
       ("county", Detail.TaxEntry "DALLAS COUNTY" "$0.2155" "$200,000" "$431.00" "N/A");
       ("college", Detail.na_tax_entry); ("hospital", Detail.na_tax_entry);
       ("special_district", Detail.na_tax_entry)]
  /\ (Detail.parse_estimated_taxes estimated_taxes_page).1.2 = "$3,423.15".
Proof. split; vm_compute; reflexivity. Qed.

(** C2, counterexample. A page without an estimated-taxes table gets an
    empty map, in which no canonical key can be read; and the exemptions
    map is keyed by the column headers of the page, so with the headers
    the site uses it has no [county] key. *)
Lemma C2_maps_without_canonical_keys :
  estimated_taxes_map (soup []) = ∅
  /\ estimated_taxes_map (soup []) !! "city" = None
  /\ Detail.parse_exemptions_sections (soup []) = ∅
  /\ Detail.parse_exemptions_sections exemptions_page !! "county" = None
  /\ Detail.parse_exemptions_sections exemptions_page !! "county_and_school_equalization"
     = Some (Detail.ExemptionEntry "DALLAS COUNTY" "$50,000" "$200,000")
  /\ Detail.exemption_columns exemptions_page
     = Some ["City"; "School"; "County and School Equalization"; "College";
             "Hospital"; "Special District"].
Proof. repeat split; vm_compute; reflexivity. Qed.

(** C2, as amended. For every document: when the estimated-taxes table is
    located and has at least three rows with cells, the estimated-taxes map
    of the record holds all six canonical jurisdiction keys, and a
    canonical key that no column header maps to holds the entry made of
    N/A texts; otherwise that map is empty. The exemptions map holds
    exactly the keys made of the column headers of the exemptions table
    (lower case, blanks replaced by underscores), and is empty when no
    table with three rows is located. *)
Theorem C2_jurisdiction_maps (doc : node) :
  (Detail.estimated_taxes_rows doc = None -> estimated_taxes_map doc = ∅)
  /\ (forall r0 data,
        Detail.estimated_taxes_rows doc = Some (r0, data) ->
        (forall k, In k Detail.canonical_jurisdictions ->
                   is_Some (estimated_taxes_map doc !! k))
        /\ (forall k, In k Detail.canonical_jurisdictions ->
              ~ In k (List.map Detail.bucket_for
                        (List.tl (List.map Detail.cell_text (find_all Detail.cells r0)))) ->
              estimated_taxes_map doc !! k = Some Detail.na_tax_entry))
  /\ (forall k,
        is_Some (Detail.parse_exemptions_sections doc !! k)
        <-> exists cols, Detail.exemption_columns doc = Some cols
                         /\ In k (List.map Detail.exemption_key cols)).
Proof.
  unfold estimated_taxes_map, Detail.parse_estimated_taxes.
  split; [intros ->; reflexivity|]. split.
  - intros r0 data ->. destruct (fold_left _ data _) as [named_rows total].
    cbn [fst]. split.
    + intros k Hk. now apply synthesize_missing_present.
    + intros k Hk Hcol.
      change (Detail.synthesize_missing ?b) with (synthesize Detail.canonical_jurisdictions b).
      apply synthesize_adds; [exact Hk|].
      rewrite fill_buckets_other by exact Hcol. apply lookup_empty.
  - intros k. unfold Detail.parse_exemptions_sections, Detail.exemption_columns.
    destruct (Detail.exemptions_table_of doc) as [ex_tbl|].
    2:{ rewrite lookup_empty.
        split; [intros [? ?]; discriminate | intros (? & ? & _); discriminate]. }
    destruct (find_all _ ex_tbl) as [|r0 [|r1 [|r2 rest]]];
      try (rewrite lookup_empty;
           split; [intros [? ?]; discriminate | intros (? & ? & _); discriminate]).
    rewrite fill_exemptions_keys, lookup_empty. split.
    + intros [[? ?]|H]; [discriminate|]. eauto.
    + intros (cols & [= <-] & H). now right.
Qed.

(** * Further properties

    Properties of the functions around those of the statements above: how
    they behave at the edges, what they keep, and how they compose. *)

(** ** Tidying of text *)

Lemma rstrip_keep (c : ascii) (r : string) :
  Str.is_space c = false -> Str.rstrip (String c r) = String c (Str.rstrip r).
Proof. intros H. simpl. rewrite H. now destruct (Str.rstrip r). Qed.

Lemma rstrip_blank (c : ascii) (r : string) :
  Str.is_space c = true ->
  Str.rstrip (String c r)
  = match Str.rstrip r with EmptyString => EmptyString | r' => String c r' end.
Proof. intros H. simpl. rewrite H. reflexivity. Qed.

Lemma rstrip_all_space (s : string) :
  Str.forallb Str.is_space (Str.rstrip s) = true -> Str.rstrip s = "".
Proof.
  induction s as [|c r IH]; [easy|].
  destruct (Str.is_space c) eqn:E.
  - rewrite (rstrip_blank c r E). destruct (Str.rstrip r) as [|a r'] eqn:Er; [easy|].
    intros H. simpl in H. rewrite E in H. simpl in H.
    specialize (IH H). discriminate IH.
  - rewrite (rstrip_keep c r E). simpl. now rewrite E.
Qed.

Lemma collapse_empty (b : bool) (s : string) :
  Str.collapse_ws_from b s = "" -> Str.forallb Str.is_space s = true.
Proof.
  revert b. induction s as [|c r IH]; intros b; simpl; [easy|].
  destruct (Str.is_space c); [|discriminate].
  destruct b; [apply IH | discriminate].
Qed.

Lemma lstrip_collapse (b : bool) (s : string) :
  Str.lstrip (Str.collapse_ws_from b s) = Str.collapse_ws_from true s.
Proof.
  revert b. induction s as [|c r IH]; intros b; [easy|].
  simpl. destruct (Str.is_space c) eqn:E.
  - destruct b; [apply IH|]. simpl. apply IH.
  - simpl. now rewrite E.
Qed.

Lemma collapse_lstrip (b : bool) (s : string) :
  Str.collapse_ws_from b (Str.lstrip s) = Str.collapse_ws_from true s.
Proof.
  induction s as [|c r IH]; [now destruct b|].
  simpl. destruct (Str.is_space c) eqn:E; [exact IH|].
  simpl. now rewrite E.
Qed.

Lemma collapse_blank (b : bool) (c : ascii) (r : string) :
  Str.is_space c = true ->
  Str.collapse_ws_from b (String c r)
  = if b then Str.collapse_ws_from true r else String " " (Str.collapse_ws_from true r).
Proof. intros H. simpl. now rewrite H. Qed.

Lemma collapse_keep (b : bool) (c : ascii) (r : string) :
  Str.is_space c = false ->
  Str.collapse_ws_from b (String c r) = String c (Str.collapse_ws_from false r).
Proof. intros H. simpl. now rewrite H. Qed.

Lemma rstrip_collapse (b : bool) (s : string) :
  Str.rstrip (Str.collapse_ws_from b s) = Str.collapse_ws_from b (Str.rstrip s).
Proof.
  revert b. induction s as [|c r IH]; intros b; [easy|].
  destruct (Str.is_space c) eqn:E.
  - rewrite (rstrip_blank c r E), (collapse_blank b c r E).
    destruct (Str.rstrip r) as [|a r'] eqn:Er.
    + destruct b; [now rewrite IH|].
      rewrite (rstrip_blank " " _ eq_refl), IH. reflexivity.
    + assert (Hne : Str.collapse_ws_from true (String a r') <> "").
      { intros H. apply collapse_empty in H. rewrite <- Er in H.
        apply rstrip_all_space in H. rewrite Er in H. discriminate H. }
      rewrite (collapse_blank b c _ E).
      destruct b; [apply IH|].
      rewrite (rstrip_blank " " _ eq_refl), IH.
      destruct (Str.collapse_ws_from true (String a r')); [now elim Hne | reflexivity].
  - rewrite (rstrip_keep c r E), !(collapse_keep b c _ E).
    now rewrite (rstrip_keep c _ E), IH.
Qed.

(** Tidying before or after trimming gives the same text. *)
Lemma strip_collapse (s : string) :
  Str.strip (Str.collapse_ws s) = Str.collapse_ws (Str.strip s).
Proof.
  unfold Str.strip, Str.collapse_ws.
  now rewrite lstrip_collapse, <- rstrip_collapse, collapse_lstrip.
Qed.

Lemma lstrip_rstrip (s : string) : Str.lstrip (Str.rstrip s) = Str.rstrip (Str.lstrip s).
Proof.
  induction s as [|c r IH]; [easy|].
  destruct (Str.is_space c) eqn:E.
  - rewrite (rstrip_blank c r E). simpl Str.lstrip at 2. rewrite E, <- IH.
    destruct (Str.rstrip r) as [|a r']; [easy|].
    simpl. now rewrite E.
  - simpl Str.lstrip at 2. rewrite E, (rstrip_keep c r E). simpl. now rewrite E.
Qed.

Lemma lstrip_lstrip (s : string) : Str.lstrip (Str.lstrip s) = Str.lstrip s.
Proof.
  induction s as [|c r IH]; [easy|].
  simpl. destruct (Str.is_space c) eqn:E; [exact IH|]. simpl. now rewrite E.
Qed.

Lemma rstrip_rstrip (s : string) : Str.rstrip (Str.rstrip s) = Str.rstrip s.
Proof.
  induction s as [|c r IH]; [easy|].
  destruct (Str.is_space c) eqn:E.
  - rewrite (rstrip_blank c r E). destruct (Str.rstrip r) as [|a r'] eqn:Er; [easy|].
    rewrite (rstrip_blank c _ E), IH. reflexivity.
  - now rewrite !(rstrip_keep c _ E), IH.
Qed.

Lemma strip_strip (s : string) : Str.strip (Str.strip s) = Str.strip s.
Proof.
  unfold Str.strip. now rewrite lstrip_rstrip, lstrip_lstrip, rstrip_rstrip.
Qed.

Lemma collapse_collapse (s : string) :
  (forall b, Str.collapse_ws_from false (Str.collapse_ws_from b s) = Str.collapse_ws_from b s)
  /\ Str.collapse_ws_from true (Str.collapse_ws_from true s) = Str.collapse_ws_from true s.
Proof.
  induction s as [|c r [IHf IHt]]; [split; [intros b|]; reflexivity|].
  split; [intros b|]; simpl; destruct (Str.is_space c) eqn:E.
  - destruct b; [apply IHf|]. simpl. now rewrite IHt.
  - simpl. now rewrite E, IHf.
  - exact IHt.
  - simpl. now rewrite E, IHf.
Qed.

(** X1. [clean_text] is idempotent: cleaning a text that was already
    cleaned changes nothing, whatever the text (or [None]) was. *)
Theorem clean_text_idempotent (s : option string) :
  Normalize.clean_text (Some (Normalize.clean_text s)) = Normalize.clean_text s.
Proof.
  unfold Normalize.clean_text. simpl (default "" (Some _)).
  generalize (default "" s). intros t.
  rewrite <- (strip_collapse (Str.collapse_ws t)), strip_strip.
  unfold Str.collapse_ws.
  now rewrite (proj1 (collapse_collapse t) false).
Qed.

(** X2. The helper [_clean] of the search API (trim, then collapse
    whitespace) and [clean_text] of the normalizers (collapse, then trim)
    return the same text on every input. *)
Theorem search_clean_is_clean_text (s : option string) :
  Search._clean s = Normalize.clean_text s.
Proof.
  unfold Search._clean, Normalize.clean_text.
  destruct s as [t|]; simpl default.
  - symmetry. apply strip_collapse.
  - reflexivity.
Qed.

(** X3. [_t] of the stand-alone parser returns the text [clean_text]
    returns, except that a blank result is [None]: it never returns the
    empty text. *)
Theorem tidy_is_clean_text (s : string) :
  Scraper._t (Some s)
  = (if Str.truthy (Normalize.clean_text (Some s))
     then Some (Normalize.clean_text (Some s)) else None)
  /\ Scraper._t (Some s) <> Some "".
Proof.
  unfold Scraper._t, Normalize.clean_text. simpl default.
  rewrite strip_collapse.
  assert (Hiff : Str.truthy (Str.collapse_ws (Str.strip s)) = Str.truthy (Str.strip s)).
  { unfold Str.truthy. f_equal.
    destruct (Str.strip s) as [|c r] eqn:Es; [reflexivity|].
    destruct (Str.collapse_ws (String c r)) as [|a q] eqn:Ec; [|reflexivity].
    apply collapse_empty in Ec. rewrite <- Es in Ec. unfold Str.strip in Ec.
    apply rstrip_all_space in Ec. unfold Str.strip in Es. rewrite Es in Ec.
    discriminate Ec. }
  rewrite Hiff. split; [reflexivity|].
  destruct (Str.truthy (Str.strip s)) eqn:Et; [|easy].
  intros [= H]. rewrite H in Hiff. cbv in Hiff. discriminate Hiff.
Qed.

(** ** Integer-ish text *)

Lemma space_facts (c : ascii) :
  Str.is_space c = true ->
  Str.is_digit c = false /\ Scraper.int_char c = false /\ Scraper.money_char c = false.
Proof.
  destruct c as [[] [] [] [] [] [] [] []]; cbv; intros H; try discriminate H; tauto.
Qed.

Lemma upper_char_digit (c : ascii) :
  Str.is_digit (Str.upper_char c) = Str.is_digit c
  /\ (Str.is_digit c = true -> Str.upper_char c = c).
Proof.
  destruct c as [[] [] [] [] [] [] [] []]; split; try reflexivity; cbv; intros H;
    discriminate H.
Qed.

Lemma filter_lstrip (p : ascii -> bool) (s : string) :
  (forall c, Str.is_space c = true -> p c = false) ->
  Str.filter p (Str.lstrip s) = Str.filter p s.
Proof.
  intros Hp. induction s as [|c r IH]; [easy|].
  simpl. destruct (Str.is_space c) eqn:E; [|reflexivity].
  now rewrite (Hp c E).
Qed.

Lemma filter_rstrip (p : ascii -> bool) (s : string) :
  (forall c, Str.is_space c = true -> p c = false) ->
  Str.filter p (Str.rstrip s) = Str.filter p s.
Proof.
  intros Hp. induction s as [|c r IH]; [easy|].
  simpl. destruct (Str.rstrip r) as [|a r'] eqn:Er.
  - rewrite <- IH. destruct (Str.is_space c) eqn:E.
    + now rewrite (Hp c E).
    + reflexivity.
  - rewrite <- IH. reflexivity.
Qed.

Lemma filter_strip (p : ascii -> bool) (s : string) :
  (forall c, Str.is_space c = true -> p c = false) ->
  Str.filter p (Str.strip s) = Str.filter p s.
Proof.
  intros Hp. unfold Str.strip. now rewrite filter_rstrip, filter_lstrip.
Qed.

Lemma filter_upper_digit (s : string) :
  Str.filter Str.is_digit (Str.upper s) = Str.filter Str.is_digit s.
Proof.
  unfold Str.upper. induction s as [|c r IH]; [easy|].
  simpl. destruct (upper_char_digit c) as [-> Hfix]. rewrite IH.
  destruct (Str.is_digit c) eqn:E; [now rewrite Hfix | reflexivity].
Qed.

Lemma int_of_digits (c : ascii) (d : string) :
  Str.is_digit c = true -> Str.forallb Str.is_digit d = true ->
  Scraper.int_of_cleaned (String c d)
  = if Z.of_nat (String.length (String c d)) <=? max_str_digits
    then Ok (Z.of_N (Str.digits_value (String c d)))
    else Raise ValueError.
Proof.
  intros Hc Hd. unfold Scraper.int_of_cleaned.
  replace (match String c d with String "-" r => (true, r) | _ => (false, String c d) end)
    with (false, String c d) by (digit_head c Hc; reflexivity).
  unfold Dec.all_digits. simpl Str.forallb. rewrite Hc, Hd.
  cbn [Str.truthy andb]. change (Str.truthy (String c d)) with true. cbn [andb].
  now destruct (_ <=? _).
Qed.

(** X4. Integer-ish text is read by its digits alone. For a text without a
    minus sign that holds at least one digit and at most 4300 of them,
    [_intish] and the local [_area_to_int] both return the number written
    by all the digits of the text, in order, whatever stands between them:
    a decimal point or a unit does not end the number. With more than 4300
    digits the conversion to an integer fails and both return [None]. *)
Theorem intish_reads_every_digit (s : string) :
  Str.forallb (fun c => negb (Ascii.eqb c "-")) s = true ->
  Str.truthy (Str.filter Str.is_digit s) = true ->
  (Z.of_nat (String.length (Str.filter Str.is_digit s)) <= max_str_digits ->
   Scraper._intish (Some s) = Some (Z.of_N (Str.digits_value (Str.filter Str.is_digit s)))
   /\ Standalone._area_to_int (Some s)
      = Some (Z.of_N (Str.digits_value (Str.filter Str.is_digit s))))
  /\ (max_str_digits < Z.of_nat (String.length (Str.filter Str.is_digit s)) ->
      Scraper._intish (Some s) = None /\ Standalone._area_to_int (Some s) = None).
Proof.
  intros Hminus Hdig.
  assert (Hcl : Str.filter Scraper.int_char s = Str.filter Str.is_digit s).
  { apply (filter_agree _ _ (fun c => negb (Ascii.eqb c "-"))); [|exact Hminus].
    intros c Hc. unfold Scraper.int_char. apply negb_true_iff in Hc. rewrite Hc.
    apply orb_false_r. }
  destruct (Str.filter Str.is_digit s) as [|c d] eqn:Ed; [discriminate Hdig|].
  pose proof (forallb_filter Str.is_digit s) as Hall. rewrite Ed in Hall.
  simpl in Hall. apply andb_true_iff in Hall as [Hc Hd].
  assert (Hmem : Str.mem (String c d) [""; "-"] = false)
    by (digit_head c Hc; destruct d; reflexivity).
  assert (Hintish : Scraper._intish (Some s)
                    = try_except (z ← Scraper.int_of_cleaned (String c d); Ok (Some z)) None).
  { unfold Scraper._intish.
    assert (Hst : Str.filter Str.is_digit (Str.strip s) = String c d)
      by (rewrite filter_strip; [exact Ed | intros; now apply space_facts]).
    assert (Ht : Str.truthy (Str.strip s) = true)
      by (destruct (Str.strip s); [discriminate Hst | reflexivity]).
    assert (Hna : String.eqb (Str.upper (Str.strip s)) "N/A" = false).
    { destruct (String.eqb_spec (Str.upper (Str.strip s)) "N/A") as [E|]; [|reflexivity].
      rewrite <- filter_upper_digit, E in Hst. discriminate Hst. }
    rewrite Ht, Hna. cbn [negb orb].
    rewrite filter_strip by (intros; now apply space_facts).
    now rewrite Hcl, Hmem. }
  assert (Harea : Standalone._area_to_int (Some s)
                  = try_except (z ← Scraper.int_of_cleaned (String c d); Ok (Some z)) None).
  { unfold Standalone._area_to_int.
    assert (Ht : Str.truthy s = true) by (destruct s; [discriminate Ed | reflexivity]).
    rewrite Ht. cbn [negb]. now rewrite Hcl, Hmem. }
  rewrite Hintish, Harea, (int_of_digits c d Hc Hd).
  split; intros Hlen.
  - apply Z.leb_le in Hlen. rewrite Hlen. split; reflexivity.
  - apply Z.leb_gt in Hlen. rewrite Hlen. split; reflexivity.
Qed.

Lemma intish_reads_every_digit_witness :
  Str.forallb (fun c => negb (Ascii.eqb c "-")) "1,234.5 sq ft" = true
  /\ Str.truthy (Str.filter Str.is_digit "1,234.5 sq ft") = true
  /\ Scraper._intish (Some "1,234.5 sq ft") = Some 12345
  /\ Standalone._area_to_int (Some "1,234.5 sq ft") = Some 12345.
Proof.
  split; [reflexivity|]. split; [reflexivity|].
  apply (intish_reads_every_digit "1,234.5 sq ft" eq_refl eq_refl).
  vm_compute. discriminate.
Defined.

(** A numeral of 4301 digits is no integer for either helper. *)
Example intish_long_numeral :
  Scraper._intish (Some (sevens 4301)) = None
  /\ Standalone._area_to_int (Some (sevens 4301)) = None.
Proof. split; vm_compute; reflexivity. Qed.

(** ** Areas with a unit *)

Lemma str_drop_length (k : nat) (s : string) :
  (String.length (Str.drop k s) <= String.length s)%nat.
Proof.
  revert s. induction k as [|k IH]; intros [|c r]; simpl; try lia.
  specialize (IH r). lia.
Qed.

(** Enough fuel is enough: the result of a replacement does not depend on
    the bound once it covers the text. *)
Lemma replace_fuel_enough (a : ascii) (o new : string) (n m : nat) (s : string) :
  (String.length s <= n)%nat -> (String.length s <= m)%nat ->
  Str.replace_fuel n (String a o) new s = Str.replace_fuel m (String a o) new s.
Proof.
  revert m s. induction n as [|n IH]; intros [|m] [|c r] Hn Hm; simpl in Hn, Hm;
    try reflexivity; try lia.
  cbn [Str.replace_fuel]. destruct (Str.starts_with (String a o) (String c r)).
  - f_equal. pose proof (str_drop_length (String.length o) r).
    apply IH; cbn [String.length Str.drop]; lia.
  - f_equal. apply IH; lia.
Qed.

Lemma replace_cons (a : ascii) (o new : string) (c : ascii) (r : string) :
  Str.replace (String a o) new (String c r)
  = if Str.starts_with (String a o) (String c r)
    then (new ++ Str.replace (String a o) new (Str.drop (String.length o) r))%string
    else String c (Str.replace (String a o) new r).
Proof.
  unfold Str.replace. cbn [String.length Str.replace_fuel Str.drop].
  pose proof (str_drop_length (String.length o) r).
  destruct (Str.starts_with (String a o) (String c r)); f_equal;
    apply replace_fuel_enough; lia.
Qed.

(** A prefix that does not hold the first character of [old] is passed
    over. *)
Lemma replace_skip (a : ascii) (o new s t : string) :
  Str.forallb (fun c => negb (Ascii.eqb a c)) s = true ->
  Str.replace (String a o) new (s ++ t)%string
  = (s ++ Str.replace (String a o) new t)%string.
Proof.
  induction s as [|c r IH]; [easy|].
  cbn [Str.forallb]. rewrite andb_true_iff, negb_true_iff. intros [Hc Hr].
  change (String c r ++ t)%string with (String c (r ++ t)%string).
  rewrite replace_cons. cbn [Str.starts_with]. rewrite Hc. cbn [andb].
  now rewrite (IH Hr).
Qed.

Lemma collapse_prefix (b : bool) (c : ascii) (r t : string) :
  Str.forallb no_space (String c r) = true ->
  Str.collapse_ws_from b (String c r ++ t)%string
  = (String c r ++ Str.collapse_ws_from false t)%string.
Proof.
  revert b c. induction r as [|c' r IH]; intros b c; cbn [Str.forallb];
    unfold no_space at 1; rewrite andb_true_iff, negb_true_iff; intros [Hc Hr].
  - change (String c "" ++ t)%string with (String c t).
    now rewrite (collapse_keep b c t Hc).
  - change (String c (String c' r) ++ t)%string with (String c (String c' r ++ t)%string).
    now rewrite (collapse_keep b c _ Hc), (IH false c' Hr).
Qed.

Lemma rstrip_prefix (s t : string) :
  Str.forallb no_space s = true -> Str.rstrip (s ++ t)%string = (s ++ Str.rstrip t)%string.
Proof.
  induction s as [|c r IH]; [easy|].
  cbn [Str.forallb]. unfold no_space at 1. rewrite andb_true_iff, negb_true_iff.
  intros [Hc Hr].
  change (String c r ++ t)%string with (String c (r ++ t)%string).
  now rewrite (rstrip_keep c _ Hc), (IH Hr).
Qed.

Lemma str_map_app (f : ascii -> ascii) (s t : string) :
  Str.map f (s ++ t)%string = (Str.map f s ++ Str.map f t)%string.
Proof.
  induction s as [|c r IH]; [easy|].
  change (String (f c) (Str.map f (r ++ t)%string)
          = String (f c) (Str.map f r ++ Str.map f t)%string).
  now rewrite IH.
Qed.

Lemma lower_app (s t : string) : Str.lower (s ++ t)%string = (Str.lower s ++ Str.lower t)%string.
Proof. apply str_map_app. Qed.

Lemma numeral_char_facts (c : ascii) :
  digit_or_comma c = true ->
  Str.lower_char c = c
  /\ negb (Ascii.eqb "s" c) = true.
Proof.
  destruct c as [[] [] [] [] [] [] [] []]; cbv; intros H; try discriminate H; tauto.
Qed.

Section UnitSuffix.

Variable s : string.
Hypothesis numeral : grouped_numeral s = true.

Let chars : Str.forallb digit_or_comma s = true := numeral_chars s numeral.

Lemma numeral_no_blank : Str.forallb no_space s = true.
Proof. eapply forallb_impl; [|exact chars]. intros; now apply digit_or_comma_facts. Qed.

Lemma numeral_lower : Str.lower s = s.
Proof.
  apply (map_fixed _ digit_or_comma); [|exact chars].
  intros; now apply numeral_char_facts.
Qed.

Lemma numeral_no_s : Str.forallb (fun c => negb (Ascii.eqb "s" c)) s = true.
Proof. eapply forallb_impl; [|exact chars]. intros; now apply numeral_char_facts. Qed.

(** A numeral followed by a suffix in tidy form is already clean. *)
Lemma clean_text_suffix (u : string) :
  Str.collapse_ws_from false u = u -> Str.rstrip u = u ->
  Normalize.clean_text (Some (s ++ u)%string) = (s ++ u)%string.
Proof.
  intros Hc Hr. pose proof numeral_no_blank as Hs.
  destruct s as [|c r] eqn:Es; [discriminate numeral|].
  unfold Normalize.clean_text, Str.collapse_ws, Str.strip. simpl default.
  rewrite (collapse_prefix false c r u Hs), Hc.
  assert (Hcs : Str.is_space c = false)
    by (cbn [Str.forallb] in Hs; apply andb_true_iff in Hs as [Hcs _];
        now apply negb_true_iff in Hcs).
  change (String c r ++ u)%string with (String c (r ++ u)%string).
  rewrite (lstrip_head c Hcs).
  change (String c (r ++ u)%string) with (String c r ++ u)%string.
  now rewrite (rstrip_prefix _ u Hs), Hr.
Qed.

Lemma to_num_trailing_blank :
  Normalize.to_num (Some (s ++ " ")%string) = Normalize.to_num (Some s).
Proof.
  unfold Normalize.to_num.
  replace (Normalize.clean_text (Some (s ++ " ")%string)) with (Normalize.clean_text (Some s));
    [reflexivity|].
  rewrite (clean_text_no_space s numeral_no_blank).
  pose proof numeral_no_blank as Hs.
  destruct s as [|c r] eqn:Es; [discriminate numeral|].
  unfold Normalize.clean_text, Str.collapse_ws, Str.strip. simpl default.
  rewrite (collapse_prefix false c r " " Hs).
  assert (Hcs : Str.is_space c = false)
    by (cbn [Str.forallb] in Hs; apply andb_true_iff in Hs as [Hcs _];
        now apply negb_true_iff in Hcs).
  change (String c r ++ Str.collapse_ws_from false " ")%string
    with (String c (r ++ " ")%string).
  rewrite (lstrip_head c Hcs).
  change (String c (r ++ " ")%string) with (String c r ++ " ")%string.
  rewrite (rstrip_prefix _ " " Hs). symmetry. apply append_empty.
Qed.

Lemma to_sqft_suffix (u : string) :
  Str.collapse_ws_from false u = u -> Str.rstrip u = u ->
  Str.replace "sf" "" (Str.replace "sqft" "" (Str.lower u)) = " " ->
  Normalize.to_sqft (Some (s ++ u)%string) = Some (Dec.DFin false (Z.to_N (amount s)) 0).
Proof.
  intros Hc Hr Hsf. unfold Normalize.to_sqft.
  rewrite (clean_text_suffix u Hc Hr).
  rewrite lower_app, numeral_lower.
  rewrite (replace_skip "s" "qft" "" s _ numeral_no_s).
  rewrite (replace_skip "s" "f" "" s _ numeral_no_s), Hsf.
  rewrite to_num_trailing_blank, (to_num_grouped_numeral s numeral).
  unfold amount. now rewrite N2Z.id.
Qed.

End UnitSuffix.

(** X5. [to_sqft] reads an area written as a numeral with thousands
    separators followed by the unit [sqft] or [SF], in either letter case:
    the result is the number the digits write. *)
Theorem to_sqft_reads_unit_suffix (s : string) :
  grouped_numeral s = true ->
  Normalize.to_sqft (Some (s ++ " sqft")%string) = Some (Dec.DFin false (Z.to_N (amount s)) 0)
  /\ Normalize.to_sqft (Some (s ++ " SqFt")%string) = Some (Dec.DFin false (Z.to_N (amount s)) 0)
  /\ Normalize.to_sqft (Some (s ++ " SF")%string) = Some (Dec.DFin false (Z.to_N (amount s)) 0)
  /\ Normalize.to_sqft (Some (s ++ " sf")%string) = Some (Dec.DFin false (Z.to_N (amount s)) 0).
Proof.
  intros Hs.
  repeat split; apply (to_sqft_suffix s Hs); reflexivity.
Qed.

Lemma to_sqft_reads_unit_suffix_witness :
  grouped_numeral "2,115" = true
  /\ Normalize.to_sqft (Some "2,115 sqft") = Some (Dec.DFin false 2115 0)
  /\ Normalize.to_sqft (Some "2,115 SF") = Some (Dec.DFin false 2115 0).
Proof.
  split; [reflexivity|].
  pose proof (to_sqft_reads_unit_suffix "2,115" eq_refl) as (H1 & _ & H3 & _).
  split; [exact H1 | exact H3].
Defined.

(** ** Account identifiers *)

Lemma id_char_facts (c : ascii) :
  Utils.id_char (Str.upper_char c) = alphanumeric c
  /\ (Utils.id_char c = true -> Str.upper_char c = c /\ no_space c = true).
Proof.
  destruct c as [[] [] [] [] [] [] [] []]; split; try reflexivity; cbv; intros H;
    try discriminate H; split; reflexivity.
Qed.

Lemma upper_length (s : string) : String.length (Str.upper s) = String.length s.
Proof. unfold Str.upper. induction s as [|c r IH]; [easy|]. simpl. now rewrite IH. Qed.

Lemma forallb_upper (s : string) :
  Str.forallb Utils.id_char (Str.upper s) = Str.forallb alphanumeric s.
Proof.
  unfold Str.upper. induction s as [|c r IH]; [easy|].
  simpl. now rewrite (proj1 (id_char_facts c)), IH.
Qed.

(** X6. On a text of 7-bit characters, [normalize_account_id] accepts
    exactly the texts that, once surrounding whitespace is removed, are 17
    letters and digits; it then returns that text in upper case, and
    raises [ValueError] otherwise. (Outside 7-bit text [str.upper] can
    change the length of a text and [str.strip] removes further
    characters; such text is not modelled.) *)
Theorem normalize_account_id_accepts (raw : string) :
  seven_bit raw = true ->
  Utils.normalize_account_id raw
  = if Nat.eqb (String.length (Str.strip raw)) 17 && Str.forallb alphanumeric (Str.strip raw)
    then Ok (Str.upper (Str.strip raw)) else Raise ValueError.
Proof.
  intros _. unfold Utils.normalize_account_id.
  rewrite upper_length, forallb_upper.
  destruct raw as [|c r]; [reflexivity|].
  cbn [Str.truthy String.eqb negb].
  destruct (Nat.eqb _ 17); [|reflexivity].
  cbn [negb andb]. now destruct (Str.forallb alphanumeric _).
Qed.

Lemma normalize_account_id_accepts_witness :
  seven_bit " 0000abc6533000000 " = true
  /\ Utils.normalize_account_id " 0000abc6533000000 " = Ok "0000ABC6533000000"
  /\ Utils.normalize_account_id "0000-776533000000" = Raise ValueError.
Proof.
  split; [reflexivity|]. split.
  - exact (normalize_account_id_accepts " 0000abc6533000000 " eq_refl).
  - reflexivity.
Defined.

(** X7. An identifier returned by [normalize_account_id] is in normal
    form: it has 17 characters, all upper-case letters or digits, and
    normalizing it again returns it unchanged. *)
Theorem normalize_account_id_normal_form (raw acct : string) :
  Utils.normalize_account_id raw = Ok acct ->
  String.length acct = 17%nat
  /\ Str.forallb Utils.id_char acct = true
  /\ Utils.normalize_account_id acct = Ok acct.
Proof.
  unfold Utils.normalize_account_id at 1.
  destruct (negb (Str.truthy raw)); [discriminate|].
  destruct (Nat.eqb _ 17) eqn:Hlen; [|discriminate]. cbn [negb].
  destruct (Str.forallb Utils.id_char _) eqn:Hch; [|discriminate]. cbn [negb].
  intros [= <-]. apply Nat.eqb_eq in Hlen.
  set (a := Str.upper (Str.strip raw)) in *.
  assert (Hsp : Str.forallb no_space a = true)
    by (eapply forallb_impl; [|exact Hch]; intros c Hc; now apply id_char_facts).
  assert (Hup : Str.upper a = a)
    by (apply (map_fixed _ Utils.id_char); [|exact Hch]; intros c Hc; now apply id_char_facts).
  repeat split; [exact Hlen | exact Hch |].
  unfold Utils.normalize_account_id.
  rewrite (strip_no_space a Hsp), Hup, Hlen, Hch.
  destruct a; [discriminate Hlen | reflexivity].
Qed.

Lemma normalize_account_id_normal_form_witness :
  Utils.normalize_account_id " 0000abc6533000000 " = Ok "0000ABC6533000000"
  /\ Utils.normalize_account_id "0000ABC6533000000" = Ok "0000ABC6533000000".
Proof.
  split; [reflexivity|].
  exact (proj2 (proj2 (normalize_account_id_normal_form
                         " 0000abc6533000000 " "0000ABC6533000000" eq_refl))).
Defined.

(** ** JSON-like values *)

Section JsonInduction.

Variable P : json -> Prop.
Hypothesis on_none : P JNone.
Hypothesis on_bool : forall b, P (JBool b).
Hypothesis on_int : forall z, P (JInt z).
Hypothesis on_str : forall s, P (JStr s).
Hypothesis on_list : forall l, Forall P l -> P (JList l).
Hypothesis on_dict : forall items, Forall (fun kv => P (snd kv)) items -> P (JDict items).

Lemma json_nested_ind (obj : json) : P obj.
Proof.
  revert obj. fix IH 1. intros [| b | z | s | l | items].
  - exact on_none.
  - apply on_bool.
  - apply on_int.
  - apply on_str.
  - apply on_list. induction l as [|x r IHl]; constructor; [apply IH | exact IHl].
  - apply on_dict. induction items as [|[k v] r IHl]; constructor; [apply IH | exact IHl].
Qed.

End JsonInduction.

Lemma fill_na_sentinel (na_value : string) (blank : bool) :
  NaUtils.fill_na na_value blank (JStr na_value) = JStr na_value.
Proof. simpl. now destruct (blank && _). Qed.

(** X8. [fill_na] is idempotent and keeps the shape of its argument: the
    lists keep their lengths and the dictionaries their keys, in order;
    only leaves change. This holds for every sentinel and both settings
    of [treat_blank_as_na]. *)
Theorem fill_na_idempotent (na_value : string) (blank : bool) (obj : json) :
  NaUtils.fill_na na_value blank (NaUtils.fill_na na_value blank obj)
  = NaUtils.fill_na na_value blank obj
  /\ skeleton (NaUtils.fill_na na_value blank obj) = skeleton obj.
Proof.
  induction obj as [| b | z | s | l IH | items IH] using json_nested_ind;
    try (split; reflexivity).
  - split; [apply fill_na_sentinel | reflexivity].
  - cbn [NaUtils.fill_na]. destruct (blank && _) eqn:E.
    + split; [apply fill_na_sentinel | reflexivity].
    + cbn [NaUtils.fill_na]. now rewrite E.
  - cbn [NaUtils.fill_na skeleton]. rewrite !List.map_map.
    split; f_equal.
    + induction IH as [|x r [Hx _] _ IHr]; [reflexivity|].
      cbn [List.map]. now rewrite Hx, IHr.
    + induction IH as [|x r [_ Hx] _ IHr]; [reflexivity|].
      cbn [List.map]. now rewrite Hx, IHr.
  - cbn [NaUtils.fill_na skeleton]. rewrite !List.map_map.
    split; f_equal.
    + induction IH as [|[k v] r [Hv _] _ IHr]; [reflexivity|].
      cbn [List.map]. cbn [snd] in Hv. now rewrite Hv, IHr.
    + induction IH as [|[k v] r [_ Hv] _ IHr]; [reflexivity|].
      cbn [List.map]. cbn [snd] in Hv. now rewrite Hv, IHr.
Qed.

(** X9. With a sentinel that is not blank (the default [N/A] is not) and
    blank texts treated as missing, the result of [fill_na] holds neither
    [None] nor a blank text at any depth, and a value that holds none is
    returned unchanged. *)
Theorem fill_na_leaves_nothing_missing (na_value : string) (obj : json) :
  Str.strip na_value <> "" ->
  filled (NaUtils.fill_na na_value true obj) = true
  /\ (filled obj = true -> NaUtils.fill_na na_value true obj = obj).
Proof.
  intros Hna.
  assert (Hs : filled (JStr na_value) = true).
  { cbn [filled]. destruct (String.eqb_spec (Str.strip na_value) ""); [contradiction|reflexivity]. }
  induction obj as [| b | z | s | l IH | items IH] using json_nested_ind.
  - split; [exact Hs | discriminate].
  - split; reflexivity.
  - split; reflexivity.
  - cbn [NaUtils.fill_na andb]. destruct (String.eqb (Str.strip s) "") eqn:E.
    + split; [exact Hs|]. cbn [filled]. rewrite E. discriminate.
    + split; [|reflexivity]. cbn [filled]. now rewrite E.
  - cbn [NaUtils.fill_na filled]. split.
    + induction IH as [|x r [Hx _] _ IHr]; [reflexivity|].
      cbn [List.map List.forallb]. now rewrite Hx, IHr.
    + intros Hf. f_equal.
      induction IH as [|x r [_ Hx] _ IHr]; [reflexivity|].
      cbn [List.forallb] in Hf. apply andb_true_iff in Hf as [Hfx Hfr].
      cbn [List.map]. now rewrite (Hx Hfx), (IHr Hfr).
  - cbn [NaUtils.fill_na filled]. split.
    + induction IH as [|[k v] r [Hv _] _ IHr]; [reflexivity|].
      cbn [List.map List.forallb]. cbn [snd] in Hv. now rewrite Hv, IHr.
    + intros Hf. f_equal.
      induction IH as [|[k v] r [_ Hv] _ IHr]; [reflexivity|].
      cbn [List.forallb] in Hf. apply andb_true_iff in Hf as [Hfv Hfr].
      cbn [List.map]. cbn [snd] in Hv. now rewrite (Hv Hfv), (IHr Hfr).
Qed.

Lemma fill_na_leaves_nothing_missing_witness :
  Str.strip "N/A" <> ""
  /\ filled (NaUtils.fill_na "N/A" true stored_detail) = true.
Proof.
  assert (H : Str.strip "N/A" <> "") by discriminate.
  split; [exact H|].
  exact (proj1 (fill_na_leaves_nothing_missing "N/A" stored_detail H)).
Defined.

(** ** Paths in a stored detail *)

Lemma safe_get_default (dflt : json) (path : list string) :
  is_dict dflt = false -> Backend._safe_get dflt path dflt = dflt.
Proof. intros H. destruct path; [reflexivity|]. now destruct dflt. Qed.

(** X10. [_safe_get] follows a path step by step: with a default that
    is not a dictionary ([None] and the empty text are the ones in use),
    looking up a path made of two parts is looking up the second part in
    what the first part gives. A missing key anywhere gives the
    default. *)
Theorem safe_get_composes (d : json) (p q : list string) (dflt : json) :
  is_dict dflt = false ->
  Backend._safe_get d (p ++ q) dflt
  = Backend._safe_get (Backend._safe_get d p dflt) q dflt.
Proof.
  intros Hd. revert d. induction p as [|k r IH]; intros d; [reflexivity|].
  cbn [app Backend._safe_get].
  destruct d as [| | | | |items]; try (symmetry; now apply safe_get_default).
  destruct (item k items) as [v|]; [apply IH|].
  symmetry. now apply safe_get_default.
Qed.

Lemma safe_get_composes_witness :
  is_dict (JStr "") = false
  /\ Backend._safe_get stored_detail (["owner"] ++ ["owner_name"]) (JStr "") = JStr "DOE JANE"
  /\ Backend._safe_get stored_detail (["owner"] ++ ["agent"; "name"]) (JStr "") = JStr "".
Proof.
  split; [reflexivity|]. split.
  - rewrite (safe_get_composes stored_detail ["owner"] ["owner_name"] (JStr "") eq_refl).
    reflexivity.
  - rewrite (safe_get_composes stored_detail ["owner"] ["agent"; "name"] (JStr "") eq_refl).
    reflexivity.
Defined.

(** ** Text for the persistence layer *)

(** X11. A text that [to_text_or_none] returns is in normal form: it is
    not empty, has no surrounding whitespace, is not one of the null-like
    tokens in any letter case, and is returned unchanged when passed
    again. *)
Theorem to_text_or_none_normal_form (v : option string) (t : string) :
  Upsert.to_text_or_none v = Some t ->
  t <> ""
  /\ Str.strip t = t
  /\ Str.mem (Str.upper t) Upsert._NULLISH = false
  /\ Upsert.to_text_or_none (Some t) = Some t.
Proof.
  unfold Upsert.to_text_or_none.
  destruct v as [s|]; [|discriminate].
  cbn [Upsert._is_nullish default].
  destruct (Str.mem (Str.upper (Str.strip s)) Upsert._NULLISH) eqn:Hn; [discriminate|].
  unfold id. intros [= <-].
  repeat split.
  - intros E. rewrite E in Hn. discriminate Hn.
  - apply strip_strip.
  - exact Hn.
  - rewrite strip_strip, Hn. reflexivity.
Qed.

Lemma to_text_or_none_normal_form_witness :
  Upsert.to_text_or_none (Some "  Unassigned lot ") = Some "Unassigned lot"
  /\ Upsert.to_text_or_none (Some "Unassigned lot") = Some "Unassigned lot".
Proof.
  split; [reflexivity|].
  exact (proj2 (proj2 (proj2 (to_text_or_none_normal_form
                                (Some "  Unassigned lot ") "Unassigned lot" eq_refl)))).
Defined.

(** ** Label and value tables *)

Lemma lower_char_twice (c : ascii) : Str.lower_char (Str.lower_char c) = Str.lower_char c.
Proof. destruct c as [[] [] [] [] [] [] [] []]; reflexivity. Qed.

Lemma lower_twice (s : string) : Str.lower (Str.lower s) = Str.lower s.
Proof.
  unfold Str.lower. induction s as [|c r IH]; [easy|].
  simpl. now rewrite lower_char_twice, IH.
Qed.

Lemma lower_truthy (s : string) : Str.truthy (Str.lower s) = Str.truthy s.
Proof. now destruct s. Qed.

Lemma label_key_lower (s : string) : Str.truthy s = true -> label_key (Str.lower s).
Proof.
  intros H. split; [|apply lower_twice].
  apply truthy_iff. now rewrite lower_truthy.
Qed.

Section SetDefault.

Variables (k v : string) (out : gmap string string).

Lemma setdefault_keeps (k' v' : string) :
  out !! k' = Some v' -> Detail.setdefault k v out !! k' = Some v'.
Proof.
  intros H. unfold Detail.setdefault. destruct (out !! k) eqn:E; [exact H|].
  rewrite lookup_insert_ne; [exact H | congruence].
Qed.

Lemma setdefault_keys : label_key k -> label_keys out -> label_keys (Detail.setdefault k v out).
Proof.
  intros Hk Hout k' v'. unfold Detail.setdefault. destruct (out !! k) eqn:E; [apply Hout|].
  destruct (decide (k = k')) as [<-|Hne]; [intros _; exact Hk|].
  rewrite lookup_insert_ne by exact Hne. apply Hout.
Qed.

End SetDefault.

Lemma put_pairs_keeps (ps : list (string * string)) (out : gmap string string) (k v : string) :
  out !! k = Some v -> Detail.put_pairs ps out !! k = Some v.
Proof.
  unfold Detail.put_pairs. revert out. induction ps as [|[a b] r IH]; intros out H; [exact H|].
  cbn [fold_left]. apply IH. destruct (Str.truthy a); [now apply setdefault_keeps | exact H].
Qed.

Lemma put_pairs_keys (ps : list (string * string)) (out : gmap string string) :
  Forall (fun p => Str.lower (fst p) = fst p) ps ->
  label_keys out -> label_keys (Detail.put_pairs ps out).
Proof.
  unfold Detail.put_pairs. intros Hps. revert out.
  induction Hps as [|[a b] r Ha _ IH]; intros out Hout; [exact Hout|].
  cbn [fold_left]. apply IH. destruct (Str.truthy a) eqn:Et; [|exact Hout].
  apply setdefault_keys; [|exact Hout]. cbn [fst] in Ha.
  split; [now apply truthy_iff | exact Ha].
Qed.

Lemma lowered_pairs (l : list (string * string)) :
  Forall (fun p => Str.lower (fst p) = fst p)
    (List.map (fun '(k, v) => (Str.lower k, v)) l).
Proof.
  induction l as [|[a b] r IH]; constructor; [apply lower_twice | exact IH].
Qed.

Lemma keyvalue_row_keeps (out : gmap string string) (tr : node) (k v : string) :
  out !! k = Some v -> Detail.keyvalue_row out tr !! k = Some v.
Proof.
  intros H. unfold Detail.keyvalue_row.
  destruct (List.filter _ _) as [|t [|t2 [|t3 rest]]]; [exact H| | |].
  - destruct (Str.contains ":" t); [|exact H].
    destruct (Detail.split_colon t) as [a b].
    destruct (Str.truthy (Str.strip a)); [now apply setdefault_keeps | exact H].
  - now apply put_pairs_keeps.
  - destruct (_ && _); now apply put_pairs_keeps.
Qed.

Lemma keyvalue_row_keys (out : gmap string string) (tr : node) :
  label_keys out -> label_keys (Detail.keyvalue_row out tr).
Proof.
  intros H. unfold Detail.keyvalue_row.
  destruct (List.filter _ _) as [|t [|t2 [|t3 rest]]]; [exact H| | |].
  - destruct (Str.contains ":" t); [|exact H].
    destruct (Detail.split_colon t) as [a b].
    destruct (Str.truthy (Str.strip a)) eqn:Et; [|exact H].
    apply setdefault_keys; [now apply label_key_lower | exact H].
  - apply put_pairs_keys; [|exact H]. constructor; [apply lower_twice | constructor].
  - destruct (_ && _).
    + apply put_pairs_keys; [|exact H].
      generalize (combine (find_all (Detail.class_matches ["fieldname"; "fieldlabel"]) tr)
                    (find_all (Detail.class_matches ["fieldvalue"; "fieldval"]) tr)).
      intros l. induction l as [|[L V] r IH]; constructor; [apply lower_twice | exact IH].
    + apply put_pairs_keys; [apply lowered_pairs | exact H].
Qed.

(** X12. Every key of the map [parse_keyvalue_table] builds is a
    lower-case text that is not empty, and the first value read for a
    label stays: a row never changes what the rows before it have
    recorded. *)
Theorem parse_keyvalue_table_keys (tbl : node) :
  label_keys (Detail.parse_keyvalue_table tbl)
  /\ (forall rows1 rows2 k v,
        find_all (named ["tr"]) tbl = rows1 ++ rows2 ->
        fold_left Detail.keyvalue_row rows1 ∅ !! k = Some v ->
        Detail.parse_keyvalue_table tbl !! k = Some v).
Proof.
  unfold Detail.parse_keyvalue_table. split.
  - assert (Hfold : forall rows out, label_keys out ->
                      label_keys (fold_left Detail.keyvalue_row rows out)).
    { induction rows as [|tr rows IH]; intros out Hout; [exact Hout|].
      cbn [fold_left]. apply IH. now apply keyvalue_row_keys. }
    apply Hfold. intros k v Hk. rewrite lookup_empty in Hk. discriminate Hk.
  - intros rows1 rows2 k v -> Hk. rewrite fold_left_app.
    generalize dependent (fold_left Detail.keyvalue_row rows1 ∅).
    induction rows2 as [|tr rows IH]; intros out Hout; [exact Hout|].
    cbn [fold_left]. apply IH. now apply keyvalue_row_keeps.
Qed.

(** ** The main-improvement record *)

Lemma main_improvement_fields_keys (kv : gmap string string) :
  List.map fst (Detail.main_improvement_fields kv) = main_improvement_keys.
Proof.
  unfold Detail.main_improvement_fields.
  destruct (Detail._parse_baths_full_half kv) as [bf bh]. reflexivity.
Qed.

Lemma blank_to_none_not_blank (v : Detail.pyval) : Detail.blank_to_none v <> Detail.VStr "".
Proof. destruct v as [|[|c r]| | |]; discriminate. Qed.

(** X13. [parse_main_improvement] returns either the empty dictionary or
    a record with exactly the 35 keys of the main-improvement section,
    never a part of it; and no value of the record is the empty text
    (an empty text is stored as [None]). *)
Theorem parse_main_improvement_all_or_nothing (doc : node) :
  (Detail.parse_main_improvement doc = ∅
   \/ forall k, is_Some (Detail.parse_main_improvement doc !! k)
                <-> In k main_improvement_keys)
  /\ (forall k, Detail.parse_main_improvement doc !! k <> Some (Detail.VStr "")).
Proof.
  unfold Detail.parse_main_improvement.
  destruct (Detail.or_else _ _) as [tbl|]; [|split; [now left | intros k; now rewrite lookup_empty]].
  set (kv := Detail.parse_keyvalue_table tbl).
  set (out := List.map _ (Detail.main_improvement_fields kv)).
  assert (Hkeys : out.*1 = main_improvement_keys).
  { subst out. rewrite <- (main_improvement_fields_keys kv).
    generalize (Detail.main_improvement_fields kv). intros l.
    induction l as [|[k v] r IH]; [reflexivity|]. cbn. now rewrite IH. }
  assert (Hvals : forall k v, (k, v) ∈ out -> v <> Detail.VStr "").
  { subst out. generalize (Detail.main_improvement_fields kv). intros l k v.
    induction l as [|[k0 v0] r IH]; cbn [List.map]; [now intros ?%elem_of_nil|].
    intros [[= -> ->]|Hin]%elem_of_cons; [apply blank_to_none_not_blank | now apply IH]. }
  destruct (negb _); [split; [now left | intros k; now rewrite lookup_empty]|].
  split.
  - right. intros k. rewrite <- Hkeys, <- list_elem_of_In.
    destruct (list_to_map out !! k) as [v|] eqn:E.
    + split; [intros _ | eauto].
      apply elem_of_list_to_map_2 in E. apply list_elem_of_fmap. now exists (k, v).
    + split; [intros [? [=]]|]. intros Hin.
      apply (not_elem_of_list_to_map (M := gmap string)) in E. contradiction.
  - intros k E. apply elem_of_list_to_map_2 in E. now apply Hvals in E.
Qed.

(** ** Tax tables *)

Lemma bucket_for_canonical (label : string) :
  In (Detail.bucket_for label) Detail.canonical_jurisdictions.
Proof.
  unfold Detail.bucket_for, Detail.canonical_jurisdictions.
  repeat (match goal with |- context [if ?b then _ else _] => destruct b end);
    simpl; tauto.
Qed.

(** X14. The estimated-taxes map never has a key outside the six
    canonical jurisdictions: whatever the column headers of the table
    read, each column is filed under one of the six. *)
Theorem estimated_taxes_keys_are_canonical (doc : node) (k : string) :
  estimated_taxes_map doc !! k = None \/ In k Detail.canonical_jurisdictions.
Proof.
  destruct (In_dec string_dec k Detail.canonical_jurisdictions) as [Hin|Hout];
    [now right | left].
  unfold estimated_taxes_map, Detail.parse_estimated_taxes.
  destruct (Detail.estimated_taxes_rows doc) as [[r0 data]|]; [|apply lookup_empty].
  destruct (fold_left Detail.tax_row data _) as [named_rows total]. cbn [fst].
  change (Detail.synthesize_missing ?b) with (synthesize Detail.canonical_jurisdictions b).
  rewrite (synthesize_other _ _ _ Hout), fill_buckets_other; [apply lookup_empty|].
  intros Hin. apply Hout. apply in_map_iff in Hin as (col & <- & _).
  apply bucket_for_canonical.
Qed.

(** X15. When two column headers of the estimated-taxes table are filed
    under the same jurisdiction, the figures of the later column replace
    those of the earlier one: the entry of a jurisdiction is read from the
    last column filed under it. A column headed County and School
    Equalization, for one, is filed under [school] and replaces the
    column headed School before it. *)
Theorem later_tax_column_replaces_earlier
    (tj rate tv et tc : list string) (cols1 cols2 : list string) (col : string) :
  Str.mem (Detail.bucket_for col) (List.map Detail.bucket_for cols2) = false ->
  Detail.fill_buckets tj rate tv et tc 0 (cols1 ++ col :: cols2) ∅ !! Detail.bucket_for col
  = Some (tax_entry_at tj rate tv et tc (List.length cols1)).
Proof.
  intros Hlast. change (List.length cols1) with (0 + List.length cols1)%nat.
  generalize 0%nat (∅ : gmap string Detail.tax_entry).
  induction cols1 as [|c r IH]; intros i b.
  - cbn [app Detail.fill_buckets List.length]. rewrite Nat.add_0_r.
    rewrite fill_buckets_other; [apply lookup_insert_eq|].
    intros Hin. apply mem_In in Hin. congruence.
  - cbn [app Detail.fill_buckets List.length]. rewrite IH. f_equal. f_equal. lia.
Qed.

Lemma later_tax_column_replaces_earlier_witness :
  Str.mem (Detail.bucket_for "County and School Equalization")
    (List.map Detail.bucket_for ["College"; "Hospital"; "Special District"]) = false
  /\ Detail.taxing_unit
       <$> (Detail.fill_buckets sample_tax_units [] [] [] [] 0 sample_tax_columns ∅ !! "school")
     = Some "DALLAS COUNTY".
Proof.
  split; [reflexivity|].
  change sample_tax_columns
    with (["City"; "School"] ++ "County and School Equalization"
            :: ["College"; "Hospital"; "Special District"]).
  change "school" with (Detail.bucket_for "County and School Equalization").
  rewrite (later_tax_column_replaces_earlier sample_tax_units [] [] [] []
             ["City"; "School"] ["College"; "Hospital"; "Special District"]
             "County and School Equalization" eq_refl).
  reflexivity.
Defined.

Lemma at_or_na_filled (l : list string) (i : nat) : Detail.at_or_na l i <> "".
Proof.
  unfold Detail.at_or_na, Detail.str_or.
  destruct (Str.truthy _) eqn:E; [now apply truthy_iff | discriminate].
Qed.

(** X16. No field of an exemptions entry is ever the empty text: a cell
    that is missing or blank is reported as [N/A], for every jurisdiction
    of the map. *)
Theorem exemption_fields_never_empty (doc : node) :
  map_Forall (fun _ e => exemption_filled e) (Detail.parse_exemptions_sections doc).
Proof.
  unfold Detail.parse_exemptions_sections.
  destruct (Detail.exemptions_table_of doc) as [ex_tbl|]; [|apply map_Forall_empty].
  destruct (find_all _ ex_tbl) as [|r0 [|r1 [|r2 rest]]]; try apply map_Forall_empty.
  generalize (Detail.exemptions_row3 ex_tbl rest) (Detail.td_texts r1) (Detail.td_texts r2).
  intros row3 row1 row2.
  generalize (List.tl (List.map Detail.cell_text (find_all Detail.cells r0))).
  intros cols. generalize 0%nat.
  assert (Hempty : map_Forall (fun (_ : string) e => exemption_filled e)
                     (∅ : gmap string Detail.exemption_entry)) by apply map_Forall_empty.
  revert Hempty. generalize (∅ : gmap string Detail.exemption_entry).
  induction cols as [|col cols IH]; intros out Hout i; [exact Hout|].
  cbn [Detail.fill_exemptions]. apply IH. apply map_Forall_insert_2; [|exact Hout].
  repeat split; cbn; try apply at_or_na_filled.
  destruct row3; [apply at_or_na_filled | discriminate].
Qed.

(** ** The form of the address search *)

Lemma span_parts (p : ascii -> bool) (s : string) :
  s = (fst (Str.span p s) ++ snd (Str.span p s))%string
  /\ Str.forallb p (fst (Str.span p s)) = true.
Proof.
  induction s as [|c r [IHs IHp]]; [split; reflexivity|].
  cbn [Str.span]. destruct (p c) eqn:E; [|split; reflexivity].
  destruct (Str.span p r) as [a b]. cbn [fst snd] in *. split.
  - change (String c r = String c (a ++ b)%string). now rewrite <- IHs.
  - cbn [Str.forallb]. now rewrite E, IHp.
Qed.

(** X17. The split of a query into house number and street loses
    nothing: either no house number is found and the street is the query
    as given, or the house number is a non-empty run of digits, the street
    is not empty, and the query without its surrounding whitespace is the
    house number, some whitespace and the street, in this order. *)
Theorem split_house_street_parts (q : string) :
  let '(house, street) := Search.split_house_street q in
  (house = "" /\ street = q)
  \/ (house <> "" /\ Str.forallb Str.is_digit house = true /\ street <> ""
      /\ exists blank,
           blank <> "" /\ Str.forallb Str.is_space blank = true
           /\ Str.strip q = (house ++ blank ++ street)%string).
Proof.
  unfold Search.split_house_street.
  destruct (span_parts Str.is_digit (Str.strip q)) as [Hs Hd].
  destruct (Str.span Str.is_digit (Str.strip q)) as [digits rest]. cbn [fst snd] in Hs, Hd.
  destruct (span_parts Str.is_space rest) as [Hr Hb].
  destruct (Str.span Str.is_space rest) as [blank street]. cbn [fst snd] in Hr, Hb.
  destruct (Str.truthy digits) eqn:Etd; [|left; now split].
  destruct (Str.truthy blank) eqn:Etb; [|left; now split].
  destruct (Str.truthy street) eqn:Ets; [|left; now split].
  destruct (Str.forallb _ street); [|left; now split].
  right. repeat split; try (now apply truthy_iff); [exact Hd|].
  exists blank. repeat split; [now apply truthy_iff | exact Hb |].
  now rewrite Hs, Hr.
Qed.

(** ** Paging *)

Lemma postback_target_filled (href t : string) :
  Search.postback_target href = Some t ->
  t <> "" /\ Str.forallb (fun c => negb (Ascii.eqb c "'")) t = true.
Proof.
  induction href as [|c r IH].
  - cbn. discriminate.
  - cbn [Search.postback_target].
    destruct (Str.starts_with "__doPostBack('" (String c r)); [|exact IH].
    destruct (span_parts (fun c => negb (Ascii.eqb c "'")) (Str.drop 14 (String c r)))
      as [_ Hq].
    destruct (Str.span _ (Str.drop 14 (String c r))) as [target rest]. cbn [fst] in Hq.
    destruct (Str.truthy target && Str.starts_with "'" rest) eqn:E; [|exact IH].
    intros [= <-]. apply andb_true_iff in E as [Et _].
    split; [now apply truthy_iff | exact Hq].
Qed.

(** X18. The event target that [_find_next_postback] returns for the
    next page is never the empty text and holds no quote character, so a
    target that is returned always counts as one in the paging loop. *)
Theorem find_next_postback_target_filled (doc : node) :
  match Search._find_next_postback_of doc with
  | Some target =>
      target <> "" /\ Str.forallb (fun c => negb (Ascii.eqb c "'")) target = true
  | None => True
  end.
Proof.
  unfold Search._find_next_postback_of.
  generalize (find_all (fun t => named ["a"] t &&
                                 match attr "href" t with
                                 | Some h => Str.starts_with "javascript:__doPostBack" h
                                 | None => false
                                 end) doc).
  intros links. induction links as [|a r IH]; [exact I|].
  cbn [Detail.first_some].
  destruct (Str.contains "NEXT" _ || Str.mem _ _); [|exact IH].
  destruct (Search.postback_target (attr_or_empty "href" a)) as [t|] eqn:E; [|exact IH].
  now apply (postback_target_filled _ _ E).
Qed.

Lemma setdefault_present (k v : string) (out : gmap string string) :
  is_Some (Detail.setdefault k v out !! k).
Proof.
  unfold Detail.setdefault. destruct (out !! k) eqn:E; [now rewrite E|].
  rewrite lookup_insert_eq. eauto.
Qed.

Lemma setdefault_within (names : list string) (k v : string) (out : gmap string string) :
  In k names -> (forall x, out !! x = None \/ In x names) ->
  forall x, Detail.setdefault k v out !! x = None \/ In x names.
Proof.
  intros Hk Hout x. unfold Detail.setdefault. destruct (out !! k); [apply Hout|].
  destruct (decide (k = x)) as [<-|Hne]; [now right|].
  rewrite lookup_insert_ne by exact Hne. apply Hout.
Qed.

(** X19. The form tokens read from a page always hold the two event
    fields, with the empty text when the page has none, and never a key
    other than the five hidden fields of the form. *)
Theorem extract_tokens_fields (doc : node) :
  is_Some (Search._extract_tokens_of doc !! "__EVENTTARGET")
  /\ is_Some (Search._extract_tokens_of doc !! "__EVENTARGUMENT")
  /\ (forall k, Search._extract_tokens_of doc !! k = None \/ In k Search.token_names).
Proof.
  unfold Search._extract_tokens_of.
  set (step := fun (out : gmap string string) (name : string) => _).
  assert (Hfold : forall names out,
            (forall n, In n names -> In n Search.token_names) ->
            (forall x, out !! x = None \/ In x Search.token_names) ->
            forall x, fold_left step names out !! x = None \/ In x Search.token_names).
  { induction names as [|n names IH]; intros out Hn Hout; [exact Hout|].
    cbn [fold_left]. apply IH; [intros; apply Hn; now right|].
    intros x. subst step. cbn beta.
    destruct (find _ doc) as [el|]; [|apply Hout].
    destruct (attr "value" el) as [v|]; [|apply Hout].
    destruct (decide (n = x)) as [<-|Hne]; [right; apply Hn; now left|].
    rewrite lookup_insert_ne by exact Hne. apply Hout. }
  split; [|split].
  - destruct (setdefault_present "__EVENTTARGET" ""
                (fold_left step Search.token_names ∅)) as [v Hv].
    exists v. now apply setdefault_keeps.
  - apply setdefault_present.
  - apply setdefault_within; [cbn; tauto|].
    apply setdefault_within; [cbn; tauto|].
    apply Hfold; [tauto|]. intros x. left. apply lookup_empty.
Qed.

(** ** De-duplication, again *)

Section FirstSeenAgain.

Context {A : Type} (key : A -> string) (keep_key : string -> bool).

Lemma first_seen_fixed (seen : gset string) (l : list A) :
  NoDup (key <$> l) ->
  (forall r, r ∈ l -> keep_key (key r) = true /\ key r ∉ seen) ->
  first_seen key keep_key seen l = l.
Proof.
  revert seen. induction l as [|r rest IH]; intros seen Hnd Hall; [reflexivity|].
  rewrite fmap_cons in Hnd. apply NoDup_cons in Hnd as [Hr Hnd].
  destruct (Hall r) as [Hk Hs]; [now left|].
  cbn [first_seen]. rewrite Hk, (bool_decide_eq_false_2 _ Hs). cbn [andb negb].
  f_equal. apply IH; [exact Hnd|].
  intros x Hx. destruct (Hall x) as [Hkx Hsx]; [now right|].
  split; [exact Hkx|]. apply not_elem_of_union. split; [|exact Hsx].
  intros E%elem_of_singleton. apply Hr. apply list_elem_of_fmap. now exists x.
Qed.

End FirstSeenAgain.

(** X20. De-duplicating the rows of a search a second time changes
    nothing, in the paged search of the API and in the older search
    module alike. *)
Theorem dedupe_idempotent (rows : list Search.result_row) :
  Search.dedupe (Search.dedupe rows) = Search.dedupe rows
  /\ (forall (A : Type) (key : A -> string) (l : list A),
        Search.keep_first A key (Search.keep_first A key l) = Search.keep_first A key l).
Proof.
  split.
  - rewrite !dedupe_first_seen. apply first_seen_fixed; [apply first_seen_NoDup|].
    intros r Hr. apply first_seen_elem in Hr as (Hk & Hs & _). now split.
  - intros A key l. unfold Search.keep_first.
    rewrite !keep_first_fold. cbn [app].
    apply first_seen_fixed; [apply first_seen_NoDup|].
    intros r Hr. apply first_seen_elem in Hr as (Hk & Hs & _). now split.
Qed.

(** ** Labels of the stand-alone parser *)

Lemma match_key_not_shadowed (label : string) :
  Str.mem (default "" (Standalone._match_key label)) shadowed_keys = false.
Proof.
  unfold Standalone._match_key, Standalone._PAT_LBL. cbn [List.find].
  repeat (match goal with
          | |- context [Detail.is_some (Standalone._label_match label ?p)] =>
              destruct (Detail.is_some (Standalone._label_match label p)); [reflexivity|]
          end).
  reflexivity.
Qed.

(** X21. Three keys of the label table are never the result of
    [_match_key]: [stories_raw] and [basement] stand behind [stories] and
    [basement_raw], which have the same patterns, and
    [building_class_alt] is renamed. The raw map built from the rows of a
    table therefore never holds them. *)
Theorem match_key_never_shadowed (label : string) (kv : list (string * string)) :
  Str.mem (default "" (Standalone._match_key label)) shadowed_keys = false
  /\ Standalone.raw_map_of kv !! "stories_raw" = None
  /\ Standalone.raw_map_of kv !! "basement" = None
  /\ Standalone.raw_map_of kv !! "building_class_alt" = None.
Proof.
  split; [apply match_key_not_shadowed|].
  assert (Hfold : forall k, In k shadowed_keys ->
            forall l (m : gmap string string), m !! k = None ->
              fold_left (fun m '(label, val) =>
                           match Standalone._match_key label with
                           | Some key => <[key := val]> m
                           | None => m
                           end) l m !! k = None).
  { intros k Hk. induction l as [|[lab val] l IH]; intros m Hm; [exact Hm|].
    cbn [fold_left]. apply IH.
    pose proof (match_key_not_shadowed lab) as Hlab.
    destruct (Standalone._match_key lab) as [key|]; [|exact Hm].
    rewrite lookup_insert_ne; [exact Hm|].
    intros ->. apply mem_not_In in Hlab. contradiction. }
  unfold Standalone.raw_map_of.
  repeat split; apply Hfold; try apply lookup_empty; cbn; tauto.
Qed.

(** ** The owner table of the history page *)

Lemma anchor_table_loop_no_cell (n : nat) (tables : list node) :
  List.forallb (fun t => negb (Detail.has_cell t)) tables = true ->
  Detail.anchor_table_loop n tables
  = if (S (List.length tables) <? n)%nat then Raise AttributeError else Ok None.
Proof.
  revert tables. induction n as [|n IH]; intros tables Hno; [reflexivity|].
  destruct tables as [|t rest].
  - now destruct n.
  - cbn [List.forallb] in Hno. apply andb_true_iff in Hno as [Ht Hrest].
    cbn [Detail.anchor_table_loop]. apply negb_true_iff in Ht. rewrite Ht.
    rewrite (IH rest Hrest). reflexivity.
Qed.

(** X22. When the anchor of a history section is found and none of the
    tables after it holds a cell, [_history_find_section_table] raises
    [AttributeError] if fewer than 19 tables follow the anchor (none at
    all included); only from 19 tables on does it fall back to the search
    by heading. *)
Theorem history_anchor_without_table
    (doc : node) (anchor_name header_text : string) (anc : entry) :
  find_entry (fun t => named ["a"; "A"] t && Detail.is_some (attr "name" t) &&
                       String.eqb (Str.lower (attr_or_empty "name" t))
                         (Str.lower anchor_name)) doc = Some anc ->
  List.forallb (fun t => negb (Detail.has_cell t))
    (List.map nd (all_next doc (named ["table"]) anc)) = true ->
  Detail._history_find_section_table doc anchor_name header_text
  = if (List.length (all_next doc (named ["table"]) anc) <=? 18)%nat
    then Raise AttributeError
    else Ok (Detail._table_after_heading doc header_text).
Proof.
  intros Hanc Hno. unfold Detail._history_find_section_table. rewrite Hanc.
  rewrite (anchor_table_loop_no_cell 20 _ Hno), length_map.
  change (S ?n <? 20)%nat with (n <=? 18)%nat.
  now destruct (_ <=? 18)%nat.
Qed.

Lemma history_anchor_without_table_witness :
  Detail._history_find_section_table history_page_without_table "Owner" "Owner / Legal"
  = Raise AttributeError.
Proof.
  exact (history_anchor_without_table history_page_without_table "Owner" "Owner / Legal"
           (Entry 1 [0%nat] (Tag "a" [("name", "Owner")] [])) eq_refl eq_refl).
Defined.

(** ** Numbers that are no numbers *)






(** A number cell that reads as an infinity raises [OverflowError]; one
    that reads as ten to the power 4299, of 4300 digits, gives a row. *)
Example unbounded_number_grid_raises :
  Detail.parse_additional_improvements (Some unbounded_number_grid) = Raise OverflowError
  /\ Normalize.to_num (Some "1e4299") = Some (Dec.DFin false 1 4299)
  /\ py_str (10 ^ 4299) = Ok (str_of_int (10 ^ 4299))
  /\ py_str (10 ^ 4300) = Raise ValueError.
Proof. repeat split; vm_compute; reflexivity. Qed.

(** ** Years of the history tables *)

Lemma digits_value_from_bound (s : string) (acc : N) :
  Str.forallb Str.is_digit s = true ->
  (Str.digits_value_from acc s < (acc + 1) * 10 ^ N.of_nat (String.length s))%N.
Proof.
  revert acc. induction s as [|c r IH]; intros acc H.
  - cbn. lia.
  - cbn [Str.forallb] in H. apply andb_true_iff in H as [Hc Hr].
    cbn [Str.digits_value_from String.length].
    specialize (IH (10 * acc + (Str.code c - 48))%N Hr).
    assert (Hd : (Str.code c - 48 <= 9)%N).
    { unfold Str.is_digit, Str.in_range in Hc. apply andb_true_iff in Hc as [_ Hhi].
      apply N.leb_le in Hhi. lia. }
    rewrite Nat2N.inj_succ, N.pow_succ_r'.
    eapply N.lt_le_trans; [exact IH|].
    set (p := (10 ^ N.of_nat (String.length r))%N). nia.
Qed.

(** X23. A year read by [_to_year_or_none] lies between 0 and 9999, and
    is read only from a text that, once tidied, has exactly four
    characters. *)
Theorem year_text_in_range (txt : option string) (y : Z) :
  History._to_year_or_none txt = Some y ->
  0 <= y <= 9999 /\ String.length (History._norm txt) = 4%nat.
Proof.
  unfold History._to_year_or_none.
  destruct (Nat.eqb _ 4) eqn:Hlen; [|discriminate].
  destruct (Str.forallb Str.is_digit _) eqn:Hdig; [|discriminate].
  cbn [andb]. intros [= <-]. apply Nat.eqb_eq in Hlen.
  split; [|exact Hlen].
  pose proof (digits_value_from_bound _ 0%N Hdig) as Hb. rewrite Hlen in Hb.
  unfold Str.digits_value. change ((0 + 1) * 10 ^ N.of_nat 4)%N with 10000%N in Hb. lia.
Qed.

Lemma year_text_in_range_witness :
  History._to_year_or_none (Some "  2024 ") = Some 2024 /\ 0 <= 2024 <= 9999.
Proof.
  split; [reflexivity|].
  exact (proj1 (year_text_in_range (Some "  2024 ") 2024 eq_refl)).
Defined.

(** ** Located tables *)

Lemma first_table_with_cell_found (doc : node) (h : entry) (t : node) :
  Detail.first_table_with_cell doc h = Some t ->
  named ["table"] t = true /\ Detail.has_cell t = true.
Proof.
  unfold Detail.first_table_with_cell.
  destruct (List.find _ _) as [e|] eqn:E; [|discriminate].
  intros [= <-]. apply find_some in E as [Hin Hcell].
  split; [|exact Hcell].
  assert (Hall : In e (all_next doc (named ["table"]) h))
    by (rewrite <- (firstn_skipn 20 (all_next doc (named ["table"]) h));
        apply in_or_app; now left).
  unfold all_next in Hall. apply filter_In in Hall as [_ Hp].
  now apply andb_true_iff in Hp as [_ Hp].
Qed.

(** X25. A table returned by the locators [_find_after_header_span] and
    [_table_after_heading] is a [table] element that holds at least one
    cell, whatever the document and the heading asked for: a table without
    cells is never handed to a section parser. *)
Theorem located_table_has_cell (doc : node) (heading : string) :
  (forall t, Detail._find_after_header_span doc heading = Some t ->
             named ["table"] t = true /\ Detail.has_cell t = true)
  /\ (forall t, Detail._table_after_heading doc heading = Some t ->
                named ["table"] t = true /\ Detail.has_cell t = true).
Proof.
  split; intros t.
  - unfold Detail._find_after_header_span.
    destruct (find_entry _ doc) as [hdr|]; [|discriminate].
    apply first_table_with_cell_found.
  - unfold Detail._table_after_heading.
    destruct (find_entry _ doc) as [h1|].
    + apply first_table_with_cell_found.
    + destruct (find_entry _ doc) as [h2|]; [apply first_table_with_cell_found|].
      destruct (find_entry _ doc) as [n|]; [|discriminate].
      destruct (parent doc n) as [p|]; [|discriminate].
      apply first_table_with_cell_found.
Qed.
